(** * Stack detection and front-matter configuration of claude-control

    A shallow embedding of
      - [look-before-you-leap/hooks/lib/detect-stack.py],
      - [look-before-you-leap/hooks/lib/read-config.py],
      - [software-discipline/hooks/lib/detect-stack.py]
    and the properties of the classifier, the renderer and the parser.

    Text is a sequence of code points below 256 (Rocq's [ascii] read as
    Latin-1); the character classes are those of Python's [str] methods and
    of [re] on [str] patterns, restricted to that range. *)

From Stdlib Require Import String Ascii List NArith Bool Lia.
From Stdlib Require Import DecimalString.
From stdpp Require Import base gmap strings sorting.
Import ListNotations.

Local Open Scope string_scope.
Local Open Scope list_scope.

(** ** Python primitives *)

Module Py.

(** Exceptions the modelled code can raise. *)
Inductive exn := ValueError | KeyError | TypeError | AttributeError.

Inductive res (A : Type) : Type :=
| Ok (a : A)
| Raise (e : exn).
Arguments Ok {A} a.
Arguments Raise {A} e.

Definition bind {A B} (m : res A) (f : A -> res B) : res B :=
  match m with
  | Ok a => f a
  | Raise e => Raise e
  end.

#[global] Instance res_ret : MRet res := fun _ a => Ok a.
#[global] Instance res_bind : MBind res := fun _ _ f m => bind m f.

(** *** Characters *)

Definition nl : ascii := "010"%char.

Definition code (c : ascii) : N := N_of_ascii c.

Definition between (lo hi : N) (c : ascii) : bool :=
  ((lo <=? code c) && (code c <=? hi))%N.

Definition is_code (n : N) (c : ascii) : bool := (code c =? n)%N.

(** [str.isspace] on one character, which is also [\s] of [re]. *)
Definition is_space (c : ascii) : bool :=
  between 9 13 c || between 28 32 c || is_code 133 c || is_code 160 c.

(** [str.isdecimal]: the characters [int] accepts as digits. *)
Definition is_decimal (c : ascii) : bool := between 48 57 c.

(** [str.isdigit]: decimals and the superscript digits. *)
Definition is_digit (c : ascii) : bool :=
  is_decimal c || is_code 178 c || is_code 179 c || is_code 185 c.

(** [str.isnumeric]: digits and the vulgar fractions. *)
Definition is_numeric (c : ascii) : bool := is_digit c || between 188 190 c.

Definition is_alpha (c : ascii) : bool :=
  between 65 90 c || between 97 122 c
  || is_code 170 c || is_code 181 c || is_code 186 c
  || between 192 214 c || between 216 246 c || between 248 255 c.

(** [\w] of [re] on a [str] pattern: alphanumerics and the underscore. *)
Definition is_word (c : ascii) : bool :=
  is_alpha c || is_numeric c || is_code 95 c.

Definition lower_char (c : ascii) : ascii :=
  if between 65 90 c || between 192 214 c || between 216 222 c
  then ascii_of_N (code c + 32)
  else c.

(** *** Strings *)

Fixpoint lower (s : string) : string :=
  match s with
  | EmptyString => EmptyString
  | String c s' => String (lower_char c) (lower s')
  end.

Fixpoint startswith (p s : string) : bool :=
  match p, s with
  | EmptyString, _ => true
  | String a p', String b s' => Ascii.eqb a b && startswith p' s'
  | String _ _, EmptyString => false
  end.

Fixpoint srev (s : string) : string :=
  match s with
  | EmptyString => EmptyString
  | String c s' => srev s' +:+ String c EmptyString
  end.

Definition endswith (p s : string) : bool := startswith (srev p) (srev s).

(** [needle in hay] *)
Fixpoint contains (needle hay : string) : bool :=
  startswith needle hay ||
  match hay with
  | EmptyString => false
  | String _ hay' => contains needle hay'
  end.

Fixpoint lstrip (s : string) : string :=
  match s with
  | EmptyString => EmptyString
  | String c s' => if is_space c then lstrip s' else s
  end.

Fixpoint rstrip (s : string) : string :=
  match s with
  | EmptyString => EmptyString
  | String c s' =>
      match rstrip s' with
      | EmptyString => if is_space c then EmptyString else String c EmptyString
      | r => String c r
      end
  end.

Definition strip (s : string) : string := rstrip (lstrip s).

Fixpoint all_chars (p : ascii -> bool) (s : string) : bool :=
  match s with
  | EmptyString => true
  | String c s' => p c && all_chars p s'
  end.

Definition nonempty (s : string) : bool :=
  match s with EmptyString => false | String _ _ => true end.

(** [s.isdigit()] *)
Definition isdigit (s : string) : bool := nonempty s && all_chars is_digit s.

Fixpoint drop_last (s : string) : string :=
  match s with
  | EmptyString => EmptyString
  | String c EmptyString => EmptyString
  | String c s' => String c (drop_last s')
  end.

(** [s[1:-1]] *)
Definition slice_1_m1 (s : string) : string :=
  match s with
  | EmptyString => EmptyString
  | String _ s' => drop_last s'
  end.

(** [s.split('\n')] *)
Fixpoint split_nl (s : string) : list string :=
  match s with
  | EmptyString => [EmptyString]
  | String c s' =>
      if Ascii.eqb c nl then EmptyString :: split_nl s'
      else match split_nl s' with
           | l :: ls => String c l :: ls
           | [] => [String c EmptyString]
           end
  end.

(** ["\n".join(lines)] *)
Fixpoint join_nl (lines : list string) : string :=
  match lines with
  | [] => EmptyString
  | [l] => l
  | l :: ls => l +:+ String nl (join_nl ls)
  end.

(** [int(s)] on a string of decimal digits, most significant first. *)
Fixpoint int_acc (acc : N) (s : string) : N :=
  match s with
  | EmptyString => acc
  | String c s' => int_acc (10 * acc + (code c - 48)) s'
  end.

(** [int(s)] for [s] made of [isdigit] characters: the superscript digits
    are digits for [isdigit] and not for [int], which raises on them.  The
    bound that recent interpreters put on the number of digits (beyond it
    [int] raises [ValueError] too) is not modelled. *)
Definition int_of (s : string) : res N :=
  if all_chars is_decimal s then Ok (int_acc 0 s) else Raise ValueError.

(** *** Dictionaries, in insertion order *)

Definition dict (V : Type) : Type := list (string * V).

Fixpoint dict_get {V} (k : string) (d : dict V) : option V :=
  match d with
  | [] => None
  | (k', v) :: d' => if String.eqb k k' then Some v else dict_get k d'
  end.

Definition dict_mem {V} (k : string) (d : dict V) : bool :=
  match dict_get k d with Some _ => true | None => false end.

(** [d[k] = v]: an existing key keeps its place, a new one goes last. *)
Fixpoint dict_set {V} (k : string) (v : V) (d : dict V) : dict V :=
  match d with
  | [] => [(k, v)]
  | (k', v') :: d' =>
      if String.eqb k k' then (k, v) :: d' else (k', v') :: dict_set k v d'
  end.

(** [d.update(e)] *)
Definition dict_update {V} (d e : dict V) : dict V :=
  fold_left (fun acc kv => dict_set (fst kv) (snd kv) acc) e d.

Definition keys {V} (d : dict V) : list string := map fst d.

End Py.

Import Py.

(** ** Data model

    A scalar is a Python [bool], [int] or [str]; a block maps child keys to
    scalars or to lists of scalars; a document maps top-level keys to
    scalars or to blocks. *)

Inductive scalar :=
| SBool (b : bool)
| SInt (n : N)
| SStr (s : string).

Inductive value :=
| VScalar (x : scalar)
| VList (items : list scalar).

Inductive top :=
| TScalar (x : scalar)
| TDict (d : dict value).

(** ** Backtracking matchers for the [re] patterns

    Each matcher takes the rest of the pattern as a continuation [k]; a
    greedy repetition first tries to take one more character and falls back
    to [k] at the current position when that fails, as [re] does. *)

Module Re.

Section Matchers.
Context {A : Type}.

(** [\s*] followed by [k] *)
Fixpoint ws_star (s : string) (k : string -> option A) : option A :=
  match s with
  | String c s' =>
      if is_space c then
        match ws_star s' k with
        | Some r => Some r
        | None => k s
        end
      else k s
  | EmptyString => k s
  end.

(** [\s+] followed by [k] *)
Definition ws_plus (s : string) (k : string -> option A) : option A :=
  match s with
  | String c s' => if is_space c then ws_star s' k else None
  | EmptyString => None
  end.

(** a greedy group of word characters, possibly empty, followed by [k],
    which receives the group and the rest *)
Fixpoint word_star (s : string) (k : string -> string -> option A) : option A :=
  match s with
  | String c s' =>
      if is_word c then
        match word_star s' (fun g r => k (String c g) r) with
        | Some r => Some r
        | None => k EmptyString s
        end
      else k EmptyString s
  | EmptyString => k EmptyString s
  end.

(** the group [[\w_]+] followed by [k] *)
Definition word_plus (s : string) (k : string -> string -> option A) : option A :=
  match s with
  | String c s' =>
      if is_word c then word_star s' (fun g r => k (String c g) r) else None
  | EmptyString => None
  end.

(** one literal character followed by [k] *)
Definition lit (a : ascii) (s : string) (k : string -> option A) : option A :=
  match s with
  | String c s' => if Ascii.eqb c a then k s' else None
  | EmptyString => None
  end.

End Matchers.

(** a greedy group of any characters at the end of a pattern: the longest
    run without a newline *)
Fixpoint dot_star (s : string) : string :=
  match s with
  | EmptyString => EmptyString
  | String c s' => if Ascii.eqb c nl then EmptyString else String c (dot_star s')
  end.

(** the same, of one character at least *)
Definition dot_plus (s : string) : option string :=
  match dot_star s with
  | EmptyString => None
  | g => Some g
  end.

(** a lazy group of any characters, newlines too ([re.DOTALL]), up to the
    first newline followed by three dashes *)
Fixpoint lazy_until_marker (s : string) : option string :=
  if startswith (String nl "---") s then Some EmptyString
  else match s with
       | EmptyString => None
       | String c s' =>
           match lazy_until_marker s' with
           | Some g => Some (String c g)
           | None => None
           end
       end.

End Re.

(** ** read-config.py *)

Module ReadConfig.

Definition dquote : string := String "034"%char EmptyString.
Definition squote : string := String "039"%char EmptyString.

(** [_coerce(val)] *)
Definition _coerce (val : string) : res scalar :=
  if String.eqb (lower val) "true" then Ok (SBool true)
  else if String.eqb (lower val) "false" then Ok (SBool false)
  else if isdigit val then n ← int_of val; Ok (SInt n)
  else if (startswith dquote val && endswith dquote val)
          || (startswith squote val && endswith squote val)
       then Ok (SStr (slice_1_m1 val))
  else Ok (SStr val).

(** The pattern of the front matter: three dashes, [\s*], a newline, the
    lazy group, a newline and three dashes; the result is the group. *)
Definition frontmatter_match (text : string) : option string :=
  Re.lit "-" text (fun t1 => Re.lit "-" t1 (fun t2 => Re.lit "-" t2 (fun t3 =>
    Re.ws_star t3 (fun t4 => Re.lit nl t4 Re.lazy_until_marker)))).

(** The pattern of a list item: [\s+], a dash, [\s+], a group of one
    character at least; the result is the group. *)
Definition list_match (line : string) : option string :=
  Re.ws_plus line (fun r1 => Re.lit "-" r1 (fun r2 =>
    Re.ws_plus r2 Re.dot_plus)).

(** The rest of a key line after the key: [\s*], a colon, [\s*] and a
    group of any characters. *)
Definition colon_value (key rest : string) : option (string * string) :=
  Re.ws_star rest (fun r1 => Re.lit ":" r1 (fun r2 =>
    Re.ws_star r2 (fun r3 => Some (key, Re.dot_star r3)))).

(** The pattern of a child line: [\s+], then as for a top-level key. *)
Definition child_match (line : string) : option (string * string) :=
  Re.ws_plus line (fun r => Re.word_plus r colon_value).

(** The pattern of a top-level key: the group [[\w_]+], [\s*], a colon,
    [\s*] and a group of any characters. *)
Definition top_match (line : string) : option (string * string) :=
  Re.word_plus line colon_value.

(** The local variables of the line loop. *)
Record pstate := PState {
  result : dict top;
  current_parent : option string;
  current_child_list : option (string * string)
}.

(** [result[parent_key][child_key]], which must be a list to have
    [append]. *)
Definition get_list (parent_key child_key : string) (r : dict top)
  : res (list scalar) :=
  match dict_get parent_key r with
  | None => Raise KeyError
  | Some (TScalar _) => Raise TypeError
  | Some (TDict d) =>
      match dict_get child_key d with
      | None => Raise KeyError
      | Some (VScalar _) => Raise AttributeError
      | Some (VList l) => Ok l
      end
  end.

(** [result[parent][key] = v] *)
Definition set_child (parent key : string) (v : value) (r : dict top)
  : res (dict top) :=
  match dict_get parent r with
  | None => Raise KeyError
  | Some (TScalar _) => Raise TypeError
  | Some (TDict d) => Ok (dict_set parent (TDict (dict_set key v d)) r)
  end.

(** One turn of the loop over the lines. *)
Definition parse_line (st : pstate) (line : string) : res pstate :=
  let stripped := strip line in
  if negb (nonempty stripped) || startswith "#" stripped then
    Ok (PState (result st)
               (if negb (nonempty stripped) then None else current_parent st)
               None)
  else
    match list_match line, current_child_list st with
    | Some item, Some (parent_key, child_key) =>
        l ← get_list parent_key child_key (result st);
        x ← _coerce (strip item);
        r ← set_child parent_key child_key (VList (l ++ [x])) (result st);
        Ok (PState r (current_parent st) (current_child_list st))
    | _, _ =>
        match (if startswith "  " line then current_parent st else None) with
        | Some parent =>
            match child_match line with
            | Some (key, v) =>
                let val := strip v in
                if nonempty val then
                  x ← _coerce val;
                  r ← set_child parent key (VScalar x) (result st);
                  Ok (PState r (current_parent st) None)
                else
                  r ← set_child parent key (VList []) (result st);
                  Ok (PState r (current_parent st) (Some (parent, key)))
            | None => Ok (PState (result st) (current_parent st) None)
            end
        | None =>
            match top_match line with
            | Some (key, v) =>
                let val := strip v in
                if nonempty val then
                  x ← _coerce val;
                  Ok (PState (dict_set key (TScalar x) (result st)) None None)
                else
                  Ok (PState (dict_set key (TDict []) (result st))
                             (Some key) None)
            | None => Ok (PState (result st) (current_parent st) None)
            end
        end
    end.

Fixpoint parse_lines (st : pstate) (lines : list string) : res pstate :=
  match lines with
  | [] => Ok st
  | line :: rest => st' ← parse_line st line; parse_lines st' rest
  end.

(** [parse_frontmatter(text)] *)
Definition parse_frontmatter (text : string) : res (dict top) :=
  match frontmatter_match text with
  | None => Ok []
  | Some body =>
      st ← parse_lines (PState [] None None) (split_nl body);
      Ok (result st)
  end.

End ReadConfig.

(** ** The file system and the manifests

    The file system is a read-only oracle queried by path.  A manifest is a
    [package.json] at the types npm gives its fields: a name, a map of
    scripts, maps of dependencies; [pkg_other] says that the object has some
    further key, so that the empty object can be told apart. *)

Record package_json := PackageJson {
  pkg_name : option string;
  pkg_scripts : option (dict string);
  pkg_workspaces : bool;
  pkg_dependencies : option (dict string);
  pkg_devDependencies : option (dict string);
  pkg_peerDependencies : option (dict string);
  pkg_other : bool
}.

(** The truth value of the manifest as a Python [dict]. *)
Definition pkg_truthy (p : package_json) : bool :=
  match pkg_name p with Some _ => true | None => false end
  || match pkg_scripts p with Some _ => true | None => false end
  || pkg_workspaces p
  || match pkg_dependencies p with Some _ => true | None => false end
  || match pkg_devDependencies p with Some _ => true | None => false end
  || match pkg_peerDependencies p with Some _ => true | None => false end
  || pkg_other p.

Record filesystem := FileSystem {
  isfile : string -> bool;                       (* os.path.isfile *)
  isdir : string -> bool;                        (* os.path.isdir *)
  listdir : string -> option (list string);      (* os.listdir, None: OSError *)
  read_json : string -> option package_json      (* read_json *)
}.

(** [sorted] on strings: by code points, lexicographically. *)
Fixpoint insert_sorted (x : string) (l : list string) : list string :=
  match l with
  | [] => [x]
  | y :: l' => if String.leb x y then x :: l else y :: insert_sorted x l'
  end.

Definition sorted (l : list string) : list string :=
  fold_right insert_sorted [] l.

(** A priority table and its scan: the loop that stops at the first
    dependency name found in the set. *)
Definition table := list (string * string).

Fixpoint first_match (t : table) (deps : gset string) : option string :=
  match t with
  | [] => None
  | (dep, name) :: t' =>
      if bool_decide (dep ∈ deps) then Some name else first_match t' deps
  end.

Definition set_if_found (key : string) (found : option string)
  (r : dict string) : dict string :=
  match found with
  | Some name => dict_set key name r
  | None => r
  end.

Definition workspace_parents : list string :=
  ["apps"; "packages"; "services"; "libs"].

(** ** look-before-you-leap/hooks/lib/detect-stack.py *)

Module DetectStack.

Section WithFileSystem.
Variable fs : filesystem.

Definition file_exists (path : string) : bool := isfile fs path.
Definition dir_exists (path : string) : bool := isdir fs path.

(** The loop over the workspace parents of [detect_language]: some listed
    entry of an existing parent holds a [tsconfig.json]. *)
Definition nested_tsconfig (root : string) : bool :=
  existsb (fun parent =>
    let parent_dir := root +:+ "/" +:+ parent in
    dir_exists parent_dir &&
    match listdir fs parent_dir with
    | Some entries =>
        existsb (fun entry =>
          file_exists (parent_dir +:+ "/" +:+ entry +:+ "/tsconfig.json"))
          entries
    | None => false
    end) workspace_parents.

Definition detect_language (root : string) : string :=
  if file_exists (root +:+ "/tsconfig.json")
     || file_exists (root +:+ "/tsconfig.base.json") then "typescript"
  else if nested_tsconfig root then "typescript"
  else if file_exists (root +:+ "/package.json") then "javascript"
  else if file_exists (root +:+ "/Cargo.toml") then "rust"
  else if file_exists (root +:+ "/pyproject.toml")
          || file_exists (root +:+ "/setup.py") then "python"
  else if file_exists (root +:+ "/go.mod") then "go"
  else EmptyString.

Definition detect_runtime (language package_manager : string) : string :=
  if String.eqb package_manager "bun" then "bun"
  else if String.eqb language "typescript" || String.eqb language "javascript"
  then "node"
  else EmptyString.

Definition detect_package_manager (root : string) : string :=
  if file_exists (root +:+ "/pnpm-lock.yaml") then "pnpm"
  else if file_exists (root +:+ "/bun.lockb")
          || file_exists (root +:+ "/bun.lock") then "bun"
  else if file_exists (root +:+ "/yarn.lock") then "yarn"
  else if file_exists (root +:+ "/package-lock.json") then "npm"
  else EmptyString.

Definition detect_monorepo (root : string) : bool :=
  let indicators :=
    [root +:+ "/pnpm-workspace.yaml"; root +:+ "/turbo.json";
     root +:+ "/lerna.json"; root +:+ "/nx.json"] in
  if existsb file_exists indicators then true
  else match read_json fs (root +:+ "/package.json") with
       | Some pkg => pkg_truthy pkg && pkg_workspaces pkg
       | None => false
       end.

(** [add_deps_from(pkg)] on the set collected so far *)
Definition add_deps_from (pkg : option package_json) (all_deps : gset string)
  : gset string :=
  match pkg with
  | None => all_deps
  | Some p =>
      if negb (pkg_truthy p) then all_deps
      else
        fold_left (fun acc field =>
          match field with
          | Some deps => acc ∪ list_to_set (keys deps)
          | None => acc
          end)
          [pkg_dependencies p; pkg_devDependencies p; pkg_peerDependencies p]
          all_deps
  end.

Definition collect_all_deps (root : string) : gset string :=
  let all_deps := add_deps_from (read_json fs (root +:+ "/package.json")) ∅ in
  fold_left (fun acc workspace_parent =>
    let parent := root +:+ "/" +:+ workspace_parent in
    if negb (dir_exists parent) then acc
    else match listdir fs parent with
         | Some entries =>
             fold_left (fun acc' entry =>
               add_deps_from
                 (read_json fs (parent +:+ "/" +:+ entry +:+ "/package.json"))
                 acc')
               entries acc
         | None => acc
         end)
    workspace_parents all_deps.

End WithFileSystem.

Definition frontend_map : table :=
  [("react", "react"); ("react-dom", "react"); ("next", "next");
   ("vue", "vue"); ("nuxt", "nuxt"); ("svelte", "svelte");
   ("@sveltejs/kit", "sveltekit"); ("solid-js", "solid");
   ("@angular/core", "angular")].

Definition backend_map : table :=
  [("hono", "hono"); ("express", "express"); ("fastify", "fastify");
   ("@nestjs/core", "nestjs"); ("koa", "koa")].

Definition validation_map : table :=
  [("zod", "zod"); ("valibot", "valibot"); ("joi", "joi"); ("yup", "yup");
   ("ajv", "ajv")].

Definition styling_map : table :=
  [("tailwindcss", "tailwind"); ("@tailwindcss/postcss", "tailwind");
   ("styled-components", "styled-components"); ("@emotion/react", "emotion")].

Definition testing_map : table :=
  [("vitest", "vitest"); ("jest", "jest"); ("@playwright/test", "playwright");
   ("cypress", "cypress"); ("mocha", "mocha")].

Definition orm_map : table :=
  [("drizzle-orm", "drizzle"); ("prisma", "prisma");
   ("@prisma/client", "prisma"); ("convex", "convex"); ("typeorm", "typeorm");
   ("sequelize", "sequelize"); ("kysely", "kysely"); ("mongoose", "mongoose")].

(** [detect_from_deps(deps, root_scripts=None, package_manager='')] *)
Definition detect_from_deps (deps : gset string)
  (root_scripts : option (dict string)) (package_manager : string)
  : dict string :=
  let scripts :=
    match root_scripts with
    | Some s => s
    | None => []
    end in
  let result := [] in
  let result := set_if_found "frontend" (first_match frontend_map deps) result in
  let result :=
    if bool_decide ("next" ∈ deps) && negb (dict_mem "frontend" result)
    then dict_set "backend" "next" result else result in
  let result := set_if_found "backend" (first_match backend_map deps) result in
  let result :=
    set_if_found "validation" (first_match validation_map deps) result in
  let result := set_if_found "styling" (first_match styling_map deps) result in
  let result := set_if_found "testing" (first_match testing_map deps) result in
  let result :=
    if negb (dict_mem "testing" result) && String.eqb package_manager "bun"
    then
      let test_script :=
        match dict_get "test" scripts with
        | Some s => s
        | None => EmptyString
        end in
      if contains "bun test" test_script || contains "bun run test" test_script
      then dict_set "testing" "bun-test" result else result
    else result in
  set_if_found "orm" (first_match orm_map deps) result.

Section WithFileSystem.
Variable fs : filesystem.

(** The body of the loop over the sorted entries of one workspace parent;
    the state is [structure] and [shared_packages]. *)
Definition structure_entry (root workspace_parent : string)
  (st : dict value * list string) (entry : string)
  : dict value * list string :=
  let parent := root +:+ "/" +:+ workspace_parent in
  match read_json fs (parent +:+ "/" +:+ entry +:+ "/package.json") with
  | None => st
  | Some pkg =>
      if negb (pkg_truthy pkg) then st
      else
        let '(structure, shared_packages) := st in
        let name :=
          match pkg_name pkg with Some n => n | None => EmptyString end in
        let entry_path := workspace_parent +:+ "/" +:+ entry in
        if String.eqb workspace_parent "packages" then
          let structure :=
            if contains "api" (lower entry)
            then dict_set "shared_api_package" (VScalar (SStr name)) structure
            else structure in
          let shared_packages :=
            if nonempty name then shared_packages ++ [entry_path]
            else shared_packages in
          (structure, shared_packages)
        else if String.eqb workspace_parent "apps" then
          if existsb (String.eqb (lower entry)) ["api"; "server"; "backend"]
          then (dict_set "api_dir" (VScalar (SStr entry_path)) structure,
                shared_packages)
          else if existsb (String.eqb (lower entry))
                    ["web"; "app"; "client"; "frontend"]
          then (dict_set "web_dir" (VScalar (SStr entry_path)) structure,
                shared_packages)
          else (structure, shared_packages)
        else (structure, shared_packages)
  end.

Definition detect_structure (root : string) (is_monorepo : bool) : dict value :=
  if negb is_monorepo then []
  else
    let '(structure, shared_packages) :=
      fold_left (fun st workspace_parent =>
        let parent := root +:+ "/" +:+ workspace_parent in
        if negb (dir_exists fs parent) then st
        else match listdir fs parent with
             | Some entries =>
                 fold_left (structure_entry root workspace_parent)
                           (sorted entries) st
             | None => st
             end)
        workspace_parents ([], []) in
    match shared_packages with
    | [] => structure
    | _ :: _ =>
        dict_set "shared_packages" (VList (map SStr shared_packages)) structure
    end.

Definition should_enable_api_contracts (detected : dict string) : bool :=
  match dict_get "backend" detected with
  | Some name => nonempty name
  | None => false
  end.

Definition script_map : table :=
  [("typecheck", "typecheck"); ("type-check", "typecheck");
   ("tsc", "typecheck"); ("tsgo", "typecheck"); ("check-types", "typecheck");
   ("lint", "lint"); ("eslint", "lint");
   ("test", "test"); ("test:unit", "test");
   ("build", "build")].

(** The body of the loop over [script_map]. *)
Definition verification_step (scripts : dict string) (commands : dict string)
  (entry : string * string) : dict string :=
  let '(script_name, category) := entry in
  if dict_mem script_name scripts && negb (dict_mem category commands)
  then dict_set category script_name commands
  else commands.

Definition detect_verification_commands (root : string) : dict string :=
  match read_json fs (root +:+ "/package.json") with
  | None => []
  | Some pkg =>
      if negb (pkg_truthy pkg) then []
      else
        let scripts := match pkg_scripts pkg with Some s => s | None => [] end in
        match scripts with
        | [] => []
        | _ :: _ => fold_left (verification_step scripts) script_map []
        end
  end.

Definition set_if_nonempty (key val : string) (d : dict scalar) : dict scalar :=
  if nonempty val then dict_set key (SStr val) d else d.

Definition build_config (root : string)
  : dict scalar * dict value * dict scalar * dict scalar :=
  let language := detect_language fs root in
  let package_manager := detect_package_manager fs root in
  let runtime := detect_runtime language package_manager in
  let is_monorepo := detect_monorepo fs root in
  let root_pkg := read_json fs (root +:+ "/package.json") in
  let root_scripts :=
    match root_pkg with
    | Some pkg =>
        if pkg_truthy pkg
        then match pkg_scripts pkg with Some s => s | None => [] end
        else []
    | None => []
    end in
  let deps :=
    if String.eqb language "typescript" || String.eqb language "javascript"
    then collect_all_deps fs root else ∅ in
  let from_deps := detect_from_deps deps (Some root_scripts) package_manager in
  let structure := detect_structure root is_monorepo in
  let verification := detect_verification_commands root in
  let stack := [] in
  let stack := set_if_nonempty "language" language stack in
  let stack := set_if_nonempty "runtime" runtime stack in
  let stack := set_if_nonempty "package_manager" package_manager stack in
  let stack := dict_set "monorepo" (SBool is_monorepo) stack in
  let stack :=
    dict_update stack (map (fun kv => (fst kv, SStr (snd kv))) from_deps) in
  let disciplines :=
    [("api_contracts", SBool (should_enable_api_contracts from_deps));
     ("plan_enforcement", SBool true)] in
  (stack, structure, disciplines,
   map (fun kv => (fst kv, SStr (snd kv))) verification).

End WithFileSystem.

(** [str(v)] *)
Definition py_str (v : scalar) : string :=
  match v with
  | SBool true => "True"
  | SBool false => "False"
  | SInt n => NilEmpty.string_of_uint (N.to_uint n)
  | SStr s => s
  end.

Definition _yaml_val (v : scalar) : string :=
  match v with
  | SBool true => "true"
  | SBool false => "false"
  | _ => py_str v
  end.

Definition scalar_line (kv : string * scalar) : string :=
  "  " +:+ fst kv +:+ ": " +:+ _yaml_val (snd kv).

Definition structure_lines (kv : string * value) : list string :=
  match snd kv with
  | VList items =>
      ("  " +:+ fst kv +:+ ":") :: map (fun item => "    - " +:+ py_str item) items
  | VScalar v => [scalar_line (fst kv, v)]
  end.

(** A block: nothing for an empty dictionary, else its header and lines. *)
Definition block {V} (header : string) (body : dict V -> list string)
  (d : dict V) : list string :=
  match d with
  | [] => []
  | _ :: _ => header :: body d
  end.

Definition render_lines (stack : dict scalar) (structure : dict value)
  (disciplines verification : dict scalar) : list string :=
  ["---"]
  ++ block "stack:" (map scalar_line) stack
  ++ block "structure:" (flat_map structure_lines) structure
  ++ block "verification:" (map scalar_line) verification
  ++ block "disciplines:" (map scalar_line) disciplines
  ++ ["---"; EmptyString; "# Project Notes"; EmptyString;
      "Add project-specific context here (optional, free-form).";
      EmptyString].

Definition render_config (stack : dict scalar) (structure : dict value)
  (disciplines verification : dict scalar) : string :=
  join_nl (render_lines stack structure disciplines verification).

End DetectStack.

(** ** software-discipline/hooks/lib/detect-stack.py

    The older copy of the classifier: [detect_language] has no workspace
    fallback, [detect_runtime] takes the language alone and
    [detect_from_deps] the dependency names alone. *)

Module SoftwareDiscipline.

Definition detect_language (fs : filesystem) (root : string) : string :=
  if isfile fs (root +:+ "/tsconfig.json")
     || isfile fs (root +:+ "/tsconfig.base.json") then "typescript"
  else if isfile fs (root +:+ "/package.json") then "javascript"
  else if isfile fs (root +:+ "/Cargo.toml") then "rust"
  else if isfile fs (root +:+ "/pyproject.toml")
          || isfile fs (root +:+ "/setup.py") then "python"
  else if isfile fs (root +:+ "/go.mod") then "go"
  else EmptyString.

Definition detect_runtime (language : string) : string :=
  if String.eqb language "typescript" || String.eqb language "javascript"
  then "node"
  else EmptyString.

(** The six tables are those of the newer copy, entry for entry. *)
Definition frontend_map : table :=
  [("react", "react"); ("react-dom", "react"); ("next", "next");
   ("vue", "vue"); ("nuxt", "nuxt"); ("svelte", "svelte");
   ("@sveltejs/kit", "sveltekit"); ("solid-js", "solid");
   ("@angular/core", "angular")].

Definition backend_map : table :=
  [("hono", "hono"); ("express", "express"); ("fastify", "fastify");
   ("@nestjs/core", "nestjs"); ("koa", "koa")].

Definition validation_map : table :=
  [("zod", "zod"); ("valibot", "valibot"); ("joi", "joi"); ("yup", "yup");
   ("ajv", "ajv")].

Definition styling_map : table :=
  [("tailwindcss", "tailwind"); ("@tailwindcss/postcss", "tailwind");
   ("styled-components", "styled-components"); ("@emotion/react", "emotion")].

Definition testing_map : table :=
  [("vitest", "vitest"); ("jest", "jest"); ("@playwright/test", "playwright");
   ("cypress", "cypress"); ("mocha", "mocha")].

Definition orm_map : table :=
  [("drizzle-orm", "drizzle"); ("prisma", "prisma");
   ("@prisma/client", "prisma"); ("convex", "convex"); ("typeorm", "typeorm");
   ("sequelize", "sequelize"); ("kysely", "kysely"); ("mongoose", "mongoose")].

Definition detect_from_deps (deps : gset string) : dict string :=
  let result := [] in
  let result := set_if_found "frontend" (first_match frontend_map deps) result in
  let result :=
    if bool_decide ("next" ∈ deps) && negb (dict_mem "frontend" result)
    then dict_set "backend" "next" result else result in
  let result := set_if_found "backend" (first_match backend_map deps) result in
  let result :=
    set_if_found "validation" (first_match validation_map deps) result in
  let result := set_if_found "styling" (first_match styling_map deps) result in
  let result := set_if_found "testing" (first_match testing_map deps) result in
  set_if_found "orm" (first_match orm_map deps) result.

(** [detect_package_manager], [detect_monorepo] and [collect_all_deps] are
    the same text in both copies. *)
Definition detect_package_manager := DetectStack.detect_package_manager.
Definition detect_monorepo := DetectStack.detect_monorepo.
Definition collect_all_deps := DetectStack.collect_all_deps.
Definition should_enable_api_contracts :=
  DetectStack.should_enable_api_contracts.

Section WithFileSystem.
Variable fs : filesystem.

Definition structure_entry (root workspace_parent : string)
  (structure : dict value) (entry : string) : dict value :=
  let parent := root +:+ "/" +:+ workspace_parent in
  match read_json fs (parent +:+ "/" +:+ entry +:+ "/package.json") with
  | None => structure
  | Some pkg =>
      if negb (pkg_truthy pkg) then structure
      else
        let name :=
          match pkg_name pkg with Some n => n | None => EmptyString end in
        let entry_path := workspace_parent +:+ "/" +:+ entry in
        let structure :=
          if contains "api" (lower entry) && String.eqb workspace_parent "packages"
          then dict_set "shared_dir" (VScalar (SStr entry_path))
                 (dict_set "shared_api_package" (VScalar (SStr name)) structure)
          else structure in
        let structure :=
          if existsb (String.eqb (lower entry)) ["api"; "server"; "backend"]
             && String.eqb workspace_parent "apps"
          then dict_set "api_dir" (VScalar (SStr entry_path)) structure
          else structure in
        if existsb (String.eqb (lower entry)) ["web"; "app"; "client"; "frontend"]
           && String.eqb workspace_parent "apps"
        then dict_set "web_dir" (VScalar (SStr entry_path)) structure
        else structure
  end.

Definition detect_structure (root : string) (is_monorepo : bool) : dict value :=
  if negb is_monorepo then []
  else
    fold_left (fun structure workspace_parent =>
      let parent := root +:+ "/" +:+ workspace_parent in
      if negb (isdir fs parent) then structure
      else match listdir fs parent with
           | Some entries =>
               fold_left (structure_entry root workspace_parent)
                         (sorted entries) structure
           | None => structure
           end)
      ["apps"; "packages"] [].

Definition build_config (root : string)
  : dict scalar * dict value * dict scalar :=
  let language := detect_language fs root in
  let runtime := detect_runtime language in
  let package_manager := detect_package_manager fs root in
  let is_monorepo := detect_monorepo fs root in
  let deps :=
    if String.eqb language "typescript" || String.eqb language "javascript"
    then collect_all_deps fs root else ∅ in
  let from_deps := detect_from_deps deps in
  let structure := detect_structure root is_monorepo in
  let stack := [] in
  let stack := DetectStack.set_if_nonempty "language" language stack in
  let stack := DetectStack.set_if_nonempty "runtime" runtime stack in
  let stack :=
    DetectStack.set_if_nonempty "package_manager" package_manager stack in
  let stack := dict_set "monorepo" (SBool is_monorepo) stack in
  let stack :=
    dict_update stack (map (fun kv => (fst kv, SStr (snd kv))) from_deps) in
  let disciplines :=
    [("api_contracts", SBool (should_enable_api_contracts from_deps));
     ("plan_enforcement", SBool true)] in
  (stack, structure, disciplines).

End WithFileSystem.

End SoftwareDiscipline.

(** ** Vocabulary of the statements *)

(** [v] is the value of the first entry of the table [t] whose dependency
    name is a member of [deps]. *)
Definition first_entry (t : table) (deps : gset string) (v : string) : Prop :=
  ∃ i dep, t !! i = Some (dep, v) ∧ dep ∈ deps ∧
    ∀ j dep' v', j < i → t !! j = Some (dep', v') → dep' ∉ deps.


(** The value the [bun test] rule gives the [testing] category when no
    testing dependency is found. *)
Definition bun_test_fallback (root_scripts : option (dict string))
  (package_manager : string) : option string :=
  let scripts :=
    match root_scripts with Some s => s | None => [] end in
  let test_script :=
    match dict_get "test" scripts with Some s => s | None => EmptyString end in
  if String.eqb package_manager "bun"
     && (contains "bun test" test_script || contains "bun run test" test_script)
  then Some "bun-test" else None.




(** A file system given by its files, its directories, their listings and
    the manifests that can be read. *)
Definition fs_of (files dirs : list string)
  (listings : dict (list string)) (manifests : dict package_json)
  : filesystem :=
  FileSystem (fun p => existsb (String.eqb p) files)
             (fun p => existsb (String.eqb p) dirs)
             (fun p => dict_get p listings)
             (fun p => dict_get p manifests).

(** A typescript project with a bun lockfile. *)
Definition bun_project : filesystem :=
  fs_of ["proj/tsconfig.json"; "proj/bun.lockb"] [] [] [].

(** A project whose only [tsconfig.json] is in [apps/web]. *)
Definition nested_ts_project : filesystem :=
  fs_of ["proj/package.json"; "proj/apps/web/tsconfig.json"]
        ["proj/apps"; "proj/apps/web"]
        [("proj/apps", ["web"])]
        [("proj/package.json",
          PackageJson (Some "demo") None false None None None false)].

(** The files, besides [package.json], that mark a language, a package
    manager or a monorepo. *)
Definition marker_files : list string :=
  ["/tsconfig.json"; "/tsconfig.base.json"; "/Cargo.toml"; "/pyproject.toml";
   "/setup.py"; "/go.mod"; "/pnpm-workspace.yaml"; "/turbo.json";
   "/lerna.json"; "/nx.json"].

Definition lockfiles : list string :=
  ["/pnpm-lock.yaml"; "/bun.lockb"; "/bun.lock"; "/yarn.lock";
   "/package-lock.json"].

(** A project with a bun lockfile whose only script is [test]. *)
Definition bun_test_project : filesystem :=
  fs_of ["proj/package.json"; "proj/bun.lock"; "proj/README.md"] [] []
        [("proj/package.json",
          PackageJson (Some "demo") (Some [("test", "bun test")]) false
            None None None false)].

(** A project that holds an empty [package.json] and a file that marks
    nothing. *)
Definition manifest_and_readme : filesystem :=
  fs_of ["proj/package.json"; "proj/README.md"] [] []
        [("proj/package.json",
          PackageJson None None false None None None false)].

(** A project that holds an empty [package.json] and nothing else. *)
Definition only_manifest : filesystem :=
  fs_of ["proj/package.json"] [] []
        [("proj/package.json",
          PackageJson None None false None None None false)].

(** No file among the markers of [detect_language] exists at the root. *)
Definition no_root_marker (fs : filesystem) (root : string) : Prop :=
  ∀ name,
    name ∈ ["/tsconfig.json"; "/tsconfig.base.json"; "/package.json";
            "/Cargo.toml"; "/pyproject.toml"; "/setup.py"; "/go.mod"] →
    isfile fs (root +:+ name) = false.

(** The listed entry [entry] of the existing workspace parent [parent]
    holds a [tsconfig.json]. *)
Definition nested_marker (fs : filesystem) (root parent entry : string) : Prop :=
  parent ∈ workspace_parents
  ∧ isdir fs (root +:+ "/" +:+ parent) = true
  ∧ (∃ entries, listdir fs (root +:+ "/" +:+ parent) = Some entries
                ∧ entry ∈ entries)
  ∧ isfile fs ((root +:+ "/" +:+ parent) +:+ "/" +:+ entry +:+ "/tsconfig.json")
    = true.

(** [name] is the first script name of the table [t] with the category
    [category] that the manifest's [scripts] holds. *)
Definition first_script (t : table) (scripts : dict string)
  (category name : string) : Prop :=
  ∃ i, t !! i = Some (name, category) ∧ dict_mem name scripts = true ∧
    ∀ j name', j < i → t !! j = Some (name', category) →
      dict_mem name' scripts = false.

(** The manifest's [scripts] holds no script name of the table [t] with the
    category [category]. *)
Definition no_script (t : table) (scripts : dict string) (category : string)
  : Prop :=
  ∀ name, (name, category) ∈ t → dict_mem name scripts = false.

(** A project whose manifest has four of the scripts of the table, in an
    order of its own. *)
Definition scripted_project : filesystem :=
  fs_of ["proj/package.json"] [] []
        [("proj/package.json",
          PackageJson (Some "demo")
            (Some [("test:unit", "vitest run"); ("tsc", "tsc --noEmit");
                   ("typecheck", "tsc -b"); ("eslint", "eslint .");
                   ("start", "node .")])
            false None None None false)].

(** The text made of the given lines. *)
Definition text_of (lines : list string) : string := join_nl lines.

(** A document whose block has a comment line before its child line. *)
Definition commented_document : string :=
  text_of ["---"; "stack:"; "  # detected"; "  language: go"; "---";
           EmptyString].

(** A document with a superscript two as a value. *)
Definition superscript_document : string :=
  text_of ["---"; "level: " +:+ String "178"%char EmptyString; "---";
           EmptyString].

(** *** What the renderer can emit and the parser gives back *)

Definition no_nl (s : string) : bool :=
  all_chars (fun c => negb (Ascii.eqb c nl)) s.

(** A key the parser reads whole: one word character at least and nothing
    else. *)
Definition word_key (k : string) : bool := nonempty k && all_chars is_word k.

Definition quote_wrapped (s : string) : bool :=
  (startswith ReadConfig.dquote s && endswith ReadConfig.dquote s)
  || (startswith ReadConfig.squote s && endswith ReadConfig.squote s).

(** A string that [_coerce] and [strip] leave as it is: on one line, not
    empty, with no white space at either end, not a boolean literal, not
    made of digits, not wrapped in quotes. *)
Definition plain_string (s : string) : bool :=
  nonempty s && no_nl s && String.eqb (strip s) s
  && negb (String.eqb (lower s) "true") && negb (String.eqb (lower s) "false")
  && negb (isdigit s) && negb (quote_wrapped s).

Definition plain_scalar (x : scalar) : bool :=
  match x with
  | SBool _ => true
  | SInt _ => false
  | SStr s => plain_string s
  end.

Definition plain_value (v : value) : bool :=
  match v with
  | VScalar x => plain_scalar x
  | VList items => forallb plain_scalar items
  end.

(** A dictionary has each key once. *)
Definition distinct_keys {V} (d : dict V) : bool := bool_decide (NoDup (keys d)).

Definition well_formed_scalars (d : dict scalar) : bool :=
  distinct_keys d && forallb (fun kv => word_key (fst kv) && plain_scalar (snd kv)) d.

Definition well_formed_values (d : dict value) : bool :=
  distinct_keys d && forallb (fun kv => word_key (fst kv) && plain_value (snd kv)) d.

(** The mapping of one block: nothing when the dictionary is empty. *)
Definition block_of (key : string) (d : dict value) : dict top :=
  match d with
  | [] => []
  | _ :: _ => [(key, TDict d)]
  end.

Definition scalars (d : dict scalar) : dict value :=
  map (fun kv => (fst kv, VScalar (snd kv))) d.

(** The mapping that holds the four structures. *)
Definition document (stack : dict scalar) (structure : dict value)
  (disciplines verification : dict scalar) : dict top :=
  block_of "stack" (scalars stack)
  ++ block_of "structure" structure
  ++ block_of "verification" (scalars verification)
  ++ block_of "disciplines" (scalars disciplines).

(** *** The parser's states and the lines of a document *)

(** The parser reads the rendered value [v] back as [x]: [v] is on one
    line, starts with no white space, and is coerced to [x]. *)
Definition reads_back (v : string) (x : scalar) : Prop :=
  no_nl v = true
  ∧ (∃ c v', v = String c v' ∧ is_space c = false)
  ∧ ReadConfig._coerce (strip v) = Ok x.

(** The state inside the block [p], last of the result, whose children so
    far are [d]. *)
Definition in_block (st : ReadConfig.pstate) (r0 : dict top) (p : string)
  (d : dict value) : Prop :=
  ReadConfig.result st = r0 ++ [(p, TDict d)]
  ∧ ReadConfig.current_parent st = Some p.

Definition item_reads_back (x : scalar) : Prop :=
  reads_back (DetectStack.py_str x) x.

Definition value_reads_back (kv : string * value) : Prop :=
  word_key kv.1 = true ∧
  match kv.2 with
  | VScalar x => reads_back (DetectStack._yaml_val x) x
  | VList items => Forall item_reads_back items
  end.

(** A line of the body: no newline in it and no dash at its start. *)
Definition line_ok (l : string) : Prop :=
  no_nl l = true ∧ ∃ c l', l = String c l' ∧ Ascii.eqb c "-" = false.

(** The first line, if any, starts with a word character. *)
Definition headed (lines : list string) : Prop :=
  match lines with
  | [] => True
  | l :: _ => ∃ c l', l = String c l' ∧ is_word c = true
  end.

(** The lines after the blocks: the closing marker and the notes. *)
Definition trailer : list string :=
  ["---"; EmptyString; "# Project Notes"; EmptyString;
   "Add project-specific context here (optional, free-form).";
   EmptyString].

(** A monorepo whose package [packages/api] is named [true]. *)
Definition api_named_true : filesystem :=
  fs_of ["proj/package.json"; "proj/turbo.json"]
        ["proj/packages"; "proj/packages/api"]
        [("proj/packages", ["api"])]
        [("proj/package.json",
          PackageJson (Some "root") None false None None None false);
         ("proj/packages/api/package.json",
          PackageJson (Some "true") None false None None None false)].

(** The current parent names a block of the result, and the current list
    a list of such a block. *)
Definition state_ok (st : ReadConfig.pstate) : Prop :=
  (∀ p, ReadConfig.current_parent st = Some p →
     ∃ d, dict_get p (ReadConfig.result st) = Some (TDict d))
  ∧ (∀ p k, ReadConfig.current_child_list st = Some (p, k) →
     ∃ d l, dict_get p (ReadConfig.result st) = Some (TDict d)
            ∧ dict_get k d = Some (VList l)).

(** *** What the theorems on the rest of the code speak of *)

(** The manifest, if it could be read, names [name] in one of its three
    dependency fields. *)
Definition declares (manifest : option package_json) (name : string) : Prop :=
  ∃ pkg deps,
    manifest = Some pkg
    ∧ Some deps ∈ [pkg_dependencies pkg; pkg_devDependencies pkg;
                   pkg_peerDependencies pkg]
    ∧ name ∈ keys deps.

(** [entry] is listed in the existing workspace parent [parent]. *)
Definition workspace_member (fs : filesystem) (root parent entry : string)
  : Prop :=
  parent ∈ workspace_parents
  ∧ isdir fs (root +:+ "/" +:+ parent) = true
  ∧ ∃ entries, listdir fs (root +:+ "/" +:+ parent) = Some entries
               ∧ entry ∈ entries.

(** Two file systems with the same files, directories and manifests, whose
    listings hold the same entries in any order. *)
Definition same_up_to_listing_order (fs1 fs2 : filesystem) : Prop :=
  (∀ p, isfile fs1 p = isfile fs2 p)
  ∧ (∀ p, isdir fs1 p = isdir fs2 p)
  ∧ (∀ p, read_json fs1 p = read_json fs2 p)
  ∧ (∀ p, match listdir fs1 p, listdir fs2 p with
          | Some l1, Some l2 => l1 ≡ₚ l2
          | None, None => True
          | _, _ => False
          end).

(** The order of [sorted]. *)
Definition string_le (a b : string) : Prop := String.leb a b = true.


(** A rust project with a web application whose manifest names react and
    express. *)
Definition rust_workspace : filesystem :=
  fs_of ["proj/Cargo.toml"] ["proj/apps"; "proj/apps/web"]
        [("proj/apps", ["web"])]
        [("proj/apps/web/package.json",
          PackageJson (Some "web") None false
            (Some [("react", "^18"); ("express", "^4")]) None None false)].

(** A monorepo with two packages, listed in one order and in the other. *)
Definition listed (entries : list string) : filesystem :=
  fs_of ["proj/package.json"; "proj/turbo.json"]
        ["proj/packages"; "proj/packages/ui"; "proj/packages/i18n"]
        [("proj/packages", entries)]
        [("proj/package.json",
          PackageJson (Some "root") None false None None None false);
         ("proj/packages/ui/package.json",
          PackageJson (Some "ui") None false (Some [("react", "^18")])
            None None false);
         ("proj/packages/i18n/package.json",
          PackageJson (Some "i18n") None false None None None false)].

(** The rendered document up to its closing marker: what [render_config]
    writes before the notes. *)
Definition front_matter (stack : dict scalar) (structure : dict value)
  (disciplines verification : dict scalar) : string :=
  join_nl
    (["---"]
     ++ DetectStack.block "stack:" (map DetectStack.scalar_line) stack
     ++ DetectStack.block "structure:"
          (flat_map DetectStack.structure_lines) structure
     ++ DetectStack.block "verification:" (map DetectStack.scalar_line)
          verification
     ++ DetectStack.block "disciplines:" (map DetectStack.scalar_line)
          disciplines
     ++ ["---"]).

(** The notes that [render_config] writes after the closing marker. *)
Definition default_notes : string :=
  String nl (join_nl (tl trailer)).

(** A dictionary with each key once, every key a word and every value
    accepted by [ok]. *)
Definition well_formed {V} (ok : V → bool) (d : dict V) : Prop :=
  NoDup (keys d) ∧ Forall (λ kv, word_key kv.1 = true ∧ ok kv.2 = true) d.

(** A monorepo with a bun lockfile, whose first script is [test] and which
    names no testing dependency. *)
Definition bun_monorepo : filesystem :=
  fs_of ["proj/package.json"; "proj/turbo.json"; "proj/tsconfig.json";
         "proj/bun.lock"]
        ["proj/apps"; "proj/apps/web"; "proj/packages"; "proj/packages/ui"]
        [("proj/apps", ["web"]); ("proj/packages", ["ui"])]
        [("proj/package.json",
          PackageJson (Some "root")
            (Some [("test", "bun test"); ("lint", "eslint .")]) false
            None None None false);
         ("proj/apps/web/package.json",
          PackageJson (Some "web") None false
            (Some [("react", "^18"); ("hono", "^4")]) None None false);
         ("proj/packages/ui/package.json",
          PackageJson (Some "@acme/ui") None false None None None false)].

(** A monorepo with an application and two packages. *)
Definition small_monorepo : filesystem :=
  fs_of ["proj/package.json"; "proj/turbo.json"; "proj/tsconfig.json";
         "proj/pnpm-lock.yaml"]
        ["proj/apps"; "proj/apps/web"; "proj/packages"; "proj/packages/ui";
         "proj/packages/api-types"]
        [("proj/apps", ["web"]); ("proj/packages", ["ui"; "api-types"])]
        [("proj/package.json",
          PackageJson (Some "root")
            (Some [("lint", "eslint ."); ("test", "vitest run")]) false
            None (Some [("vitest", "^1")]) None false);
         ("proj/apps/web/package.json",
          PackageJson (Some "web") None false
            (Some [("react", "^18"); ("hono", "^4")]) None None false);
         ("proj/packages/ui/package.json",
          PackageJson (Some "@acme/ui") None false None None None false);
         ("proj/packages/api-types/package.json",
          PackageJson (Some "@acme/api-types") None false
            (Some [("zod", "^3")]) None None false)].

(** The entry [entry] of the workspace parent [parent] holds the manifest
    [pkg], which is not the empty object. *)
Definition package_dir (fs : filesystem) (root parent entry : string)
  (pkg : package_json) : Prop :=
  workspace_member fs root parent entry
  ∧ read_json fs
      ((root +:+ "/" +:+ parent) +:+ "/" +:+ entry +:+ "/package.json")
    = Some pkg
  ∧ pkg_truthy pkg = true.

(** [pkg.get("name", "")] *)
Definition package_name (pkg : package_json) : string :=
  match pkg_name pkg with Some n => n | None => EmptyString end.

(** [path] is the path of a named package under [packages]. *)
Definition shared_package_path (fs : filesystem) (root path : string) : Prop :=
  ∃ entry pkg,
    path = "packages/" +:+ entry
    ∧ package_dir fs root "packages" entry pkg
    ∧ nonempty (package_name pkg) = true.

(** What stands behind the field [key] of the structure when its value is
    [v]. *)
Definition structure_entry_found (fs : filesystem) (root key : string)
  (v : value) : Prop :=
  (key = "api_dir"
   ∧ ∃ entry pkg,
       v = VScalar (SStr ("apps/" +:+ entry))
       ∧ package_dir fs root "apps" entry pkg
       ∧ lower entry ∈ ["api"; "server"; "backend"])
  ∨ (key = "web_dir"
     ∧ ∃ entry pkg,
         v = VScalar (SStr ("apps/" +:+ entry))
         ∧ package_dir fs root "apps" entry pkg
         ∧ lower entry ∈ ["web"; "app"; "client"; "frontend"])
  ∨ (key = "shared_api_package"
     ∧ ∃ entry pkg,
         v = VScalar (SStr (package_name pkg))
         ∧ package_dir fs root "packages" entry pkg
         ∧ contains "api" (lower entry) = true)
  ∨ (key = "shared_packages"
     ∧ ∃ paths,
         v = VList (map SStr paths)
         ∧ paths ≠ []
         ∧ ∀ path, path ∈ paths → shared_package_path fs root path).

(** A top-level line [key: text] whose text is read as a scalar, and the
    mapping that a run of such lines gives: a key met again keeps its
    place and takes the later value. *)
Definition flat_line (e : string * (string * scalar)) : string :=
  e.1 +:+ ": " +:+ e.2.1.

Definition flat_result (entries : list (string * (string * scalar)))
  : dict top :=
  dict_update [] (map (λ e, (e.1, TScalar e.2.2)) entries).

(** [s.rstrip(a)] for one character [a] *)
Fixpoint rstrip_char (a : ascii) (s : string) : string :=
  match s with
  | EmptyString => EmptyString
  | String c s' =>
      match rstrip_char a s' with
      | EmptyString =>
          if Ascii.eqb c a then EmptyString else String c EmptyString
      | r => String c r
      end
  end.

(** [main] of detect-stack.py: the text printed for the arguments, or
    nothing when the project root is missing (the usage message goes to
    the error stream and the exit status is 1). *)
Module DetectStackMain.

Definition main (fs : filesystem) (argv : list string) : option string :=
  match argv with
  | _ :: arg :: _ =>
      let root := rstrip_char "/" arg in
      let '(stack, structure, disciplines, verification) :=
        DetectStack.build_config fs root in
      Some (DetectStack.render_config stack structure disciplines verification)
  | _ => None
  end.

End DetectStackMain.

(** A javascript project with an npm lockfile and no workspace. *)
Definition node_project : filesystem :=
  fs_of ["proj/package.json"; "proj/package-lock.json"] [] []
        [("proj/package.json",
          PackageJson (Some "demo") None false
            (Some [("react", "^18"); ("express", "^4")])
            (Some [("jest", "^29")]) None false)].

(** The entry [entry] of [packages] holds a manifest with a name. *)
Definition named_package (fs : filesystem) (root entry : string) : bool :=
  match read_json fs
          ((root +:+ "/" +:+ "packages") +:+ "/" +:+ entry +:+ "/package.json")
  with
  | Some pkg => pkg_truthy pkg && nonempty (package_name pkg)
  | None => false
  end.

(** The paths of the named packages, in the order of [sorted]. *)
Definition shared_package_paths (fs : filesystem) (root : string)
  : list string :=
  if isdir fs (root +:+ "/" +:+ "packages") then
    match listdir fs (root +:+ "/" +:+ "packages") with
    | Some entries =>
        map (λ entry, "packages" +:+ "/" +:+ entry)
            (List.filter (named_package fs root) (sorted entries))
    | None => []
    end
  else [].

(** ** Dictionaries *)

Section DictFacts.
Context {V : Type}.
Implicit Types (d : dict V) (k : string) (v : V).

Lemma dict_get_set k k' v d :
  dict_get k (dict_set k' v d) = if String.eqb k k' then Some v else dict_get k d.
Proof.
  induction d as [|[k0 v0] d IH]; simpl.
  - done.
  - destruct (String.eqb_spec k' k0) as [->|Hne]; simpl.
    + by destruct (String.eqb_spec k k0).
    + rewrite IH. destruct (String.eqb_spec k k0) as [->|]; [|done].
      by destruct (String.eqb_spec k0 k'); [subst|].
Qed.

Lemma dict_set_fresh k v d : k ∉ keys d → dict_set k v d = d ++ [(k, v)].
Proof.
  unfold keys. induction d as [|[k0 v0] d IH]; simpl; [done|].
  rewrite not_elem_of_cons. intros [Hne Hnin].
  destruct (String.eqb_spec k k0); [done|]. by rewrite IH.
Qed.

Lemma dict_set_last k v v' d :
  k ∉ keys d → dict_set k v' (d ++ [(k, v)]) = d ++ [(k, v')].
Proof.
  unfold keys. induction d as [|[k0 v0] d IH]; simpl.
  - by rewrite String.eqb_refl.
  - rewrite not_elem_of_cons. intros [Hne Hnin].
    destruct (String.eqb_spec k k0); [done|]. by rewrite IH.
Qed.

Lemma dict_get_last k v d : k ∉ keys d → dict_get k (d ++ [(k, v)]) = Some v.
Proof.
  unfold keys. induction d as [|[k0 v0] d IH]; simpl.
  - by rewrite String.eqb_refl.
  - rewrite not_elem_of_cons. intros [Hne Hnin].
    destruct (String.eqb_spec k k0); [done|]. by apply IH.
Qed.

End DictFacts.

(** ** The priority tables *)

Lemma first_match_Some t deps v :
  first_match t deps = Some v ↔ first_entry t deps v.
Proof.
  unfold first_entry. induction t as [|[dep name] t IH]; simpl.
  - split; [done|]. by intros (i & dep & Hi & _).
  - case_bool_decide as Hin.
    + split.
      * intros [= <-]. exists 0, dep. split_and!; [done..|]. intros; lia.
      * intros (i & dep' & Hi & Hdep' & Hfirst). destruct i as [|i].
        { by simplify_eq/=. }
        exfalso. by apply (Hfirst 0 dep name); [lia|..].
    + rewrite IH. split.
      * intros (i & dep' & Hi & Hdep' & Hfirst). exists (S i), dep'.
        split_and!; [done..|]. intros [|j] d' v' Hj Hl; simplify_eq/=; [done|].
        apply (Hfirst j d' v'); [lia | done].
      * intros (i & dep' & Hi & Hdep' & Hfirst). destruct i as [|i].
        { by simplify_eq/=. }
        exists i, dep'. split_and!; [done..|]. intros j d' v' Hj Hl.
        apply (Hfirst (S j) d' v'); [lia | done].
Qed.


Lemma next_sets_frontend deps :
  "next" ∈ deps → first_match DetectStack.frontend_map deps ≠ None.
Proof.
  intros Hnext. unfold DetectStack.frontend_map. simpl.
  repeat case_bool_decide; done.
Qed.

Lemma next_guard_is_dead deps :
  bool_decide ("next" ∈ deps)
  && negb (dict_mem "frontend"
            (set_if_found "frontend" (first_match DetectStack.frontend_map deps) []))
  = false.
Proof.
  case_bool_decide as Hnext; [|done]. apply next_sets_frontend in Hnext.
  by destruct (first_match _ deps).
Qed.

(** ** [detect_from_deps], category by category *)

Ltac by_category :=
  intros; unfold DetectStack.detect_from_deps, SoftwareDiscipline.detect_from_deps,
    bun_test_fallback;
  rewrite next_guard_is_dead;
  repeat match goal with
         | |- context [first_match ?t ?deps] => destruct (first_match t deps)
         end;
  simpl;
  repeat match goal with
         | |- context [String.eqb ?pm "bun"] => destruct (String.eqb pm "bun"); simpl
         | |- context [contains ?a ?b || contains ?c ?d] =>
             destruct (contains a b || contains c d); simpl
         end;
  done.

Lemma lookup_frontend deps rs pm :
  dict_get "frontend" (DetectStack.detect_from_deps deps rs pm)
  = first_match DetectStack.frontend_map deps.
Proof. by_category. Qed.

Lemma lookup_backend deps rs pm :
  dict_get "backend" (DetectStack.detect_from_deps deps rs pm)
  = first_match DetectStack.backend_map deps.
Proof. by_category. Qed.

Lemma lookup_validation deps rs pm :
  dict_get "validation" (DetectStack.detect_from_deps deps rs pm)
  = first_match DetectStack.validation_map deps.
Proof. by_category. Qed.

Lemma lookup_styling deps rs pm :
  dict_get "styling" (DetectStack.detect_from_deps deps rs pm)
  = first_match DetectStack.styling_map deps.
Proof. by_category. Qed.


Lemma lookup_orm deps rs pm :
  dict_get "orm" (DetectStack.detect_from_deps deps rs pm)
  = first_match DetectStack.orm_map deps.
Proof. by_category. Qed.

Lemma legacy_lookup_frontend deps :
  dict_get "frontend" (SoftwareDiscipline.detect_from_deps deps)
  = first_match SoftwareDiscipline.frontend_map deps.
Proof. by_category. Qed.

Lemma legacy_lookup_backend deps :
  dict_get "backend" (SoftwareDiscipline.detect_from_deps deps)
  = first_match SoftwareDiscipline.backend_map deps.
Proof. by_category. Qed.





(** C3. With both [react] and [next] among the dependencies and no
    dependency of the backend table, both copies of [detect_from_deps]
    return the frontend [react] alone: the rule that would set the backend
    to [next] asks for the frontend to be unset, and the frontend scan has
    set it. *)
Theorem react_next_leaves_backend_unset :
  DetectStack.detect_from_deps {["react"; "next"]} None EmptyString
    = [("frontend", "react")]
  ∧ SoftwareDiscipline.detect_from_deps {["react"; "next"]}
    = [("frontend", "react")].
Proof. split; vm_compute; reflexivity. Qed.

(** C10. The result of [detect_from_deps] never maps [backend] to [next],
    in either copy: when [next] is a dependency the frontend scan has set
    [frontend], so the guard before the backend scan is false, and no entry
    of the backend table has the value [next]. *)
Theorem backend_is_never_next deps root_scripts package_manager :
  dict_get "backend"
    (DetectStack.detect_from_deps deps root_scripts package_manager)
    ≠ Some "next"
  ∧ dict_get "backend" (SoftwareDiscipline.detect_from_deps deps) ≠ Some "next"
  ∧ ("next" ∈ deps →
     is_Some (dict_get "frontend"
       (DetectStack.detect_from_deps deps root_scripts package_manager))
     ∧ is_Some (dict_get "frontend" (SoftwareDiscipline.detect_from_deps deps)))
  ∧ (∀ dep, (dep, "next") ∉ DetectStack.backend_map)
  ∧ (∀ dep, (dep, "next") ∉ SoftwareDiscipline.backend_map).
Proof.
  assert (Htable : ∀ dep, (dep, "next") ∉ DetectStack.backend_map).
  { intros dep Hin. unfold DetectStack.backend_map in Hin.
    repeat (apply elem_of_cons in Hin as [[=]|Hin]). by apply elem_of_nil in Hin. }
  assert (Hscan : first_match DetectStack.backend_map deps ≠ Some "next").
  { intros (i & dep & Hi & _)%first_match_Some.
    apply (Htable dep). by eapply list_elem_of_lookup_2. }
  split_and!.
  - by rewrite lookup_backend.
  - by rewrite legacy_lookup_backend.
  - intros Hnext. rewrite lookup_frontend, legacy_lookup_frontend.
    apply next_sets_frontend in Hnext.
    change SoftwareDiscipline.frontend_map with DetectStack.frontend_map.
    destruct (first_match DetectStack.frontend_map deps);
      [split; by eexists | done].
  - done.
  - done.
Qed.




(** The [bun test] rule reads the [test] script wherever it stands among
    the scripts, also first or alone. *)
Lemma bun_test_rule_first_script :
  DetectStack.detect_from_deps ∅ (Some [("test", "bun test")]) "bun"
  = [("testing", "bun-test")]
  ∧ bun_test_fallback (Some [("test", "bun test")]) "bun" = Some "bun-test"
  ∧ dict_get "testing" (DetectStack.build_config bun_test_project "proj").1.1.1
    = Some (SStr "bun-test").
Proof. split_and!; reflexivity. Qed.



(** ** The runtime and the language *)

Lemma dict_get_update {V} k (d e : dict V) :
  dict_get k e = None → dict_get k (dict_update d e) = dict_get k d.
Proof.
  unfold dict_update. revert d.
  induction e as [|[k0 v0] e IH]; intros d He; simpl in *; [done|].
  destruct (String.eqb_spec k k0) as [->|Hne]; [done|].
  rewrite IH by done. rewrite dict_get_set.
  by destruct (String.eqb_spec k k0).
Qed.

Lemma dict_get_map_None {V W} (f : V → W) k (d : dict V) :
  dict_get k d = None →
  dict_get k (map (λ kv, (kv.1, f kv.2)) d) = None.
Proof.
  induction d as [|[k0 v0] d IH]; simpl; [done|].
  by destruct (String.eqb k k0).
Qed.

Lemma no_runtime_from_deps deps rs pm :
  dict_get "runtime" (DetectStack.detect_from_deps deps rs pm) = None.
Proof. by_category. Qed.

Lemma legacy_no_runtime_from_deps deps :
  dict_get "runtime" (SoftwareDiscipline.detect_from_deps deps) = None.
Proof. by_category. Qed.

Lemma no_language_from_deps deps rs pm :
  dict_get "language" (DetectStack.detect_from_deps deps rs pm) = None.
Proof. by_category. Qed.

(** The [runtime] field of the stack that [build_config] returns. *)
Lemma runtime_field fs root :
  dict_get "runtime" (DetectStack.build_config fs root).1.1.1
  = let runtime :=
      DetectStack.detect_runtime (DetectStack.detect_language fs root)
        (DetectStack.detect_package_manager fs root) in
    if nonempty runtime then Some (SStr runtime) else None.
Proof.
  unfold DetectStack.build_config. cbn [fst snd].
  rewrite dict_get_update
    by (apply dict_get_map_None, no_runtime_from_deps).
  unfold DetectStack.set_if_nonempty.
  repeat (case_match; rewrite ?dict_get_set; simpl); done.
Qed.

Lemma legacy_runtime_field fs root :
  dict_get "runtime" (SoftwareDiscipline.build_config fs root).1.1
  = let runtime :=
      SoftwareDiscipline.detect_runtime
        (SoftwareDiscipline.detect_language fs root) in
    if nonempty runtime then Some (SStr runtime) else None.
Proof.
  unfold SoftwareDiscipline.build_config. cbn [fst snd].
  rewrite dict_get_update
    by (apply dict_get_map_None, legacy_no_runtime_from_deps).
  unfold DetectStack.set_if_nonempty.
  repeat (case_match; rewrite ?dict_get_set; simpl); done.
Qed.

Lemma language_field fs root :
  dict_get "language" (DetectStack.build_config fs root).1.1.1
  = let language := DetectStack.detect_language fs root in
    if nonempty language then Some (SStr language) else None.
Proof.
  unfold DetectStack.build_config. cbn [fst snd].
  rewrite dict_get_update
    by (apply dict_get_map_None, no_language_from_deps).
  unfold DetectStack.set_if_nonempty.
  repeat (case_match; rewrite ?dict_get_set; simpl); done.
Qed.

Lemma nested_tsconfig_true fs root parent entry :
  nested_marker fs root parent entry →
  DetectStack.nested_tsconfig fs root = true.
Proof.
  intros (Hparent & Hdir & (entries & Hlist & Hentry) & Hfile).
  unfold DetectStack.nested_tsconfig. apply existsb_exists.
  exists parent. split; [by apply list_elem_of_In|].
  unfold DetectStack.dir_exists, DetectStack.file_exists.
  rewrite Hdir, Hlist. simpl. apply existsb_exists.
  exists entry. split; [by apply list_elem_of_In | done].
Qed.

Lemma nested_tsconfig_false fs root :
  (∀ parent entry, ¬ nested_marker fs root parent entry) →
  DetectStack.nested_tsconfig fs root = false.
Proof.
  intros Hno. destruct (DetectStack.nested_tsconfig fs root) eqn:Heq; [|done].
  exfalso. unfold DetectStack.nested_tsconfig in Heq.
  apply existsb_exists in Heq as (parent & Hparent & Heq).
  apply andb_true_iff in Heq as [Hdir Heq].
  destruct (listdir fs _) as [entries|] eqn:Hlist; [|done].
  apply existsb_exists in Heq as (entry & Hentry & Hfile).
  apply (Hno parent entry). split_and!.
  - by apply list_elem_of_In.
  - done.
  - exists entries. split; [done | by apply list_elem_of_In].
  - done.
Qed.

(** C4. In the newer copy the runtime is [bun] when the package manager is
    [bun], else [node] for the languages typescript and javascript, else
    absent; so a bun lockfile, with no pnpm lockfile before it, gives the
    runtime [bun].  The older copy derives the runtime from the language
    alone. *)
Theorem runtime_derivation fs root language package_manager :
  DetectStack.detect_runtime language "bun" = "bun"
  ∧ (package_manager ≠ "bun" →
     language = "typescript" ∨ language = "javascript" →
     DetectStack.detect_runtime language package_manager = "node")
  ∧ (package_manager ≠ "bun" →
     language ≠ "typescript" → language ≠ "javascript" →
     DetectStack.detect_runtime language package_manager = EmptyString)
  ∧ dict_get "runtime" (DetectStack.build_config fs root).1.1.1
    = (let runtime :=
         DetectStack.detect_runtime (DetectStack.detect_language fs root)
           (DetectStack.detect_package_manager fs root) in
       if nonempty runtime then Some (SStr runtime) else None)
  ∧ (isfile fs (root +:+ "/pnpm-lock.yaml") = false →
     isfile fs (root +:+ "/bun.lockb") = true
     ∨ isfile fs (root +:+ "/bun.lock") = true →
     DetectStack.detect_package_manager fs root = "bun"
     ∧ dict_get "runtime" (DetectStack.build_config fs root).1.1.1
       = Some (SStr "bun"))
  ∧ dict_get "runtime" (SoftwareDiscipline.build_config fs root).1.1
    = (if String.eqb (SoftwareDiscipline.detect_language fs root) "typescript"
          || String.eqb (SoftwareDiscipline.detect_language fs root) "javascript"
       then Some (SStr "node") else None).
Proof.
  split_and!.
  - done.
  - intros Hpm Hlang. unfold DetectStack.detect_runtime.
    destruct (String.eqb_spec package_manager "bun"); [done|].
    by destruct Hlang as [-> | ->].
  - intros Hpm Hts Hjs. unfold DetectStack.detect_runtime.
    destruct (String.eqb_spec package_manager "bun"); [done|].
    destruct (String.eqb_spec language "typescript"); [done|].
    by destruct (String.eqb_spec language "javascript").
  - apply runtime_field.
  - intros Hpnpm Hbun.
    assert (Hpm : DetectStack.detect_package_manager fs root = "bun").
    { unfold DetectStack.detect_package_manager, DetectStack.file_exists.
      rewrite Hpnpm. by destruct Hbun as [-> | ->]; [|rewrite orb_true_r]. }
    by rewrite runtime_field, Hpm.
  - rewrite legacy_runtime_field. unfold SoftwareDiscipline.detect_runtime.
    by destruct (_ || _).
Qed.

Lemma runtime_derivation_witness :
  isfile bun_project ("proj" +:+ "/pnpm-lock.yaml") = false
  ∧ isfile bun_project ("proj" +:+ "/bun.lockb") = true
  ∧ dict_get "runtime" (DetectStack.build_config bun_project "proj").1.1.1
    = Some (SStr "bun").
Proof.
  split; [reflexivity|]. split; [reflexivity|].
  refine (proj2 (proj1 (proj2 (proj2 (proj2 (proj2
    (runtime_derivation bun_project "proj" "typescript" "bun"))))) _ _)).
  - reflexivity.
  - left. reflexivity.
Defined.

(** C4, the older copy: with a bun lockfile and the language typescript its
    [build_config] gives the runtime [node]. *)
Lemma legacy_runtime_ignores_bun :
  SoftwareDiscipline.detect_language bun_project "proj" = "typescript"
  ∧ SoftwareDiscipline.detect_package_manager bun_project "proj" = "bun"
  ∧ dict_get "runtime" (SoftwareDiscipline.build_config bun_project "proj").1.1
    = Some (SStr "node")
  ∧ dict_get "runtime" (SoftwareDiscipline.build_config bun_project "proj").1.1
    ≠ Some (SStr "bun").
Proof. split_and!; [vm_compute; reflexivity..|]. vm_compute. discriminate. Qed.

(** C5. In the newer copy, with no typescript marker at the root, a
    [tsconfig.json] in a listed entry of an existing workspace parent gives
    the language typescript, whatever the later markers; with no marker at
    all the language is empty and the stack has no [language] field.  The
    older copy does not look into the workspace parents: the root markers
    alone decide. *)
Theorem language_detection fs root :
  (∀ parent entry, nested_marker fs root parent entry →
     DetectStack.detect_language fs root = "typescript")
  ∧ (no_root_marker fs root →
     (∀ parent entry, ¬ nested_marker fs root parent entry) →
     DetectStack.detect_language fs root = EmptyString
     ∧ dict_get "language" (DetectStack.build_config fs root).1.1.1 = None)
  ∧ (isfile fs (root +:+ "/tsconfig.json") = false →
     isfile fs (root +:+ "/tsconfig.base.json") = false →
     isfile fs (root +:+ "/package.json") = true →
     SoftwareDiscipline.detect_language fs root = "javascript").
Proof.
  split_and!.
  - intros parent entry Hnested. unfold DetectStack.detect_language.
    rewrite (nested_tsconfig_true _ _ _ _ Hnested). by destruct (_ || _).
  - intros Hroot Hnested.
    assert (Hlang : DetectStack.detect_language fs root = EmptyString).
    { unfold DetectStack.detect_language, DetectStack.file_exists.
      rewrite (nested_tsconfig_false _ _ Hnested).
      rewrite !Hroot by set_solver. done. }
    by rewrite language_field, Hlang.
  - intros Hts Hbase Hpkg. unfold SoftwareDiscipline.detect_language.
    by rewrite Hts, Hbase, Hpkg.
Qed.

Lemma language_detection_witness :
  nested_marker nested_ts_project "proj" "apps" "web"
  ∧ DetectStack.detect_language nested_ts_project "proj" = "typescript".
Proof.
  assert (H : nested_marker nested_ts_project "proj" "apps" "web").
  { split_and!; [set_solver | reflexivity | | reflexivity].
    exists ["web"]. split; [reflexivity | set_solver]. }
  split; [exact H|].
  exact (proj1 (language_detection nested_ts_project "proj") "apps" "web" H).
Defined.

(** C5, the older copy: the nested [tsconfig.json] is not seen and the
    language is javascript. *)
Lemma legacy_language_misses_nested_tsconfig :
  isfile nested_ts_project ("proj" +:+ "/tsconfig.json") = false
  ∧ isfile nested_ts_project ("proj" +:+ "/tsconfig.base.json") = false
  ∧ nested_marker nested_ts_project "proj" "apps" "web"
  ∧ SoftwareDiscipline.detect_language nested_ts_project "proj" = "javascript"
  ∧ SoftwareDiscipline.detect_language nested_ts_project "proj" ≠ "typescript".
Proof.
  split_and!; [reflexivity | reflexivity | | reflexivity | by vm_compute].
  split_and!; [set_solver | reflexivity | | reflexivity].
  exists ["web"]. split; [reflexivity | set_solver].
Qed.

(** ** The empty manifest *)

Lemma append_inj_l (p a b : string) : p +:+ a = p +:+ b → a = b.
Proof. induction p as [|c p IH]; simpl; [done|]. intros [= H]. by apply IH. Qed.

(** C6. A root that holds a manifest with no scripts, no dependencies and
    no workspaces, no other marker file, no lockfile and no workspace
    parent (any other file may be there), gives the stack
    [language: javascript], [runtime: node], [monorepo: false] (the manifest
    is itself the marker of javascript), no structure, no verification, and
    the two disciplines with [api_contracts] false. *)
Theorem empty_manifest_config fs root name other :
  read_json fs (root +:+ "/package.json")
    = Some (PackageJson name None false None None None other) →
  isfile fs (root +:+ "/package.json") = true →
  (∀ file, file ∈ marker_files ++ lockfiles →
     isfile fs (root +:+ file) = false) →
  (∀ parent, parent ∈ workspace_parents →
     isdir fs (root +:+ "/" +:+ parent) = false) →
  DetectStack.build_config fs root
    = ([("language", SStr "javascript"); ("runtime", SStr "node");
        ("monorepo", SBool false)],
       [],
       [("api_contracts", SBool false); ("plan_enforcement", SBool true)],
       [])
  ∧ DetectStack.render_lines
      [("language", SStr "javascript"); ("runtime", SStr "node");
       ("monorepo", SBool false)]
      []
      [("api_contracts", SBool false); ("plan_enforcement", SBool true)]
      []
    = ["---"; "stack:"; "  language: javascript"; "  runtime: node";
       "  monorepo: false"; "disciplines:"; "  api_contracts: false";
       "  plan_enforcement: true"; "---"; EmptyString; "# Project Notes";
       EmptyString;
       "Add project-specific context here (optional, free-form).";
       EmptyString].
Proof.
  intros Hpkg Hfile Hprobed Hdirs. split; [|reflexivity].
  assert (Hnone : ∀ file,
    bool_decide (file ∈ marker_files ++ lockfiles) = true →
    isfile fs (root +:+ file) = false).
  { intros file Hin. by apply Hprobed, (bool_decide_eq_true_1 _). }
  assert (Happs := Hdirs "apps" ltac:(set_solver)).
  assert (Hpackages := Hdirs "packages" ltac:(set_solver)).
  assert (Hservices := Hdirs "services" ltac:(set_solver)).
  assert (Hlibs := Hdirs "libs" ltac:(set_solver)).
  assert (Hlang : DetectStack.detect_language fs root = "javascript").
  { unfold DetectStack.detect_language, DetectStack.nested_tsconfig,
      DetectStack.file_exists, DetectStack.dir_exists. simpl.
    rewrite Happs, Hpackages, Hservices, Hlibs, Hfile.
    rewrite !Hnone by done. done. }
  assert (Hpm : DetectStack.detect_package_manager fs root = EmptyString).
  { unfold DetectStack.detect_package_manager, DetectStack.file_exists.
    rewrite !Hnone by done. done. }
  assert (Hmono : DetectStack.detect_monorepo fs root = false).
  { unfold DetectStack.detect_monorepo, DetectStack.file_exists. simpl.
    rewrite Hpkg. rewrite !Hnone by done. simpl. apply andb_false_r. }
  assert (Hdeps : DetectStack.collect_all_deps fs root = ∅).
  { unfold DetectStack.collect_all_deps, DetectStack.dir_exists. simpl.
    rewrite Happs, Hpackages, Hservices, Hlibs, Hpkg. simpl.
    by destruct (negb _). }
  assert (Hverif : DetectStack.detect_verification_commands fs root = []).
  { unfold DetectStack.detect_verification_commands. rewrite Hpkg. simpl.
    by destruct (negb _). }
  unfold DetectStack.build_config.
  rewrite Hlang, Hpm, Hmono, Hdeps, Hverif, Hpkg. simpl.
  by destruct (pkg_truthy _).
Qed.

Lemma empty_manifest_config_witness :
  (∀ file, file ∈ marker_files ++ lockfiles →
     isfile manifest_and_readme ("proj" +:+ file) = false)
  ∧ isfile manifest_and_readme "proj/README.md" = true
  ∧ DetectStack.build_config manifest_and_readme "proj"
    = ([("language", SStr "javascript"); ("runtime", SStr "node");
        ("monorepo", SBool false)],
       [],
       [("api_contracts", SBool false); ("plan_enforcement", SBool true)],
       []).
Proof.
  assert (Hprobed : ∀ file, file ∈ marker_files ++ lockfiles →
            isfile manifest_and_readme ("proj" +:+ file) = false).
  { intros file Hin. unfold marker_files, lockfiles in Hin. simpl in Hin.
    repeat (apply elem_of_cons in Hin as [->|Hin]); [reflexivity..|].
    by apply elem_of_nil in Hin. }
  split_and!; [exact Hprobed | reflexivity |].
  refine (proj1 (empty_manifest_config manifest_and_readme "proj" None false
                   _ _ Hprobed _)).
  - reflexivity.
  - reflexivity.
  - intros parent Hparent. reflexivity.
Defined.

(** C6, as stated: on the project that holds an empty manifest and nothing
    else the stack is not [monorepo: false] alone, and the document has the
    lines of the language and of the runtime. *)
Lemma empty_manifest_stack_has_language :
  (DetectStack.build_config only_manifest "proj").1.1.1
    ≠ [("monorepo", SBool false)]
  ∧ (let '(stack, structure, disciplines, verification) :=
       DetectStack.build_config only_manifest "proj" in
     DetectStack.render_lines stack structure disciplines verification)
    = ["---"; "stack:"; "  language: javascript"; "  runtime: node";
       "  monorepo: false"; "disciplines:"; "  api_contracts: false";
       "  plan_enforcement: true"; "---"; EmptyString; "# Project Notes";
       EmptyString;
       "Add project-specific context here (optional, free-form).";
       EmptyString].
Proof. split; [by vm_compute | vm_compute; reflexivity]. Qed.

(** ** The verification commands *)

Section VerificationLoop.
Variable scripts : dict string.
Let step := DetectStack.verification_step scripts.

Lemma verification_keeps t commands category name :
  dict_get category commands = Some name →
  dict_get category (fold_left step t commands) = Some name.
Proof.
  revert commands. induction t as [|[s c] t IH]; intros commands Hget; [done|].
  simpl. apply IH. destruct (dict_mem s scripts); simpl; [|done].
  unfold dict_mem. destruct (dict_get c commands) eqn:Hc; simpl; [done|].
  rewrite dict_get_set. destruct (String.eqb_spec category c); [|done].
  congruence.
Qed.

Lemma verification_first t commands category name :
  dict_get category commands = None →
  first_script t scripts category name →
  dict_get category (fold_left step t commands) = Some name.
Proof.
  revert commands. induction t as [|[s c] t IH];
    intros commands Hget (i & Hi & Hmem & Hfirst); [done|].
  simpl. destruct i as [|i].
  - simplify_eq/=. apply verification_keeps.
    rewrite Hmem. unfold dict_mem. rewrite Hget. simpl.
    by rewrite dict_get_set, String.eqb_refl.
  - simpl in Hi. apply IH.
    + destruct (dict_mem s scripts) eqn:Hs; simpl; [|done].
      destruct (negb _); [|done]. rewrite dict_get_set.
      destruct (String.eqb_spec category c) as [->|]; [|done].
      specialize (Hfirst 0 s ltac:(lia) eq_refl). congruence.
    + exists i. split_and!; [done..|]. intros j name' Hj Hl.
      apply (Hfirst (S j) name'); [lia | done].
Qed.

Lemma verification_none t commands category :
  dict_get category commands = None →
  no_script t scripts category →
  dict_get category (fold_left step t commands) = None.
Proof.
  revert commands. induction t as [|[s c] t IH]; intros commands Hget Hno; [done|].
  simpl. apply IH.
  - destruct (dict_mem s scripts) eqn:Hs; simpl; [|done].
    destruct (negb _); [|done]. rewrite dict_get_set.
    destruct (String.eqb_spec category c) as [->|]; [|done].
    specialize (Hno s ltac:(left)). congruence.
  - intros name Hin. apply Hno. by right.
Qed.

End VerificationLoop.

(** C8. With no readable manifest or no scripts the result is empty.
    Otherwise each category gets the first script name of the table, among
    those of the category, that the scripts hold, and is absent when there
    is none; and a category filled after any part of the table keeps its
    value to the end. *)
Theorem verification_commands fs root :
  (read_json fs (root +:+ "/package.json") = None →
     DetectStack.detect_verification_commands fs root = [])
  ∧ (∀ pkg, read_json fs (root +:+ "/package.json") = Some pkg →
       pkg_scripts pkg = None →
       DetectStack.detect_verification_commands fs root = [])
  ∧ (∀ pkg scripts, read_json fs (root +:+ "/package.json") = Some pkg →
       pkg_scripts pkg = Some scripts →
       (∀ category name,
          first_script DetectStack.script_map scripts category name →
          dict_get category (DetectStack.detect_verification_commands fs root)
            = Some name)
       ∧ (∀ category, no_script DetectStack.script_map scripts category →
          dict_get category (DetectStack.detect_verification_commands fs root)
            = None)
       ∧ (∀ before after category name,
          DetectStack.script_map = before ++ after →
          dict_get category
            (fold_left (DetectStack.verification_step scripts) before [])
            = Some name →
          dict_get category (DetectStack.detect_verification_commands fs root)
            = Some name)).
Proof.
  unfold DetectStack.detect_verification_commands. split_and!.
  - by intros ->.
  - intros pkg -> ->. by destruct (negb _).
  - intros pkg scripts -> Hscripts.
    assert (Htruthy : pkg_truthy pkg = true).
    { unfold pkg_truthy. rewrite Hscripts. by rewrite orb_true_r. }
    rewrite Htruthy, Hscripts. cbn [negb].
    destruct scripts as [|entry scripts].
    { split_and!.
      - by intros category name (i & _ & ? & _).
      - done.
      - intros before after category name _ Hget. exfalso.
        assert (Hnil : fold_left (DetectStack.verification_step []) before [] = []).
        { clear. induction before as [|[s c] before IH]; [done | apply IH]. }
        by rewrite Hnil in Hget. }
    split_and!.
    + intros category name. by apply verification_first.
    + intros category. by apply verification_none.
    + intros before after category name -> Hget.
      rewrite fold_left_app. by apply verification_keeps.
Qed.

Lemma verification_commands_witness :
  read_json scripted_project ("proj" +:+ "/package.json")
    = Some (PackageJson (Some "demo")
        (Some [("test:unit", "vitest run"); ("tsc", "tsc --noEmit");
               ("typecheck", "tsc -b"); ("eslint", "eslint .");
               ("start", "node .")])
        false None None None false)
  ∧ first_script DetectStack.script_map
      [("test:unit", "vitest run"); ("tsc", "tsc --noEmit");
       ("typecheck", "tsc -b"); ("eslint", "eslint ."); ("start", "node .")]
      "typecheck" "typecheck"
  ∧ dict_get "typecheck"
      (DetectStack.detect_verification_commands scripted_project "proj")
    = Some "typecheck".
Proof.
  assert (Hfirst : first_script DetectStack.script_map
      [("test:unit", "vitest run"); ("tsc", "tsc --noEmit");
       ("typecheck", "tsc -b"); ("eslint", "eslint ."); ("start", "node .")]
      "typecheck" "typecheck").
  { exists 0. split_and!; [reflexivity | reflexivity | intros; lia]. }
  split; [reflexivity|]. split; [exact Hfirst|].
  exact (proj1 (proj2 (proj2 (verification_commands scripted_project "proj"))
                 _ _ eq_refl eq_refl) _ _ Hfirst).
Defined.

(** ** The parser, line by line *)

Import ReadConfig.

(** C7, as stated: after the comment line of [commented_document] the
    current parent is still the block [stack], and the child line after it
    is attached to that block. *)
Lemma comment_line_keeps_parent :
  (∃ st, parse_line (PState [("stack", TDict [])] (Some "stack") None)
           "  # detected" = Ok st
         ∧ current_parent st = Some "stack" ∧ current_parent st ≠ None)
  ∧ parse_frontmatter commented_document
    = Ok [("stack", TDict [("language", VScalar (SStr "go"))])].
Proof.
  split; [|vm_compute; reflexivity].
  eexists. split; [vm_compute; reflexivity|]. by split.
Qed.

(** ** The front matter *)

#[local] Arguments String.append !_ _ / : simpl nomatch.

Lemma append_assoc (a b c : string) : (a +:+ b) +:+ c = a +:+ b +:+ c.
Proof. induction a as [|x a IH]; simpl; [done | by rewrite IH]. Qed.

Lemma append_nil_r (a : string) : a +:+ EmptyString = a.
Proof. induction a as [|x a IH]; simpl; [done | by rewrite IH]. Qed.

Lemma startswith_split p s :
  startswith p s = true → ∃ rest, s = p +:+ rest.
Proof.
  revert s. induction p as [|a p IH]; intros s Hs; simpl in *; [by exists s|].
  destruct s as [|b s]; [done|].
  apply andb_true_iff in Hs as [Hab Hs]. apply Ascii.eqb_eq in Hab as ->.
  destruct (IH _ Hs) as [rest ->]. by exists rest.
Qed.

Lemma lazy_until_marker_cons c s :
  Re.lazy_until_marker (String c s)
  = if startswith (String nl "---") (String c s) then Some EmptyString
    else match Re.lazy_until_marker s with
         | Some g => Some (String c g)
         | None => None
         end.
Proof. reflexivity. Qed.

Lemma lazy_until_marker_split s g :
  Re.lazy_until_marker s = Some g →
  ∃ rest, s = g +:+ String nl "---" +:+ rest.
Proof.
  revert g. induction s as [|c s IH]; intros g; [done|].
  rewrite lazy_until_marker_cons.
  destruct (startswith _ (String c s)) eqn:Hm.
  - intros [= <-]. apply startswith_split in Hm as [rest ->]. by exists rest.
  - destruct (Re.lazy_until_marker s) as [g'|]; [|done].
    intros [= <-]. destruct (IH g' eq_refl) as [rest ->]. by exists rest.
Qed.

Lemma ws_star_split {A} s (k : string → option A) r :
  Re.ws_star s k = Some r → ∃ ws rest, s = ws +:+ rest ∧ k rest = Some r.
Proof.
  induction s as [|c s IH]; simpl.
  - intros Hk. by exists EmptyString, EmptyString.
  - destruct (is_space c).
    + destruct (Re.ws_star s k) as [r'|] eqn:Hs.
      * intros [= <-]. destruct (IH eq_refl) as (ws & rest & -> & Hk).
        by exists (String c ws), rest.
      * intros Hk. by exists EmptyString, (String c s).
    + intros Hk. by exists EmptyString, (String c s).
Qed.

(** A text with front matter holds three dashes at its start and three
    more after a later newline. *)
Lemma frontmatter_match_split text body :
  frontmatter_match text = Some body →
  ∃ ws rest,
    text = "---" +:+ ws +:+ String nl (body +:+ String nl "---" +:+ rest).
Proof.
  unfold frontmatter_match, Re.lit.
  destruct text as [|c1 [|c2 [|c3 t]]]; try done;
    try (by destruct (Ascii.eqb _ _)); try (by repeat destruct (Ascii.eqb _ _)).
  destruct (Ascii.eqb_spec c1 "-") as [->|]; [|done].
  destruct (Ascii.eqb_spec c2 "-") as [->|]; [|done].
  destruct (Ascii.eqb_spec c3 "-") as [->|]; [|done].
  intros (ws & rest & -> & Hk)%ws_star_split.
  destruct rest as [|c rest]; [done|].
  destruct (Ascii.eqb_spec c nl) as [->|]; [|done].
  apply lazy_until_marker_split in Hk as [rest' ->].
  by exists ws, rest'.
Qed.

(** X11. A text that does not hold the marker twice has no front matter,
    and the parser returns the empty mapping on it. *)
Lemma parse_without_markers text :
  (∀ a b c, text ≠ a +:+ "---" +:+ b +:+ "---" +:+ c) →
  parse_frontmatter text = Ok [].
Proof.
  intros Hno. unfold parse_frontmatter.
  destruct (frontmatter_match text) as [body|] eqn:Hm; [|done].
  exfalso. apply frontmatter_match_split in Hm as (ws & rest & ->).
  apply (Hno EmptyString (ws +:+ String nl body +:+ String nl EmptyString) rest).
  simpl. do 3 f_equal. rewrite !append_assoc. simpl.
  by rewrite !append_assoc.
Qed.

(** C2. On a document whose value is a superscript two the parser raises
    [ValueError]: the character is a digit for [isdigit] and not for
    [int]. *)
Theorem superscript_digit_raises :
  isdigit (String "178"%char EmptyString) = true
  ∧ _coerce (String "178"%char EmptyString) = Raise ValueError
  ∧ parse_frontmatter superscript_document = Raise ValueError.
Proof. split_and!; vm_compute; reflexivity. Qed.

(** ** The round trip *)

(** *** Characters *)

Ltac by_cases_on_char c :=
  destruct c as [[] [] [] [] [] [] [] []]; vm_compute; try done; auto.

Lemma word_not_space c : is_word c = true → is_space c = false.
Proof. by_cases_on_char c. Qed.

Lemma word_not_dash c : is_word c = true → Ascii.eqb c "-" = false.
Proof. by_cases_on_char c. Qed.

Lemma word_not_nl c : is_word c = true → Ascii.eqb c nl = false.
Proof. by_cases_on_char c. Qed.

Lemma word_not_comment c r :
  is_word c = true → startswith "#" (String c r) = false.
Proof. by_cases_on_char c. Qed.

Lemma word_not_indent c s :
  is_word c = true → startswith "  " (String c s) = false.
Proof. by_cases_on_char c. Qed.

(** *** Stripping *)

Lemma lstrip_head c s : is_space c = false → lstrip (String c s) = String c s.
Proof. intros H. simpl. by rewrite H. Qed.

Lemma rstrip_head c s :
  is_space c = false → ∃ r, rstrip (String c s) = String c r.
Proof.
  intros H. simpl. destruct (rstrip s); [rewrite H|]; by eexists.
Qed.

Lemma strip_head c s :
  is_space c = false → ∃ r, strip (String c s) = String c r.
Proof. intros H. unfold strip. rewrite lstrip_head by done. by apply rstrip_head. Qed.

Lemma ws_star_total {A} (f : string → A) s :
  Re.ws_star s (λ r, Some (f r)) = Some (f (lstrip s)).
Proof.
  induction s as [|c s IH]; simpl; [done|].
  destruct (is_space c); [by rewrite IH | done].
Qed.

Lemma dot_star_no_nl s : no_nl s = true → Re.dot_star s = s.
Proof.
  unfold no_nl. induction s as [|c s IH]; simpl; [done|].
  intros [Hc Hs]%andb_true_iff. apply negb_true_iff in Hc. rewrite Hc.
  by rewrite IH.
Qed.

Lemma word_star_colon {A} w r (k : string → string → option A) x :
  all_chars is_word w = true →
  k w (String ":" r) = Some x →
  Re.word_star (w +:+ String ":" r) k = Some x.
Proof.
  revert k. induction w as [|c w IH]; intros k Hw Hk; simpl in *.
  - done.
  - apply andb_true_iff in Hw as [Hc Hw]. rewrite Hc.
    by rewrite (IH (λ g r, k (String c g) r)).
Qed.

Lemma word_plus_colon {A} w r (k : string → string → option A) x :
  word_key w = true →
  k w (String ":" r) = Some x →
  Re.word_plus (w +:+ String ":" r) k = Some x.
Proof.
  unfold word_key. destruct w as [|c w]; [done|]. simpl.
  intros [Hc Hw]%andb_true_iff Hk. rewrite Hc.
  by apply (word_star_colon w r (λ g r, k (String c g) r)).
Qed.

Lemma colon_value_spec key v :
  colon_value key (String ":" v) = Some (key, Re.dot_star (lstrip v)).
Proof. unfold colon_value. simpl. by rewrite ws_star_total. Qed.

Lemma word_key_head k :
  word_key k = true →
  ∃ c k', k = String c k' ∧ is_word c = true ∧ all_chars is_word k' = true.
Proof.
  unfold word_key. destruct k as [|c k']; [done|]. simpl.
  intros [Hc Hk]%andb_true_iff. by exists c, k'.
Qed.

Lemma ws_plus_indent2 {A} c s (k : string → option A) x :
  is_space c = false →
  k (String c s) = Some x →
  Re.ws_plus ("  " +:+ String c s) k = Some x.
Proof. intros Hc Hk. simpl. by rewrite Hc, Hk. Qed.

Lemma ws_plus_indent4 {A} c s (k : string → option A) x :
  is_space c = false →
  k (String c s) = Some x →
  Re.ws_plus ("    " +:+ String c s) k = Some x.
Proof. intros Hc Hk. simpl. by rewrite Hc, Hk. Qed.

(** White space before a character that is neither a space nor a dash is
    not the start of a list item. *)
Lemma list_match_indent2 c s :
  is_space c = false → Ascii.eqb c "-" = false →
  list_match ("  " +:+ String c s) = None.
Proof. intros Hc Hd. unfold list_match. simpl. by rewrite Hc, Hd. Qed.

Lemma list_match_no_indent c s :
  is_space c = false → list_match (String c s) = None.
Proof. intros Hc. unfold list_match. simpl. by rewrite Hc. Qed.

(** A child line: two spaces, the key, a colon and what follows. *)
Lemma child_match_line k v :
  word_key k = true →
  child_match ("  " +:+ k +:+ String ":" v)
  = Some (k, Re.dot_star (lstrip v)).
Proof.
  intros Hk. destruct (word_key_head k Hk) as (c & k' & -> & Hc & Hk').
  unfold child_match.
  apply (ws_plus_indent2 c (k' +:+ String ":" v)); [by apply word_not_space|].
  apply (word_plus_colon (String c k')); [done|]. apply colon_value_spec.
Qed.

Lemma top_match_line k v :
  word_key k = true →
  top_match (k +:+ String ":" v) = Some (k, Re.dot_star (lstrip v)).
Proof.
  intros Hk. unfold top_match.
  apply word_plus_colon; [done|]. apply colon_value_spec.
Qed.

(** An item line: four spaces, a dash, a space and the item. *)
Lemma list_match_line c v :
  is_space c = false → no_nl (String c v) = true →
  list_match ("    - " +:+ String c v) = Some (String c v).
Proof.
  intros Hc Hnl. unfold list_match.
  apply (ws_plus_indent4 "-" (" " +:+ String c v)); [done|].
  simpl. rewrite Hc. unfold Re.dot_plus. by rewrite dot_star_no_nl.
Qed.

Lemma bind_Ok {A B} (a : A) (f : A → res B) : (Ok a ≫= f) = f a.
Proof. done. Qed.

Lemma set_child_block p k v d r :
  dict_get p r = Some (TDict d) →
  set_child p k v r = Ok (dict_set p (TDict (dict_set k v d)) r).
Proof. intros H. unfold set_child. by rewrite H. Qed.

(** The line of a scalar child in an open block. *)
Lemma parse_scalar_line st p d k v x :
  current_parent st = Some p →
  dict_get p (result st) = Some (TDict d) →
  word_key k = true →
  reads_back v x →
  parse_line st ("  " +:+ k +:+ ": " +:+ v)
  = Ok (PState (dict_set p (TDict (dict_set k (VScalar x) d)) (result st))
               (Some p) None).
Proof.
  intros Hparent Hblock Hk (Hnl & (c' & v' & -> & Hc') & Hcoerce).
  pose proof (child_match_line k (" " +:+ String c' v') Hk) as Hchild.
  destruct (word_key_head k Hk) as (c & k' & -> & Hc & Hk').
  pose proof (word_not_space c Hc) as Hsp.
  set (line := "  " +:+ String c k' +:+ ": " +:+ String c' v') in *.
  destruct (strip_head c (k' +:+ ": " +:+ String c' v') Hsp) as [r Hstrip].
  change (strip line = String c r) in Hstrip.
  assert (Hlist : list_match line = None)
    by apply (list_match_indent2 c _ Hsp (word_not_dash c Hc)).
  assert (Hstart : startswith "  " line = true) by done.
  change (child_match line
          = Some (String c k', Re.dot_star (lstrip (" " +:+ String c' v'))))
    in Hchild.
  simpl lstrip in Hchild. rewrite Hc', dot_star_no_nl in Hchild by done.
  destruct (strip_head c' v' Hc') as [r' Hr'].
  unfold parse_line. cbv zeta.
  rewrite Hstrip, Hlist, Hstart, Hparent, Hchild.
  simpl nonempty. rewrite (word_not_comment c r Hc).
  cbn [negb orb andb]. rewrite Hr' in *. simpl nonempty. cbn iota.
  rewrite Hcoerce, bind_Ok.
  by rewrite (set_child_block p _ _ d), bind_Ok.
Qed.

(** The line that opens a list in an open block. *)
Lemma parse_list_head_line st p d k :
  current_parent st = Some p →
  dict_get p (result st) = Some (TDict d) →
  word_key k = true →
  parse_line st ("  " +:+ k +:+ ":")
  = Ok (PState (dict_set p (TDict (dict_set k (VList []) d)) (result st))
               (Some p) (Some (p, k))).
Proof.
  intros Hparent Hblock Hk.
  pose proof (child_match_line k EmptyString Hk) as Hchild.
  destruct (word_key_head k Hk) as (c & k' & -> & Hc & Hk').
  pose proof (word_not_space c Hc) as Hsp.
  set (line := "  " +:+ String c k' +:+ ":") in *.
  destruct (strip_head c (k' +:+ ":") Hsp) as [r Hstrip].
  change (strip line = String c r) in Hstrip.
  assert (Hlist : list_match line = None)
    by apply (list_match_indent2 c _ Hsp (word_not_dash c Hc)).
  assert (Hstart : startswith "  " line = true) by done.
  unfold parse_line. cbv zeta.
  rewrite Hstrip, Hlist, Hstart, Hparent, Hchild.
  simpl nonempty. rewrite (word_not_comment c r Hc).
  cbn [negb orb andb]. simpl.
  by rewrite (set_child_block p _ _ d).
Qed.

(** The line of an item of the list being collected. *)
Lemma parse_item_line st p d k l v x :
  current_child_list st = Some (p, k) →
  dict_get p (result st) = Some (TDict d) →
  dict_get k d = Some (VList l) →
  reads_back v x →
  parse_line st ("    - " +:+ v)
  = Ok (PState (dict_set p (TDict (dict_set k (VList (l ++ [x])) d)) (result st))
               (current_parent st) (Some (p, k))).
Proof.
  intros Hcur Hblock Hl (Hnl & (c & v' & -> & Hc) & Hcoerce).
  set (line := "    - " +:+ String c v').
  assert (Hstrip : ∃ r, strip line = String "-" r)
    by exact (strip_head "-" (" " +:+ String c v') eq_refl).
  destruct Hstrip as [r Hstrip].
  assert (Hlist : list_match line = Some (String c v'))
    by by apply list_match_line.
  unfold parse_line. cbv zeta. rewrite Hstrip, Hlist, Hcur.
  simpl nonempty. simpl startswith. cbn [negb orb andb].
  unfold get_list. rewrite Hblock, Hl, bind_Ok, Hcoerce, bind_Ok.
  by rewrite (set_child_block p _ _ d), bind_Ok.
Qed.

(** The line that opens a block, whatever the state. *)
Lemma parse_header_line st key :
  word_key key = true →
  parse_line st (key +:+ ":")
  = Ok (PState (dict_set key (TDict []) (result st)) (Some key) None).
Proof.
  intros Hk.
  pose proof (top_match_line key EmptyString Hk) as Htop.
  destruct (word_key_head key Hk) as (c & k' & -> & Hc & Hk').
  pose proof (word_not_space c Hc) as Hsp.
  set (line := String c k' +:+ ":") in *.
  destruct (strip_head c (k' +:+ ":") Hsp) as [r Hstrip].
  change (strip line = String c r) in Hstrip.
  assert (Hlist : list_match line = None) by by apply list_match_no_indent.
  assert (Hstart : startswith "  " line = false)
    by by apply word_not_indent.
  unfold parse_line. cbv zeta.
  rewrite Hstrip, Hlist, Hstart, Htop.
  simpl nonempty. rewrite (word_not_comment c r Hc).
  cbn [negb orb andb]. simpl. by destruct (current_child_list st) as [[]|].
Qed.

(** *** The blocks *)

Lemma parse_lines_cons st st' line rest :
  parse_line st line = Ok st' →
  parse_lines st (line :: rest) = parse_lines st' rest.
Proof. intros H. simpl. by rewrite H. Qed.

Lemma keys_app {V} (d e : dict V) : keys (d ++ e) = keys d ++ keys e.
Proof. unfold keys. apply map_app. Qed.

Section Block.
Variables (r0 : dict top) (p : string).
Hypothesis Hfresh : p ∉ keys r0.

Lemma block_update d d' :
  dict_set p (TDict d') (r0 ++ [(p, TDict d)]) = r0 ++ [(p, TDict d')].
Proof. by apply dict_set_last. Qed.

Lemma block_lookup d : dict_get p (r0 ++ [(p, TDict d)]) = Some (TDict d).
Proof. by apply dict_get_last. Qed.

Lemma parse_items d k items : ∀ l st rest,
  k ∉ keys d →
  in_block st r0 p (d ++ [(k, VList l)]) →
  current_child_list st = Some (p, k) →
  Forall item_reads_back items →
  ∃ st',
    parse_lines st
      (map (λ item, "    - " +:+ DetectStack.py_str item) items ++ rest)
    = parse_lines st' rest
    ∧ in_block st' r0 p (d ++ [(k, VList (l ++ items))]).
Proof.
  induction items as [|x items IH]; intros l st rest Hk [Hres Hpar] Hcur Hitems.
  - exists st. by rewrite app_nil_r.
  - apply Forall_cons in Hitems as [Hx Hitems].
    pose proof (parse_item_line st p (d ++ [(k, VList l)]) k l
                  (DetectStack.py_str x) x Hcur) as Hline.
    rewrite Hres, block_lookup, block_update, dict_get_last, dict_set_last
      in Hline by done.
    specialize (Hline eq_refl eq_refl Hx). rewrite Hpar in Hline.
    destruct (IH (l ++ [x]) (PState _ _ _) rest Hk (conj eq_refl eq_refl)
                eq_refl Hitems) as (st' & Hst' & Hblock).
    exists st'. split.
    + cbn [map app]. rewrite (parse_lines_cons _ _ _ _ Hline). exact Hst'.
    + by rewrite <- app_assoc in Hblock.
Qed.

Lemma parse_entries entries : ∀ d st rest,
  in_block st r0 p d →
  NoDup (keys d ++ keys entries) →
  Forall value_reads_back entries →
  ∃ st',
    parse_lines st (flat_map DetectStack.structure_lines entries ++ rest)
    = parse_lines st' rest
    ∧ in_block st' r0 p (d ++ entries).
Proof.
  induction entries as [|[k v] entries IH];
    intros d st rest [Hres Hpar] Hdup Hentries.
  - exists st. by rewrite app_nil_r.
  - apply Forall_cons in Hentries as [[Hk Hv] Hentries]. simpl in Hk, Hv.
    assert (Hkd : k ∉ keys d).
    { apply NoDup_app in Hdup as (_ & Hdisj & _). intros Hin.
      apply (Hdisj k Hin). left. }
    assert (Hdup' : NoDup (keys (d ++ [(k, v)]) ++ keys entries)).
    { rewrite keys_app. simpl. by rewrite <- app_assoc. }
    destruct v as [x|items].
    + pose proof (parse_scalar_line st p d k (DetectStack._yaml_val x) x Hpar)
        as Hline.
      rewrite Hres, block_lookup, block_update, dict_set_fresh in Hline by done.
      specialize (Hline eq_refl Hk Hv).
      destruct (IH (d ++ [(k, VScalar x)])
                  (PState (r0 ++ [(p, TDict (d ++ [(k, VScalar x)]))])
                          (Some p) None)
                  rest (conj eq_refl eq_refl) Hdup' Hentries)
        as (st' & Hst' & Hblock).
      exists st'. split.
      * change (flat_map DetectStack.structure_lines ((k, VScalar x) :: entries)
                ++ rest)
          with (("  " +:+ k +:+ ": " +:+ DetectStack._yaml_val x)
                :: (flat_map DetectStack.structure_lines entries ++ rest)).
        rewrite (parse_lines_cons _ _ _ _ Hline). exact Hst'.
      * by rewrite <- app_assoc in Hblock.
    + pose proof (parse_list_head_line st p d k Hpar) as Hline.
      rewrite Hres, block_lookup, block_update, dict_set_fresh in Hline by done.
      specialize (Hline eq_refl Hk).
      destruct (parse_items d k items []
                  (PState (r0 ++ [(p, TDict (d ++ [(k, VList [])]))])
                          (Some p) (Some (p, k)))
                  (flat_map DetectStack.structure_lines entries ++ rest)
                  Hkd (conj eq_refl eq_refl) eq_refl Hv)
        as (st1 & Hst1 & Hblock1).
      destruct (IH (d ++ [(k, VList items)]) st1 rest Hblock1 Hdup' Hentries)
        as (st' & Hst' & Hblock).
      exists st'. split.
      * change (flat_map DetectStack.structure_lines ((k, VList items) :: entries)
                ++ rest)
          with (("  " +:+ k +:+ ":")
                :: ((map (λ item, "    - " +:+ DetectStack.py_str item) items
                     ++ flat_map DetectStack.structure_lines entries) ++ rest)).
        rewrite (parse_lines_cons _ _ _ _ Hline).
        rewrite <- app_assoc, Hst1. exact Hst'.
      * by rewrite <- app_assoc in Hblock.
Qed.

End Block.

Lemma parse_block st key entries rest :
  word_key key = true →
  key ∉ keys (result st) →
  NoDup (keys entries) →
  Forall value_reads_back entries →
  ∃ st',
    parse_lines st
      (DetectStack.block (key +:+ ":") (flat_map DetectStack.structure_lines)
         entries ++ rest)
    = parse_lines st' rest
    ∧ result st' = result st ++ block_of key entries.
Proof.
  intros Hkey Hfresh Hdup Hentries.
  destruct entries as [|entry entries].
  - exists st. by rewrite app_nil_r.
  - pose proof (parse_header_line st key Hkey) as Hline.
    rewrite dict_set_fresh in Hline by done.
    destruct (parse_entries (result st) key Hfresh (entry :: entries) []
                (PState (result st ++ [(key, TDict [])]) (Some key) None) rest
                (conj eq_refl eq_refl) Hdup Hentries)
      as (st' & Hst' & Hres & _).
    exists st'. split; [|done].
    unfold DetectStack.block.
    rewrite <- app_comm_cons, (parse_lines_cons _ _ _ _ Hline). exact Hst'.
Qed.

(** *** Lines, joined and split *)

Lemma no_nl_app a b : no_nl (a +:+ b) = no_nl a && no_nl b.
Proof.
  unfold no_nl. induction a as [|c a IH]; simpl; [done|].
  by rewrite IH, andb_assoc.
Qed.

Lemma no_nl_word w : all_chars is_word w = true → no_nl w = true.
Proof.
  unfold no_nl. induction w as [|c w IH]; simpl; [done|].
  intros [Hc Hw]%andb_true_iff. by rewrite (word_not_nl c Hc), IH.
Qed.

Lemma join_nl_cons a ls :
  ls ≠ [] → join_nl (a :: ls) = a +:+ String nl (join_nl ls).
Proof. by destruct ls. Qed.

Lemma join_nl_app ls ms :
  ls ≠ [] → ms ≠ [] →
  join_nl (ls ++ ms) = join_nl ls +:+ String nl (join_nl ms).
Proof.
  intros Hls Hms. induction ls as [|a ls IH]; [done|].
  destruct ls as [|b ls].
  - cbn [app]. by rewrite (join_nl_cons a ms).
  - cbn [app] in *. rewrite (join_nl_cons a (b :: ls ++ ms)) by done.
    rewrite IH, (join_nl_cons a (b :: ls)), append_assoc by done. done.
Qed.

Lemma split_nl_line l s :
  no_nl l = true → split_nl (l +:+ String nl s) = l :: split_nl s.
Proof.
  unfold no_nl. induction l as [|c l IH]; simpl.
  - done.
  - intros [Hc Hl]%andb_true_iff. apply negb_true_iff in Hc.
    by rewrite Hc, IH.
Qed.

Lemma split_nl_single l : no_nl l = true → split_nl l = [l].
Proof.
  unfold no_nl. induction l as [|c l IH]; simpl; [done|].
  intros [Hc Hl]%andb_true_iff. apply negb_true_iff in Hc.
  by rewrite Hc, IH.
Qed.

Lemma split_join lines :
  lines ≠ [] → Forall (λ l, no_nl l = true) lines →
  split_nl (join_nl lines) = lines.
Proof.
  intros Hne Hall. induction Hall as [|l lines Hl Hall IH]; [done|].
  destruct lines as [|l2 lines].
  - by apply split_nl_single.
  - rewrite join_nl_cons, split_nl_line, IH by done. done.
Qed.

Lemma startswith_app p s : startswith p (p +:+ s) = true.
Proof. induction p as [|c p IH]; simpl; [done|]. by rewrite Ascii.eqb_refl. Qed.

Lemma startswith_other a p c s :
  Ascii.eqb c a = false → startswith (String a p) (String c s) = false.
Proof. intros H. cbn [startswith]. by rewrite Ascii.eqb_sym, H. Qed.

Lemma lazy_skip_line l s :
  no_nl l = true →
  Re.lazy_until_marker (l +:+ s)
  = (λ g, l +:+ g) <$> Re.lazy_until_marker s.
Proof.
  unfold no_nl. induction l as [|c l IH]; intros Hl.
  - simpl. by destruct (Re.lazy_until_marker s).
  - simpl in Hl. apply andb_true_iff in Hl as [Hc Hl].
    apply negb_true_iff in Hc.
    change (String c l +:+ s) with (String c (l +:+ s)).
    rewrite lazy_until_marker_cons, IH by done.
    rewrite startswith_other by done.
    by destruct (Re.lazy_until_marker s).
Qed.

Lemma join_nl_head c l ls :
  ∃ r, join_nl (String c l :: ls) = String c r.
Proof. destruct ls; simpl; by eexists. Qed.

Lemma lazy_join lines rest :
  lines ≠ [] → Forall line_ok lines →
  Re.lazy_until_marker (join_nl lines +:+ String nl ("---" +:+ rest))
  = Some (join_nl lines).
Proof.
  intros Hne Hall. induction Hall as [|l lines [Hl _] Hall IH]; [done|].
  destruct lines as [|l2 lines].
  - simpl join_nl. rewrite lazy_skip_line by done.
    rewrite lazy_until_marker_cons.
    change (String nl ("---" +:+ rest)) with (String nl "---" +:+ rest).
    rewrite startswith_app. cbn [fmap option_fmap option_map].
    by rewrite append_nil_r.
  - rewrite join_nl_cons, append_assoc by done.
    rewrite lazy_skip_line by done.
    change (String nl (join_nl (l2 :: lines)) +:+ String nl ("---" +:+ rest))
      with (String nl (join_nl (l2 :: lines) +:+ String nl ("---" +:+ rest))).
    rewrite lazy_until_marker_cons, IH by done.
    apply Forall_cons in Hall as [(_ & c & l2' & -> & Hc) _].
    destruct (join_nl_head c l2' lines) as [r ->].
    cbn [startswith String.append].
    by rewrite ?Ascii.eqb_refl, (Ascii.eqb_sym "-" c), Hc.
Qed.
Lemma length_lstrip s : (String.length (lstrip s) <= String.length s)%nat.
Proof.
  induction s as [|c s IH]; simpl; [done|].
  destruct (is_space c); simpl; lia.
Qed.

Lemma length_rstrip s : (String.length (rstrip s) <= String.length s)%nat.
Proof.
  induction s as [|c s IH]; simpl; [done|].
  destruct (rstrip s); [destruct (is_space c)|]; simpl in *; lia.
Qed.

Lemma strip_fixed_head c s :
  strip (String c s) = String c s → is_space c = false.
Proof.
  intros Hfix. destruct (is_space c) eqn:Hc; [|done]. exfalso.
  unfold strip in Hfix. simpl in Hfix. rewrite Hc in Hfix.
  pose proof (length_rstrip (lstrip s)) as H1.
  pose proof (length_lstrip s) as H2.
  rewrite Hfix in H1. simpl in H1. lia.
Qed.

Lemma bool_reads_back b :
  reads_back (DetectStack._yaml_val (SBool b)) (SBool b)
  ∧ reads_back (DetectStack.py_str (SBool b)) (SBool b).
Proof.
  destruct b; (split; (split_and!; [done | by eexists _, _ | done])).
Qed.

Lemma string_reads_back s : plain_string s = true → reads_back s (SStr s).
Proof.
  unfold plain_string. intros H.
  repeat (apply andb_true_iff in H as [H ?]).
  repeat match goal with
         | H : negb _ = true |- _ => apply negb_true_iff in H
         end.
  match goal with H : String.eqb (strip s) s = true |- _ =>
    apply String.eqb_eq in H; rename H into Hstrip end.
  split_and!; [done| |].
  - destruct s as [|c s']; [done|]. exists c, s'. split; [done|].
    by apply (strip_fixed_head c s').
  - rewrite Hstrip. unfold _coerce, quote_wrapped in *.
    by repeat match goal with H : _ = false |- _ => rewrite H; clear H end.
Qed.

Lemma plain_scalar_reads_back x :
  plain_scalar x = true →
  reads_back (DetectStack._yaml_val x) x ∧ reads_back (DetectStack.py_str x) x.
Proof.
  destruct x as [b|n|s]; intros Hx.
  - apply bool_reads_back.
  - done.
  - split; by apply string_reads_back.
Qed.

Lemma well_formed_values_spec d :
  well_formed_values d = true →
  NoDup (keys d) ∧ Forall value_reads_back d.
Proof.
  unfold well_formed_values, distinct_keys.
  intros [Hdup Hall]%andb_true_iff. apply bool_decide_eq_true in Hdup.
  split; [done|]. apply Forall_forall. intros [k v] Hin.
  rewrite forallb_forall in Hall. apply list_elem_of_In in Hin.
  specialize (Hall _ Hin). simpl in Hall.
  apply andb_true_iff in Hall as [Hk Hv]. split; [done|]. simpl.
  destruct v as [x|items]; simpl in Hv.
  - by apply plain_scalar_reads_back.
  - apply Forall_forall. intros x Hx. rewrite forallb_forall in Hv.
    apply plain_scalar_reads_back, Hv. by apply list_elem_of_In.
Qed.

Lemma keys_scalars d : keys (scalars d) = keys d.
Proof. unfold keys, scalars. rewrite map_map. by apply map_ext. Qed.

Lemma well_formed_scalars_values d :
  well_formed_scalars d = true → well_formed_values (scalars d) = true.
Proof.
  unfold well_formed_scalars, well_formed_values, distinct_keys.
  rewrite keys_scalars. intros [-> Hall]%andb_true_iff. simpl.
  unfold scalars. rewrite forallb_forall in *.
  intros [k v] [[k' x] [[= <- <-] Hin]]%in_map_iff.
  by apply (Hall (k', x)).
Qed.

(** *** The rendered document *)

Lemma headed_app a b : headed a → headed b → headed (a ++ b).
Proof. by destruct a. Qed.

Lemma block_headed {V} key (body : dict V → list string) d :
  word_key key = true → headed (DetectStack.block (key +:+ ":") body d).
Proof.
  intros Hk. destruct d; [done|]. simpl.
  destruct (word_key_head key Hk) as (c & k' & -> & Hc & _). by eexists _, _.
Qed.

Lemma line_ok_indented s : no_nl s = true → line_ok (String " " s).
Proof. intros Hs. split; [done | by eexists _, _]. Qed.

Lemma reads_back_no_nl v x : reads_back v x → no_nl v = true.
Proof. by intros [? _]. Qed.

Lemma entry_lines_ok kv :
  value_reads_back kv → Forall line_ok (DetectStack.structure_lines kv).
Proof.
  destruct kv as [k v]. intros [Hk Hv]. simpl in Hk, Hv.
  destruct (word_key_head k Hk) as (c & k' & Ek & Hc & Hk').
  assert (Hnl : no_nl k = true).
  { apply no_nl_word. rewrite Ek. simpl. by rewrite Hc. }
  unfold DetectStack.structure_lines. destruct v as [x|items]; simpl.
  - apply Forall_cons. split; [|done]. apply line_ok_indented.
    change (no_nl (" " +:+ k +:+ ": " +:+ DetectStack._yaml_val x) = true).
    rewrite !no_nl_app, Hnl, (reads_back_no_nl _ _ Hv). done.
  - apply Forall_cons. split.
    + apply line_ok_indented.
      change (no_nl (" " +:+ k +:+ ":") = true).
      by rewrite !no_nl_app, Hnl.
    + apply Forall_forall. intros line [x [-> Hx]]%list_elem_of_fmap.
      apply line_ok_indented.
      change (no_nl ("   - " +:+ DetectStack.py_str x) = true).
      rewrite no_nl_app. rewrite Forall_forall in Hv.
      by rewrite (reads_back_no_nl _ _ (Hv x Hx)).
Qed.

Lemma block_lines_ok key entries :
  word_key key = true →
  Forall value_reads_back entries →
  Forall line_ok
    (DetectStack.block (key +:+ ":") (flat_map DetectStack.structure_lines)
       entries).
Proof.
  intros Hk Hall. destruct entries as [|entry entries]; [done|].
  unfold DetectStack.block. apply Forall_cons. split.
  - destruct (word_key_head key Hk) as (c & k' & -> & Hc & Hk'). split.
    + rewrite no_nl_app, no_nl_word; [done|]. simpl. by rewrite Hc.
    + exists c, (k' +:+ ":"). split; [done | by apply word_not_dash].
  - apply Forall_flat_map. eapply Forall_impl; [done|]. apply entry_lines_ok.
Qed.

Lemma block_nil {V} header (body : dict V → list string) d :
  DetectStack.block header body d = [] → d = [].
Proof. by destruct d. Qed.

Lemma block_scalars header d :
  DetectStack.block header (map DetectStack.scalar_line) d
  = DetectStack.block header (flat_map DetectStack.structure_lines) (scalars d).
Proof.
  destruct d as [|kv d]; [done|]. unfold DetectStack.block, scalars.
  f_equal. induction (kv :: d) as [|[k x] l IH]; simpl; [done | by rewrite IH].
Qed.

Lemma keys_block_of key d x : x ∈ keys (block_of key d) → x = key.
Proof.
  destruct d; simpl; [by intros ?%elem_of_nil|].
  by intros ?%list_elem_of_singleton.
Qed.

(** The front matter of a document is the text of its body lines. *)
Lemma frontmatter_of_body body tail :
  body ≠ [] → headed body → Forall line_ok body →
  frontmatter_match (join_nl ("---" :: body ++ "---" :: tail))
  = Some (join_nl body).
Proof.
  intros Hne Hhead Hall.
  rewrite join_nl_cons by by destruct body.
  rewrite join_nl_app by done.
  destruct (join_nl_head "-" "--" tail) as [r Hr].
  change (String "-" r) with ("-" +:+ r) in Hr.
  assert (Htail : ∃ r', join_nl ("---" :: tail) = "---" +:+ r').
  { destruct tail; simpl; by eexists. }
  destruct Htail as [r' ->].
  pose proof (lazy_join body r' Hne Hall) as Hlazy.
  destruct body as [|l body]; [done|].
  destruct Hhead as (c & l' & -> & Hc).
  destruct (join_nl_head c l' body) as [j Hj]. rewrite Hj in *.
  unfold frontmatter_match.
  change ("---" +:+ String nl (String c j +:+ String nl ("---" +:+ r')))
    with (String "-" (String "-" (String "-"
            (String nl (String c (j +:+ String nl ("---" +:+ r'))))))).
  cbn [Re.lit]. rewrite !Ascii.eqb_refl.
  cbn [Re.ws_star]. replace (is_space nl) with true by done.
  rewrite (word_not_space c Hc). cbn [Re.lit].
  rewrite (word_not_nl c Hc), Ascii.eqb_refl.
  exact Hlazy.
Qed.

Lemma roundtrip_values b1 b2 b3 b4 :
  well_formed_values b1 = true → well_formed_values b2 = true →
  well_formed_values b3 = true → well_formed_values b4 = true →
  parse_frontmatter
    (join_nl
       (["---"]
        ++ DetectStack.block "stack:" (flat_map DetectStack.structure_lines) b1
        ++ DetectStack.block "structure:" (flat_map DetectStack.structure_lines) b2
        ++ DetectStack.block "verification:" (flat_map DetectStack.structure_lines) b3
        ++ DetectStack.block "disciplines:" (flat_map DetectStack.structure_lines) b4
        ++ trailer))
  = Ok (block_of "stack" b1 ++ block_of "structure" b2
        ++ block_of "verification" b3 ++ block_of "disciplines" b4).
Proof.
  intros [Hd1 Hr1]%well_formed_values_spec [Hd2 Hr2]%well_formed_values_spec
         [Hd3 Hr3]%well_formed_values_spec [Hd4 Hr4]%well_formed_values_spec.
  set (F := flat_map DetectStack.structure_lines).
  set (B1 := DetectStack.block "stack:" F b1).
  set (B2 := DetectStack.block "structure:" F b2).
  set (B3 := DetectStack.block "verification:" F b3).
  set (B4 := DetectStack.block "disciplines:" F b4).
  set (body := B1 ++ B2 ++ B3 ++ B4).
  replace (["---"] ++ B1 ++ B2 ++ B3 ++ B4 ++ trailer)
    with ("---" :: body ++ trailer)
    by (unfold body; by rewrite <- !app_assoc).
  assert (Hhead : headed body).
  { repeat apply headed_app;
      [exact (block_headed "stack" F b1 eq_refl)
      |exact (block_headed "structure" F b2 eq_refl)
      |exact (block_headed "verification" F b3 eq_refl)
      |exact (block_headed "disciplines" F b4 eq_refl)]. }
  assert (Hok : Forall line_ok body).
  { repeat apply Forall_app_2;
      [exact (block_lines_ok "stack" b1 eq_refl Hr1)
      |exact (block_lines_ok "structure" b2 eq_refl Hr2)
      |exact (block_lines_ok "verification" b3 eq_refl Hr3)
      |exact (block_lines_ok "disciplines" b4 eq_refl Hr4)]. }
  destruct (decide (body = [])) as [Hbody|Hne].
  - unfold body in Hbody. apply app_eq_nil in Hbody as [H1 Hbody].
    apply app_eq_nil in Hbody as [H2 Hbody].
    apply app_eq_nil in Hbody as [H3 H4].
    apply block_nil in H1, H2, H3, H4. clear Hhead Hok.
    subst B1 B2 B3 B4 F. subst b1 b2 b3 b4. vm_compute. reflexivity.
  - unfold parse_frontmatter, trailer.
    rewrite frontmatter_of_body by done.
    rewrite split_join;
      [| done | by eapply Forall_impl; [exact Hok | intros ? []]].
    destruct (parse_block (PState [] None None) "stack" b1 (B2 ++ B3 ++ B4))
      as (st1 & Hst1 & Hres1); [done | by intros ?%elem_of_nil | done..|].
    destruct (parse_block st1 "structure" b2 (B3 ++ B4))
      as (st2 & Hst2 & Hres2); [done | | done..|].
    { rewrite Hres1. by intros ?%keys_block_of. }
    destruct (parse_block st2 "verification" b3 B4)
      as (st3 & Hst3 & Hres3); [done | | done..|].
    { rewrite Hres2, Hres1, keys_app.
      by intros [?%keys_block_of|?%keys_block_of]%elem_of_app. }
    destruct (parse_block st3 "disciplines" b4 [])
      as (st4 & Hst4 & Hres4); [done | | done..|].
    { rewrite Hres3, Hres2, Hres1, !keys_app.
      by intros [[?%keys_block_of|?%keys_block_of]%elem_of_app
                 |?%keys_block_of]%elem_of_app. }
    rewrite app_nil_r in Hst4.
    change (parse_lines (PState [] None None) body = parse_lines st1 (B2 ++ B3 ++ B4))
      in Hst1.
    change (parse_lines st1 (B2 ++ B3 ++ B4) = parse_lines st2 (B3 ++ B4)) in Hst2.
    change (parse_lines st2 (B3 ++ B4) = parse_lines st3 B4) in Hst3.
    change (parse_lines st3 B4 = Ok st4) in Hst4.
    rewrite Hst1, Hst2, Hst3, Hst4, bind_Ok.
    by rewrite Hres4, Hres3, Hres2, Hres1, <- !app_assoc.
Qed.

(** C1. When every key is made of word characters and occurs once in its
    dictionary, and every string value or list item is plain (on one line,
    not empty, no white space at its ends, not a boolean literal, not made
    of digits, not wrapped in quotes), parsing the rendered document gives
    back the four structures: each non-empty one as a block under its
    name, in the order of the renderer, with every scalar and every list,
    item by item, as it was. *)
Theorem render_then_parse stack structure disciplines verification :
  well_formed_scalars stack = true →
  well_formed_values structure = true →
  well_formed_scalars disciplines = true →
  well_formed_scalars verification = true →
  parse_frontmatter
    (DetectStack.render_config stack structure disciplines verification)
  = Ok (document stack structure disciplines verification).
Proof.
  intros Hstack Hstructure Hdisciplines Hverification.
  unfold DetectStack.render_config, DetectStack.render_lines, document.
  rewrite !block_scalars.
  apply roundtrip_values; by try apply well_formed_scalars_values.
Qed.

Lemma render_then_parse_witness :
  well_formed_scalars
    [("language", SStr "typescript"); ("monorepo", SBool true)] = true
  ∧ well_formed_values
      [("api_dir", VScalar (SStr "apps/api"));
       ("shared_packages", VList [SStr "packages/i18n"; SStr "packages/ui"])]
    = true
  ∧ parse_frontmatter
      (DetectStack.render_config
         [("language", SStr "typescript"); ("monorepo", SBool true)]
         [("api_dir", VScalar (SStr "apps/api"));
          ("shared_packages", VList [SStr "packages/i18n"; SStr "packages/ui"])]
         [("api_contracts", SBool false); ("plan_enforcement", SBool true)]
         [("lint", SStr "lint")])
    = Ok [("stack", TDict [("language", VScalar (SStr "typescript"));
                           ("monorepo", VScalar (SBool true))]);
          ("structure",
           TDict [("api_dir", VScalar (SStr "apps/api"));
                  ("shared_packages",
                   VList [SStr "packages/i18n"; SStr "packages/ui"])]);
          ("verification", TDict [("lint", VScalar (SStr "lint"))]);
          ("disciplines", TDict [("api_contracts", VScalar (SBool false));
                                 ("plan_enforcement", VScalar (SBool true))])].
Proof.
  split; [reflexivity|]. split; [reflexivity|].
  exact (render_then_parse
    [("language", SStr "typescript"); ("monorepo", SBool true)]
    [("api_dir", VScalar (SStr "apps/api"));
     ("shared_packages", VList [SStr "packages/i18n"; SStr "packages/ui"])]
    [("api_contracts", SBool false); ("plan_enforcement", SBool true)]
    [("lint", SStr "lint")]
    eq_refl eq_refl eq_refl eq_refl).
Defined.

(** C1, as stated: the package name [true] that [build_config] puts under
    [shared_api_package] is rendered as it is and read back as the boolean;
    the parsed document is not the one that was rendered. *)
Lemma boolean_like_name_is_not_read_back :
  DetectStack.build_config api_named_true "proj"
  = ([("language", SStr "javascript"); ("runtime", SStr "node");
      ("monorepo", SBool true)],
     [("shared_api_package", VScalar (SStr "true"));
      ("shared_packages", VList [SStr "packages/api"])],
     [("api_contracts", SBool false); ("plan_enforcement", SBool true)],
     [])
  ∧ parse_frontmatter
      (DetectStack.render_config
         [("language", SStr "javascript"); ("runtime", SStr "node");
          ("monorepo", SBool true)]
         [("shared_api_package", VScalar (SStr "true"));
          ("shared_packages", VList [SStr "packages/api"])]
         [("api_contracts", SBool false); ("plan_enforcement", SBool true)]
         [])
    = Ok [("stack", TDict [("language", VScalar (SStr "javascript"));
                           ("runtime", VScalar (SStr "node"));
                           ("monorepo", VScalar (SBool true))]);
          ("structure",
           TDict [("shared_api_package", VScalar (SBool true));
                  ("shared_packages", VList [SStr "packages/api"])]);
          ("disciplines", TDict [("api_contracts", VScalar (SBool false));
                                 ("plan_enforcement", VScalar (SBool true))])]
  ∧ parse_frontmatter
      (DetectStack.render_config
         [("language", SStr "javascript"); ("runtime", SStr "node");
          ("monorepo", SBool true)]
         [("shared_api_package", VScalar (SStr "true"));
          ("shared_packages", VList [SStr "packages/api"])]
         [("api_contracts", SBool false); ("plan_enforcement", SBool true)]
         [])
    ≠ Ok (document
         [("language", SStr "javascript"); ("runtime", SStr "node");
          ("monorepo", SBool true)]
         [("shared_api_package", VScalar (SStr "true"));
          ("shared_packages", VList [SStr "packages/api"])]
         [("api_contracts", SBool false); ("plan_enforcement", SBool true)]
         []).
Proof.
  split_and!; [vm_compute; reflexivity | vm_compute; reflexivity |].
  vm_compute. discriminate.
Qed.

(** ** The exceptions of the parser *)

Lemma coerce_total val :
  (∃ x, _coerce val = Ok x) ∨ _coerce val = Raise ValueError.
Proof.
  unfold _coerce, int_of.
  repeat (case_match; try (left; by eexists); try (by right)).
Qed.

Lemma block_stays p q d' r :
  (∃ d, dict_get p r = Some (TDict d)) →
  ∃ d, dict_get p (dict_set q (TDict d') r) = Some (TDict d).
Proof.
  intros [d Hd]. rewrite dict_get_set.
  destruct (String.eqb p q); by eexists.
Qed.

(** The part of the loop body after the list items. *)
Lemma key_line_total st line :
  state_ok st →
  let k :=
    match (if startswith "  " line then current_parent st else None) with
    | Some parent =>
        match child_match line with
        | Some (key, v) =>
            let val := strip v in
            if nonempty val then
              x ← _coerce val;
              r ← set_child parent key (VScalar x) (result st);
              Ok (PState r (current_parent st) None)
            else
              r ← set_child parent key (VList []) (result st);
              Ok (PState r (current_parent st) (Some (parent, key)))
        | None => Ok (PState (result st) (current_parent st) None)
        end
    | None =>
        match top_match line with
        | Some (key, v) =>
            let val := strip v in
            if nonempty val then
              x ← _coerce val;
              Ok (PState (dict_set key (TScalar x) (result st)) None None)
            else
              Ok (PState (dict_set key (TDict []) (result st)) (Some key) None)
        | None => Ok (PState (result st) (current_parent st) None)
        end
    end in
  (∃ st', k = Ok st' ∧ state_ok st') ∨ k = Raise ValueError.
Proof.
  intros [Hpar Hcur]. cbv zeta.
  assert (Hkeep : state_ok (PState (result st) (current_parent st) None)).
  { split; [exact Hpar | done]. }
  destruct (if startswith "  " line then current_parent st else None)
    as [parent|] eqn:Hparent.
  - assert (Hp : current_parent st = Some parent).
    { by destruct (startswith "  " line). }
    destruct (Hpar parent Hp) as [d Hd].
    destruct (child_match line) as [[key v]|]; [|left; by eexists].
    destruct (nonempty (strip v)).
    + destruct (coerce_total (strip v)) as [[x ->]| ->]; [|by right].
      rewrite bind_Ok, (set_child_block parent _ _ d), bind_Ok by done.
      left. eexists. split; [done|]. split; simpl; [|done].
      intros p Hp'. by apply block_stays, Hpar.
    + rewrite (set_child_block parent _ _ d), bind_Ok by done.
      left. eexists. split; [done|]. split; simpl.
      * intros p Hp'. by apply block_stays, Hpar.
      * intros p k [= <- <-]. exists (dict_set key (VList []) d), [].
        by rewrite !dict_get_set, !String.eqb_refl.
  - destruct (top_match line) as [[key v]|]; [|left; by eexists].
    destruct (nonempty (strip v)).
    + destruct (coerce_total (strip v)) as [[x ->]| ->]; [|by right].
      rewrite bind_Ok. left. eexists. split; [done|]. by split.
    + left. eexists. split; [done|]. split; simpl; [|done].
      intros p [= <-]. exists []. by rewrite dict_get_set, String.eqb_refl.
Qed.

Lemma parse_line_total st line :
  state_ok st →
  (∃ st', parse_line st line = Ok st' ∧ state_ok st')
  ∨ parse_line st line = Raise ValueError.
Proof.
  intros Hst. pose proof Hst as [Hpar Hcur]. unfold parse_line. cbv zeta.
  destruct (negb (nonempty (strip line)) || startswith "#" (strip line)).
  { left. eexists. split; [done|]. split; simpl; [|done].
    intros p Hp. apply Hpar. by destruct (negb _). }
  destruct (list_match line) as [item|] eqn:Hitem;
    [destruct (current_child_list st) as [[pk ck]|] eqn:Hccl|].
  - destruct (Hcur pk ck eq_refl) as (d & l & Hd & Hl).
    unfold get_list. rewrite Hd, Hl, bind_Ok.
    destruct (coerce_total (strip item)) as [[x ->]| ->]; [|by right].
    rewrite bind_Ok, (set_child_block pk _ _ d), bind_Ok by done.
    left. eexists. split; [done|]. split; simpl.
    + intros p Hp. by apply block_stays, Hpar.
    + intros p k [= <- <-]. exists (dict_set ck (VList (l ++ [x])) d), (l ++ [x]).
      by rewrite !dict_get_set, !String.eqb_refl.
  - exact (key_line_total st line Hst).
  - destruct (current_child_list st) as [[? ?]|] eqn:Hccl;
      exact (key_line_total st line Hst).
Qed.

Lemma parse_lines_total lines : ∀ st,
  state_ok st →
  (∃ st', parse_lines st lines = Ok st') ∨ parse_lines st lines = Raise ValueError.
Proof.
  induction lines as [|line lines IH]; intros st Hst; simpl.
  - left. by eexists.
  - destruct (parse_line_total st line Hst) as [(st' & -> & Hst')| ->];
      [|by right].
    rewrite bind_Ok. by apply IH.
Qed.

(** X10. The parser returns a mapping or raises [ValueError], and nothing
    else: no [KeyError], [TypeError] or [AttributeError] comes from the
    look-ups of its line loop (this is the part of C2 that holds). *)
Lemma parse_frontmatter_total text :
  (∃ r, parse_frontmatter text = Ok r)
  ∨ parse_frontmatter text = Raise ValueError.
Proof.
  unfold parse_frontmatter.
  destruct (frontmatter_match text) as [body|]; [|left; by eexists].
  destruct (parse_lines_total (split_nl body) (PState [] None None))
    as [[st ->]| ->]; [by split | left; by eexists | by right].
Qed.

(** ** Blank lines and comment lines *)

(** An indented key line with no open block is dropped. *)
Lemma parse_orphan_line st k v :
  current_parent st = None →
  word_key k = true →
  parse_line st ("  " +:+ k +:+ String ":" v)
  = Ok (PState (result st) None None).
Proof.
  intros Hparent Hk.
  destruct (word_key_head k Hk) as (c & k' & -> & Hc & Hk').
  pose proof (word_not_space c Hc) as Hsp.
  set (line := "  " +:+ String c k' +:+ String ":" v).
  destruct (strip_head c (k' +:+ String ":" v) Hsp) as [r Hstrip].
  change (strip line = String c r) in Hstrip.
  assert (Hlist : list_match line = None)
    by apply (list_match_indent2 c _ Hsp (word_not_dash c Hc)).
  assert (Hstart : startswith "  " line = true) by done.
  assert (Htop : top_match line = None) by done.
  unfold parse_line. cbv zeta.
  rewrite Hstrip, Hlist, Hstart, Hparent, Htop.
  simpl nonempty. by rewrite (word_not_comment c r Hc).
Qed.

(** C7. A blank line resets the current parent and the current list and
    leaves the result as it is, so that an indented child line after it is
    dropped; a comment line resets the current list alone and keeps the
    current parent, so that an indented child line after it is attached to
    the block that was open before the comment. *)
Theorem blank_and_comment_lines st line rest :
  (strip line = EmptyString →
     parse_line st line = Ok (PState (result st) None None)
     ∧ parse_lines st (line :: rest)
       = parse_lines (PState (result st) None None) rest
     ∧ (∀ k v, word_key k = true →
          parse_lines st [line; "  " +:+ k +:+ ": " +:+ v]
          = Ok (PState (result st) None None)))
  ∧ (startswith "#" (strip line) = true →
     parse_line st line = Ok (PState (result st) (current_parent st) None)
     ∧ parse_lines st (line :: rest)
       = parse_lines (PState (result st) (current_parent st) None) rest
     ∧ (∀ p d k v x,
          current_parent st = Some p →
          dict_get p (result st) = Some (TDict d) →
          word_key k = true → reads_back v x →
          parse_lines st [line; "  " +:+ k +:+ ": " +:+ v]
          = Ok (PState (dict_set p (TDict (dict_set k (VScalar x) d)) (result st))
                       (Some p) None))).
Proof.
  split.
  - intros Hblank.
    assert (Hline : parse_line st line = Ok (PState (result st) None None)).
    { unfold parse_line. by rewrite Hblank. }
    split_and!; [done | by apply parse_lines_cons |].
    intros k v Hk. rewrite (parse_lines_cons _ _ _ _ Hline).
    by rewrite (parse_lines_cons _ _ _ _
                  (parse_orphan_line (PState (result st) None None) k
                     (" " +:+ v) eq_refl Hk)).
  - intros Hcomment.
    assert (Hline : parse_line st line
                    = Ok (PState (result st) (current_parent st) None)).
    { unfold parse_line. rewrite Hcomment, orb_true_r.
      by destruct (strip line). }
    split_and!; [done | by apply parse_lines_cons |].
    intros p d k v x Hp Hd Hk Hv. rewrite (parse_lines_cons _ _ _ _ Hline).
    by rewrite (parse_lines_cons _ _ _ _
                  (parse_scalar_line
                     (PState (result st) (current_parent st) None)
                     p d k v x Hp Hd Hk Hv)).
Qed.

Lemma blank_and_comment_lines_witness :
  startswith "#" (strip "  # detected") = true
  ∧ parse_lines (PState [("stack", TDict [])] (Some "stack") None)
      ["  # detected"; "  language: go"]
    = Ok (PState [("stack", TDict [("language", VScalar (SStr "go"))])]
                 (Some "stack") None).
Proof.
  split; [reflexivity|].
  refine (proj2 (proj2 (proj2 (blank_and_comment_lines
    (PState [("stack", TDict [])] (Some "stack") None) "  # detected" [])
    eq_refl)) "stack" [] "language" "go" (SStr "go") eq_refl eq_refl eq_refl _).
  split_and!; [reflexivity | by eexists _, _ | reflexivity].
Defined.

(** ** The stack that [build_config] returns *)

Lemma dict_mem_set {V} k k' (v : V) d :
  dict_mem k (dict_set k' v d) = String.eqb k k' || dict_mem k d.
Proof. unfold dict_mem. rewrite dict_get_set. by destruct (String.eqb k k'). Qed.

Lemma dict_mem_update {V} k (d e : dict V) :
  dict_mem k (dict_update d e) = dict_mem k d || dict_mem k e.
Proof.
  unfold dict_update. revert d.
  induction e as [|[k0 v0] e IH]; intros d; simpl.
  - by rewrite orb_false_r.
  - rewrite IH, dict_mem_set. unfold dict_mem at 4. simpl.
    destruct (String.eqb k k0); simpl; [by rewrite !orb_true_r|].
    by destruct (dict_mem k d).
Qed.

Lemma dict_mem_map {V W} (f : V → W) k (d : dict V) :
  dict_mem k (map (λ kv, (kv.1, f kv.2)) d) = dict_mem k d.
Proof.
  unfold dict_mem. induction d as [|[k0 v0] d IH]; simpl; [done|].
  by destruct (String.eqb k k0).
Qed.

Lemma no_monorepo_from_deps deps rs pm :
  dict_get "monorepo" (DetectStack.detect_from_deps deps rs pm) = None.
Proof. by_category. Qed.

Lemma no_package_manager_from_deps deps rs pm :
  dict_get "package_manager" (DetectStack.detect_from_deps deps rs pm) = None.
Proof. by_category. Qed.

Lemma existsb_file_exists fs paths :
  existsb (DetectStack.file_exists fs) paths = true
  ↔ ∃ path, path ∈ paths ∧ isfile fs path = true.
Proof.
  rewrite existsb_exists. unfold DetectStack.file_exists.
  split; intros (p & Hin & Hp); exists p; by rewrite ?list_elem_of_In in *.
Qed.

(** X1. The stack always has the field [monorepo], a boolean, which the
    fields read off the dependencies never replace; it is true exactly when
    one of the four marker files exists at the root or the root manifest
    declares [workspaces]. *)
Theorem monorepo_field fs root :
  ∃ b, dict_get "monorepo" (DetectStack.build_config fs root).1.1.1
       = Some (SBool b)
    ∧ (b = true ↔
       (∃ marker,
          marker ∈ ["/pnpm-workspace.yaml"; "/turbo.json"; "/lerna.json";
                    "/nx.json"]
          ∧ isfile fs (root +:+ marker) = true)
       ∨ (∃ pkg, read_json fs (root +:+ "/package.json") = Some pkg
                 ∧ pkg_workspaces pkg = true)).
Proof.
  exists (DetectStack.detect_monorepo fs root). split.
  - unfold DetectStack.build_config. cbn [fst snd].
    rewrite dict_get_update
      by (apply dict_get_map_None, no_monorepo_from_deps).
    by rewrite dict_get_set.
  - unfold DetectStack.detect_monorepo.
    destruct (existsb _ _) eqn:Hmarkers.
    + split; [intros _|done]. left.
      apply existsb_file_exists in Hmarkers as (path & Hin & Hfile).
      repeat (apply elem_of_cons in Hin as [->|Hin]);
        [eexists; split; [|exact Hfile]; set_solver..|].
      by apply elem_of_nil in Hin.
    + split.
      * destruct (read_json fs _) as [pkg|]; [|done].
        intros [_ Hw]%andb_true_iff. right. by exists pkg.
      * intros [(marker & Hin & Hfile)|(pkg & -> & Hw)].
        -- exfalso. apply not_true_iff_false in Hmarkers. apply Hmarkers.
           apply existsb_file_exists. exists (root +:+ marker).
           split; [|done].
           repeat (apply elem_of_cons in Hin as [->|Hin]); [set_solver..|].
           by apply elem_of_nil in Hin.
        -- rewrite Hw, andb_true_r. unfold pkg_truthy. rewrite Hw.
           by rewrite !orb_true_r.
Qed.

Lemma first_match_empty t : first_match t ∅ = None.
Proof. induction t as [|[dep name] t IH]; [done | apply IH]. Qed.

Lemma first_match_value t deps v :
  first_match t deps = Some v → v ∈ map snd t.
Proof.
  intros (i & dep & Hi & _)%first_match_Some.
  apply list_elem_of_fmap. exists (dep, v). split; [done|].
  by eapply list_elem_of_lookup_2.
Qed.

Ltac key_not_in :=
  let H := fresh in
  intros H; repeat (apply elem_of_cons in H as [?|H]; [discriminate|]);
  by apply elem_of_nil in H.

Lemma backend_values_nonempty deps name :
  first_match DetectStack.backend_map deps = Some name → nonempty name = true.
Proof.
  intros Hin%first_match_value. unfold DetectStack.backend_map in Hin.
  simpl in Hin. repeat (apply elem_of_cons in Hin as [->|Hin]); [done..|].
  by apply elem_of_nil in Hin.
Qed.

(** The fields that [build_config] sets before those of the
    dependencies. *)
Lemma base_stack_keys key language runtime package_manager is_monorepo :
  key ∉ ["language"; "runtime"; "package_manager"; "monorepo"] →
  dict_get key
    (dict_set "monorepo" (SBool is_monorepo)
       (DetectStack.set_if_nonempty "package_manager" package_manager
          (DetectStack.set_if_nonempty "runtime" runtime
             (DetectStack.set_if_nonempty "language" language []))))
  = None.
Proof.
  intros Hkey. unfold DetectStack.set_if_nonempty.
  assert (String.eqb key "language" = false) by (apply String.eqb_neq; set_solver).
  assert (String.eqb key "runtime" = false) by (apply String.eqb_neq; set_solver).
  assert (String.eqb key "package_manager" = false)
    by (apply String.eqb_neq; set_solver).
  assert (String.eqb key "monorepo" = false) by (apply String.eqb_neq; set_solver).
  repeat (case_match; rewrite ?dict_get_set); simpl;
    repeat match goal with H : String.eqb key _ = false |- _ => rewrite H end;
    done.
Qed.

(** X2. The discipline [api_contracts] is true exactly when the stack has
    a [backend] field, and [plan_enforcement] is always true. *)
Theorem disciplines_follow_backend fs root :
  (DetectStack.build_config fs root).1.2
  = [("api_contracts",
      SBool (dict_mem "backend" (DetectStack.build_config fs root).1.1.1));
     ("plan_enforcement", SBool true)].
Proof.
  unfold DetectStack.build_config. cbn [fst snd].
  set (from_deps := DetectStack.detect_from_deps _ _ _).
  do 3 f_equal. rewrite dict_mem_update, dict_mem_map.
  unfold dict_mem at 1. rewrite base_stack_keys by key_not_in. cbn [orb].
  unfold DetectStack.should_enable_api_contracts, dict_mem, from_deps.
  rewrite lookup_backend.
  destruct (first_match _ _) as [name|] eqn:Hname; [|done].
  by apply backend_values_nonempty in Hname.
Qed.

(** X3. The frameworks are looked for in typescript and javascript
    projects alone: for any other language, or none, the stack has none of
    the fields [frontend], [backend], [validation], [styling] and [orm],
    whatever the manifests hold, and [api_contracts] is false. *)
Theorem frameworks_need_javascript fs root :
  DetectStack.detect_language fs root ≠ "typescript" →
  DetectStack.detect_language fs root ≠ "javascript" →
  (∀ key, key ∈ ["frontend"; "backend"; "validation"; "styling"; "orm"] →
     dict_get key (DetectStack.build_config fs root).1.1.1 = None)
  ∧ (DetectStack.build_config fs root).1.2
    = [("api_contracts", SBool false); ("plan_enforcement", SBool true)].
Proof.
  intros Hts Hjs.
  assert (Hkeys : ∀ key,
    key ∈ ["frontend"; "backend"; "validation"; "styling"; "orm"] →
    dict_get key (DetectStack.build_config fs root).1.1.1 = None).
  { intros key Hkey. unfold DetectStack.build_config. cbn [fst snd].
    apply String.eqb_neq in Hts, Hjs. rewrite Hts, Hjs. cbn [orb].
    rewrite dict_get_update.
    - repeat (apply elem_of_cons in Hkey as [->|Hkey]);
        [apply base_stack_keys; key_not_in..|].
      by apply elem_of_nil in Hkey.
    - apply dict_get_map_None.
      repeat (apply elem_of_cons in Hkey as [->|Hkey]);
        rewrite ?lookup_frontend, ?lookup_backend, ?lookup_validation,
          ?lookup_styling, ?lookup_orm, ?first_match_empty; try done.
      by apply elem_of_nil in Hkey. }
  split; [done|].
  unfold DetectStack.build_config. cbn [fst snd].
  apply String.eqb_neq in Hts, Hjs. rewrite Hts, Hjs. cbn [orb].
  unfold DetectStack.should_enable_api_contracts.
  by rewrite lookup_backend, first_match_empty.
Qed.

Lemma frameworks_need_javascript_witness :
  DetectStack.detect_language rust_workspace "proj" ≠ "typescript"
  ∧ DetectStack.detect_language rust_workspace "proj" ≠ "javascript"
  ∧ dict_get "frontend" (DetectStack.build_config rust_workspace "proj").1.1.1
    = None
  ∧ dict_get "backend" (DetectStack.build_config rust_workspace "proj").1.1.1
    = None.
Proof.
  assert (Hts : DetectStack.detect_language rust_workspace "proj" ≠ "typescript")
    by (vm_compute; discriminate).
  assert (Hjs : DetectStack.detect_language rust_workspace "proj" ≠ "javascript")
    by (vm_compute; discriminate).
  split_and!; [exact Hts | exact Hjs | |].
  - apply (proj1 (frameworks_need_javascript rust_workspace "proj" Hts Hjs)).
    by left.
  - apply (proj1 (frameworks_need_javascript rust_workspace "proj" Hts Hjs)).
    right. by left.
Defined.

(** ** The commands that are reported *)




(** ** The two copies *)

(** X5. The two copies of the classifier agree: on the dependencies when
    the package manager is not [bun] (the newer copy then has no rule of
    its own), and on the language when no entry of a workspace parent
    holds a [tsconfig.json]. *)
Theorem copies_agree fs root deps root_scripts package_manager :
  (package_manager ≠ "bun" →
     DetectStack.detect_from_deps deps root_scripts package_manager
     = SoftwareDiscipline.detect_from_deps deps)
  ∧ DetectStack.detect_from_deps deps None EmptyString
    = SoftwareDiscipline.detect_from_deps deps
  ∧ ((∀ parent entry, ¬ nested_marker fs root parent entry) →
     DetectStack.detect_language fs root
     = SoftwareDiscipline.detect_language fs root).
Proof.
  assert (Hdeps : ∀ rs pm, pm ≠ "bun" →
    DetectStack.detect_from_deps deps rs pm
    = SoftwareDiscipline.detect_from_deps deps).
  { intros rs pm Hpm%String.eqb_neq.
    unfold DetectStack.detect_from_deps, SoftwareDiscipline.detect_from_deps.
    by rewrite Hpm, andb_false_r. }
  split_and!; [by apply Hdeps | by apply Hdeps |].
  intros Hnested.
  unfold DetectStack.detect_language, SoftwareDiscipline.detect_language.
  by rewrite (nested_tsconfig_false _ _ Hnested).
Qed.

Lemma copies_agree_witness :
  "pnpm" ≠ "bun"
  ∧ DetectStack.detect_from_deps {["vue"; "zod"]} None "pnpm"
    = SoftwareDiscipline.detect_from_deps {["vue"; "zod"]}.
Proof.
  split; [discriminate|].
  exact (proj1 (copies_agree only_manifest "proj" {["vue"; "zod"]} None "pnpm")
           ltac:(discriminate)).
Defined.

(** ** The dependencies that are collected *)

Lemma elem_of_dependency_fields fields : ∀ (acc : gset string) name,
  name ∈ fold_left (λ acc field,
            match field with
            | Some deps => acc ∪ list_to_set (keys deps)
            | None => acc
            end) fields acc
  ↔ name ∈ acc ∨ ∃ deps : dict string, Some deps ∈ fields ∧ name ∈ keys deps.
Proof.
  induction fields as [|field fields IH]; intros acc name; cbn [fold_left].
  - split; [by left|]. intros [?|(deps & Hin & _)]; [done|].
    by apply elem_of_nil in Hin.
  - rewrite IH. split.
    + intros [Hacc|(deps & Hin & Hname)].
      * destruct field as [deps|]; [|by left].
        apply elem_of_union in Hacc as [?|Hname%elem_of_list_to_set];
          [by left|].
        right. exists deps. split; [by left | done].
      * right. exists deps. split; [by right | done].
    + intros [Hacc|(deps & Hin & Hname)].
      * left. destruct field; [apply elem_of_union; by left | done].
      * apply elem_of_cons in Hin as [<-|Hin].
        -- left. apply elem_of_union. right. by apply elem_of_list_to_set.
        -- right. by exists deps.
Qed.

Lemma elem_of_add_deps_from manifest acc name :
  name ∈ DetectStack.add_deps_from manifest acc
  ↔ name ∈ acc ∨ declares manifest name.
Proof.
  unfold DetectStack.add_deps_from, declares.
  destruct manifest as [p|].
  - destruct (pkg_truthy p) eqn:Htruthy; cbn [negb].
    + rewrite elem_of_dependency_fields. split.
      * intros [?|(deps & Hin & Hname)]; [by left|]. right. by exists p, deps.
      * intros [?|(pkg & deps & [= <-] & Hin & Hname)]; [by left|].
        right. by exists deps.
    + split; [by left|].
      intros [?|(pkg & deps & [= <-] & Hin & _)]; [done|].
      exfalso. unfold pkg_truthy in Htruthy.
      repeat (apply elem_of_cons in Hin as [Hin|Hin]);
        try (rewrite <- Hin in Htruthy; simpl in Htruthy;
             by rewrite ?orb_true_r in Htruthy).
      by apply elem_of_nil in Hin.
  - split; [by left|]. by intros [?|(pkg & deps & ? & _)].
Qed.

Lemma elem_of_entries_deps fs parent entries : ∀ (acc : gset string) name,
  name ∈ fold_left (λ acc' entry,
            DetectStack.add_deps_from
              (read_json fs (parent +:+ "/" +:+ entry +:+ "/package.json"))
              acc') entries acc
  ↔ name ∈ acc
    ∨ ∃ entry, entry ∈ entries
        ∧ declares
            (read_json fs (parent +:+ "/" +:+ entry +:+ "/package.json")) name.
Proof.
  induction entries as [|entry entries IH]; intros acc name; cbn [fold_left].
  - split; [by left|]. intros [?|(e & Hin & _)]; [done|].
    by apply elem_of_nil in Hin.
  - rewrite IH, elem_of_add_deps_from. split.
    + intros [[?|?]|(e & Hin & Hd)]; [by left | |].
      * right. exists entry. split; [by left | done].
      * right. exists e. split; [by right | done].
    + intros [?|(e & Hin & Hd)]; [by left; left|].
      apply elem_of_cons in Hin as [->|Hin]; [by left; right|].
      right. by exists e.
Qed.

Lemma elem_of_parents_deps fs root parents : ∀ (acc : gset string) name,
  name ∈ fold_left (λ acc workspace_parent,
            let parent := root +:+ "/" +:+ workspace_parent in
            if negb (DetectStack.dir_exists fs parent) then acc
            else match listdir fs parent with
                 | Some entries =>
                     fold_left (λ acc' entry,
                       DetectStack.add_deps_from
                         (read_json fs
                            (parent +:+ "/" +:+ entry +:+ "/package.json"))
                         acc') entries acc
                 | None => acc
                 end) parents acc
  ↔ name ∈ acc
    ∨ ∃ parent entry entries,
        parent ∈ parents
        ∧ isdir fs (root +:+ "/" +:+ parent) = true
        ∧ listdir fs (root +:+ "/" +:+ parent) = Some entries
        ∧ entry ∈ entries
        ∧ declares
            (read_json fs
               ((root +:+ "/" +:+ parent) +:+ "/" +:+ entry +:+ "/package.json"))
            name.
Proof.
  induction parents as [|parent parents IH]; intros acc name; cbn [fold_left].
  - split; [by left|]. intros [?|(p & e & es & Hin & _)]; [done|].
    by apply elem_of_nil in Hin.
  - rewrite IH. cbv zeta. unfold DetectStack.dir_exists.
    destruct (isdir fs (root +:+ "/" +:+ parent)) eqn:same_isdir; cbn [negb].
    + destruct (listdir fs (root +:+ "/" +:+ parent)) as [entries|] eqn:Hlist.
      * rewrite elem_of_entries_deps. split.
        -- intros [[?|(e & Hin & Hd)]|(p & e & es & Hin & ?)]; [by left | |].
           ++ right. exists parent, e, entries. split; [by left | done].
           ++ right. exists p, e, es. split; [by right | done].
        -- intros [?|(p & e & es & Hin & Hd & Hl & He & Hdecl)];
             [by left; left|].
           apply elem_of_cons in Hin as [->|Hin].
           ++ left. right. exists e. rewrite Hlist in Hl.
              injection Hl as <-. done.
           ++ right. by exists p, e, es.
      * split.
        -- intros [?|(p & e & es & Hin & ?)]; [by left|].
           right. exists p, e, es. split; [by right | done].
        -- intros [?|(p & e & es & Hin & Hd & Hl & ?)]; [by left|].
           apply elem_of_cons in Hin as [->|Hin]; [congruence|].
           right. by exists p, e, es.
    + split.
      * intros [?|(p & e & es & Hin & ?)]; [by left|].
        right. exists p, e, es. split; [by right | done].
      * intros [?|(p & e & es & Hin & Hd & ?)]; [by left|].
        apply elem_of_cons in Hin as [->|Hin]; [congruence|].
        right. by exists p, e, es.
Qed.

(** X6. A name is among the collected dependencies exactly when the root
    manifest names it in one of its three dependency fields, or the
    manifest of an entry listed in an existing workspace parent does.
    Manifests that cannot be read, and parents that cannot be listed, add
    nothing. *)
Theorem collected_dependencies fs root name :
  name ∈ DetectStack.collect_all_deps fs root
  ↔ declares (read_json fs (root +:+ "/package.json")) name
    ∨ ∃ parent entry,
        workspace_member fs root parent entry
        ∧ declares
            (read_json fs
               ((root +:+ "/" +:+ parent) +:+ "/" +:+ entry +:+ "/package.json"))
            name.
Proof.
  unfold DetectStack.collect_all_deps, workspace_member. cbv zeta.
  rewrite elem_of_parents_deps, elem_of_add_deps_from. split.
  - intros [[Hempty|?]|(p & e & es & Hin & Hd & Hl & He & Hdecl)].
    + by apply not_elem_of_empty in Hempty.
    + by left.
    + right. exists p, e. split; [|done]. split_and!; [done..|]. by exists es.
  - intros [?|(p & e & (Hin & Hd & es & Hl & He) & Hdecl)]; [by left; right|].
    right. by exists p, e, es.
Qed.

(** ** Sorting the entries *)

Lemma ascii_compare_lt_trans a b c :
  Ascii.compare a b = Lt → Ascii.compare b c = Lt → Ascii.compare a c = Lt.
Proof.
  unfold Ascii.compare. rewrite !N.compare_lt_iff. lia.
Qed.

Lemma string_compare_trans a : ∀ b c,
  String.compare a b ≠ Gt → String.compare b c ≠ Gt → String.compare a c ≠ Gt.
Proof.
  induction a as [|x a IH]; intros [|y b] [|z c]; simpl; try done.
  destruct (Ascii.compare x y) eqn:Hxy; [| |done].
  - apply Ascii.compare_eq_iff in Hxy as ->.
    destruct (Ascii.compare y z); [apply IH | done..].
  - intros _. destruct (Ascii.compare y z) eqn:Hyz; [| |done]; intros _.
    + apply Ascii.compare_eq_iff in Hyz as <-. by rewrite Hxy.
    + by rewrite (ascii_compare_lt_trans x y z).
Qed.

Lemma leb_compare a b : String.leb a b = true ↔ String.compare a b ≠ Gt.
Proof. unfold String.leb. by destruct (String.compare a b). Qed.

#[local] Instance string_le_trans : Transitive string_le.
Proof.
  intros a b c. unfold string_le. rewrite !leb_compare.
  apply string_compare_trans.
Qed.

#[local] Instance string_le_antisym : AntiSymm (=) string_le.
Proof. intros a b Hab Hba. by apply String.leb_antisym. Qed.

Lemma insert_sorted_perm x l : insert_sorted x l ≡ₚ x :: l.
Proof.
  induction l as [|y l IH]; simpl; [done|].
  destruct (String.leb x y); [done|]. by rewrite IH, Permutation_swap.
Qed.

Lemma sorted_perm l : sorted l ≡ₚ l.
Proof.
  induction l as [|x l IH]; simpl; [done|].
  by rewrite insert_sorted_perm, IH.
Qed.

Lemma insert_sorted_sorted x l :
  StronglySorted string_le l → StronglySorted string_le (insert_sorted x l).
Proof.
  induction 1 as [|y l Hl IH Hy]; simpl.
  - by repeat constructor.
  - destruct (String.leb x y) eqn:Hxy.
    + constructor; [by constructor|]. constructor; [done|].
      eapply Forall_impl; [exact Hy|]. intros z Hz.
      by trans y.
    + constructor; [done|].
      rewrite insert_sorted_perm. constructor; [|done].
      destruct (String.leb_total x y) as [?|?]; [congruence | done].
Qed.

Lemma sorted_sorted l : StronglySorted string_le (sorted l).
Proof.
  induction l as [|x l IH]; simpl; [constructor|].
  by apply insert_sorted_sorted.
Qed.

(** [sorted] gives the same list whatever the order of its argument. *)
Lemma sorted_order_free l1 l2 : l1 ≡ₚ l2 → sorted l1 = sorted l2.
Proof.
  intros Hperm. apply (StronglySorted_unique string_le);
    [apply sorted_sorted.. |].
  by rewrite !sorted_perm.
Qed.

(** ** The order of the listings *)

Lemma existsb_perm {A} (f g : A → bool) l1 l2 :
  (∀ x, f x = g x) → l1 ≡ₚ l2 → existsb f l1 = existsb g l2.
Proof.
  intros Hfg Hperm. apply eq_true_iff_eq. rewrite !existsb_exists.
  split; intros (x & Hin%list_elem_of_In & Hx); exists x.
  - split; [apply list_elem_of_In; by rewrite <- Hperm | by rewrite <- Hfg].
  - split; [apply list_elem_of_In; by rewrite Hperm | by rewrite Hfg].
Qed.

Section ListingOrder.
Variables fs1 fs2 : filesystem.
Hypothesis Hsame : same_up_to_listing_order fs1 fs2.

Lemma same_isfile p : isfile fs1 p = isfile fs2 p.
Proof. apply Hsame. Qed.

Lemma same_isdir p : isdir fs1 p = isdir fs2 p.
Proof. apply Hsame. Qed.

Lemma same_read_json p : read_json fs1 p = read_json fs2 p.
Proof. apply Hsame. Qed.

Lemma same_listing p :
  match listdir fs1 p, listdir fs2 p with
  | Some l1, Some l2 => l1 ≡ₚ l2
  | None, None => True
  | _, _ => False
  end.
Proof. apply Hsame. Qed.

Lemma nested_tsconfig_order_free root :
  DetectStack.nested_tsconfig fs1 root = DetectStack.nested_tsconfig fs2 root.
Proof.
  unfold DetectStack.nested_tsconfig, DetectStack.dir_exists,
    DetectStack.file_exists.
  apply existsb_perm; [|done]. intros parent. cbv zeta. rewrite same_isdir.
  f_equal. pose proof (same_listing (root +:+ "/" +:+ parent)) as Hlist.
  revert Hlist.
  destruct (listdir fs1 _), (listdir fs2 _); intros Hlist; try done.
  apply existsb_perm; [intros; apply same_isfile | done].
Qed.

Lemma detect_language_order_free root :
  DetectStack.detect_language fs1 root = DetectStack.detect_language fs2 root.
Proof.
  unfold DetectStack.detect_language, DetectStack.file_exists.
  by rewrite !same_isfile, nested_tsconfig_order_free.
Qed.

Lemma detect_package_manager_order_free root :
  DetectStack.detect_package_manager fs1 root
  = DetectStack.detect_package_manager fs2 root.
Proof.
  unfold DetectStack.detect_package_manager, DetectStack.file_exists.
  by rewrite !same_isfile.
Qed.

Lemma detect_monorepo_order_free root :
  DetectStack.detect_monorepo fs1 root = DetectStack.detect_monorepo fs2 root.
Proof.
  unfold DetectStack.detect_monorepo, DetectStack.file_exists.
  rewrite same_read_json.
  by rewrite (existsb_perm (λ path, isfile fs1 path) (λ path, isfile fs2 path)
                _ _ same_isfile (reflexivity _)).
Qed.

Lemma workspace_member_order_free root parent entry :
  workspace_member fs1 root parent entry
  ↔ workspace_member fs2 root parent entry.
Proof.
  unfold workspace_member. rewrite same_isdir.
  pose proof (same_listing (root +:+ "/" +:+ parent)) as Hlist.
  revert Hlist.
  destruct (listdir fs1 _) as [l1|], (listdir fs2 _) as [l2|];
    intros Hlist; try done.
  split; intros (? & ? & es & [= <-] & Hin); (split_and!; [done..|]);
    eexists; (split; [done|]); [by rewrite <- Hlist | by rewrite Hlist].
Qed.

Lemma collect_all_deps_order_free root :
  DetectStack.collect_all_deps fs1 root = DetectStack.collect_all_deps fs2 root.
Proof.
  apply set_eq. intros name. unfold DetectStack.collect_all_deps. cbv zeta.
  rewrite !elem_of_parents_deps, !elem_of_add_deps_from, same_read_json.
  split; (intros [?|(p & e & es & Hin & Hd & Hl & He & Hdecl)]; [by left|]);
    right.
  - destruct (proj1 (workspace_member_order_free root p e))
      as (_ & Hd' & es' & Hl' & He');
      [split_and!; [done..|]; by exists es|].
    exists p, e, es'. by rewrite <- same_read_json.
  - destruct (proj2 (workspace_member_order_free root p e))
      as (_ & Hd' & es' & Hl' & He');
      [split_and!; [done..|]; by exists es|].
    exists p, e, es'. by rewrite same_read_json.
Qed.

Lemma structure_entry_order_free root parent st entry :
  DetectStack.structure_entry fs1 root parent st entry
  = DetectStack.structure_entry fs2 root parent st entry.
Proof. unfold DetectStack.structure_entry. by rewrite same_read_json. Qed.

Lemma fold_left_ext {A B} (f g : A → B → A) l : ∀ a,
  (∀ a b, f a b = g a b) → fold_left f l a = fold_left g l a.
Proof.
  induction l as [|b l IH]; intros a Hfg; simpl; [done|].
  rewrite Hfg. by apply IH.
Qed.

Lemma detect_structure_order_free root is_monorepo :
  DetectStack.detect_structure fs1 root is_monorepo
  = DetectStack.detect_structure fs2 root is_monorepo.
Proof.
  unfold DetectStack.detect_structure. destruct is_monorepo; [|done].
  cbn [negb].
  match goal with
  | |- (let '(_, _) := ?X1 in _) = (let '(_, _) := ?X2 in _) =>
      assert (X1 = X2) as ->; [|done]
  end.
  apply fold_left_ext. intros st parent. cbv zeta.
  unfold DetectStack.dir_exists. rewrite same_isdir. destruct (negb _); [done|].
  pose proof (same_listing (root +:+ "/" +:+ parent)) as Hlist.
  revert Hlist.
  destruct (listdir fs1 _) as [l1|], (listdir fs2 _) as [l2|];
    intros Hlist; try done.
  rewrite (sorted_order_free l1 l2 Hlist).
  apply fold_left_ext, structure_entry_order_free.
Qed.

Lemma detect_verification_commands_order_free root :
  DetectStack.detect_verification_commands fs1 root
  = DetectStack.detect_verification_commands fs2 root.
Proof. unfold DetectStack.detect_verification_commands. by rewrite same_read_json. Qed.

Lemma build_config_same root :
  DetectStack.build_config fs1 root = DetectStack.build_config fs2 root.
Proof.
  unfold DetectStack.build_config.
  by rewrite detect_language_order_free, detect_package_manager_order_free,
    detect_monorepo_order_free, collect_all_deps_order_free,
    detect_structure_order_free, detect_verification_commands_order_free,
    same_read_json.
Qed.

End ListingOrder.

(** X7. The configuration does not depend on the order in which the
    directories are listed: two file systems that differ in nothing but
    the order of their listings give the same [build_config], and so the
    same document. *)
Theorem build_config_order_free fs1 fs2 root :
  same_up_to_listing_order fs1 fs2 →
  DetectStack.build_config fs1 root = DetectStack.build_config fs2 root.
Proof. intros Hsame. by apply build_config_same. Qed.

Lemma build_config_order_free_witness :
  same_up_to_listing_order (listed ["ui"; "i18n"]) (listed ["i18n"; "ui"])
  ∧ DetectStack.build_config (listed ["ui"; "i18n"]) "proj"
    = DetectStack.build_config (listed ["i18n"; "ui"]) "proj".
Proof.
  assert (Hsame : same_up_to_listing_order
                    (listed ["ui"; "i18n"]) (listed ["i18n"; "ui"])).
  { split_and!; try done. intros p. simpl.
    destruct (String.eqb p "proj/packages"); [apply perm_swap | done]. }
  split; [exact Hsame|].
  exact (build_config_order_free _ _ "proj" Hsame).
Defined.

(** ** Coercion *)

Lemma srev_app a b : srev (a +:+ b) = srev b +:+ srev a.
Proof.
  induction a as [|c a IH]; simpl; [by rewrite append_nil_r|].
  by rewrite IH, append_assoc.
Qed.

Lemma drop_last_snoc s c : drop_last (s +:+ String c EmptyString) = s.
Proof.
  induction s as [|x s IH]; simpl; [done|]. rewrite IH.
  by destruct s.
Qed.

Lemma endswith_snoc s c :
  endswith (String c EmptyString) (s +:+ String c EmptyString) = true.
Proof.
  unfold endswith. rewrite srev_app. simpl. by rewrite Ascii.eqb_refl.
Qed.

(** X8. A value wrapped in a pair of double quotes, or of single quotes,
    is read as the string between them, whatever that string is: quoting
    keeps [true], [42] and the like from being coerced. *)
Theorem quoted_value_is_string s :
  _coerce (dquote +:+ s +:+ dquote) = Ok (SStr s)
  ∧ _coerce (squote +:+ s +:+ squote) = Ok (SStr s).
Proof.
  assert (Hquote : ∀ q : ascii,
    is_digit q = false → lower_char q ≠ "t"%char → lower_char q ≠ "f"%char →
    let v := String q EmptyString +:+ s +:+ String q EmptyString in
    String.eqb (lower v) "true" = false
    ∧ String.eqb (lower v) "false" = false
    ∧ isdigit v = false
    ∧ startswith (String q EmptyString) v = true
    ∧ endswith (String q EmptyString) v = true
    ∧ slice_1_m1 v = s).
  { intros q Hq Ht Hf v. split_and!.
    - apply String.eqb_neq. unfold v. simpl. congruence.
    - apply String.eqb_neq. unfold v. simpl. congruence.
    - unfold isdigit, v. simpl. by rewrite Hq.
    - unfold v. simpl. by rewrite Ascii.eqb_refl.
    - exact (endswith_snoc (String q s) q).
    - exact (drop_last_snoc s q). }
  unfold _coerce, dquote, squote. split.
  - pose proof (Hquote "034"%char) as H. cbv zeta in H.
    destruct H as (-> & -> & -> & -> & -> & ->); done.
  - pose proof (Hquote "039"%char) as H. cbv zeta in H.
    destruct H as (-> & -> & -> & -> & -> & ->); [done..|].
    by rewrite orb_true_r.
Qed.

Lemma digit_lower c :
  is_digit c = true → lower_char c ≠ "t"%char ∧ lower_char c ≠ "f"%char.
Proof. by_cases_on_char c. Qed.

Lemma isdigit_not_boolean val :
  isdigit val = true →
  String.eqb (lower val) "true" = false
  ∧ String.eqb (lower val) "false" = false.
Proof.
  unfold isdigit. destruct val as [|c s]; [done|].
  cbn [all_chars negb String.eqb andb].
  intros [_ [Hc _]%andb_true_iff]%andb_true_iff. destruct (digit_lower c Hc) as [Ht Hf].
  split; apply String.eqb_neq; simpl; congruence.
Qed.

(** X9. [_coerce] raises nothing but [ValueError], and only on a value
    that [isdigit] accepts; it does raise it whenever such a value holds a
    character that is not a decimal digit, as the superscript digits and
    the vulgar fractions of Latin-1. *)
Theorem coerce_raises val :
  (∀ e, _coerce val = Raise e → e = ValueError ∧ isdigit val = true)
  ∧ (isdigit val = true → all_chars is_decimal val = false →
     _coerce val = Raise ValueError).
Proof.
  split.
  - intros e. unfold _coerce, int_of. repeat case_match; try done.
    by intros [= <-].
  - intros Hdigit Hdec. unfold _coerce, int_of.
    destruct (isdigit_not_boolean val Hdigit) as [-> ->].
    by rewrite Hdigit, Hdec.
Qed.

Lemma coerce_raises_witness :
  isdigit ("4" +:+ String "178"%char EmptyString) = true
  ∧ all_chars is_decimal ("4" +:+ String "178"%char EmptyString) = false
  ∧ _coerce ("4" +:+ String "178"%char EmptyString) = Raise ValueError.
Proof.
  split_and!; [reflexivity | reflexivity |].
  exact (proj2 (coerce_raises ("4" +:+ String "178"%char EmptyString))
           eq_refl eq_refl).
Defined.

(** ** Texts without front matter *)

Lemma length_append a b :
  String.length (a +:+ b) = (String.length a + String.length b)%nat.
Proof. induction a as [|c a IH]; simpl; [done | by rewrite IH]. Qed.

Lemma parse_without_markers_witness :
  (∀ a b c, String "-" (String "-" (String "-" (String nl EmptyString)))
            ≠ a +:+ "---" +:+ b +:+ "---" +:+ c)
  ∧ parse_frontmatter (String "-" (String "-" (String "-" (String nl EmptyString))))
    = Ok [].
Proof.
  assert (Hno : ∀ a b c,
    String "-" (String "-" (String "-" (String nl EmptyString)))
    ≠ a +:+ "---" +:+ b +:+ "---" +:+ c).
  { intros a b c H%(f_equal String.length).
    rewrite !length_append in H. simpl in H. lia. }
  split; [exact Hno|].
  exact (parse_without_markers _ Hno).
Defined.

(** ** The notes after the front matter *)

Lemma frontmatter_before_notes body notes :
  body ≠ [] → headed body → Forall line_ok body →
  frontmatter_match (join_nl ("---" :: body ++ ["---"]) +:+ notes)
  = Some (join_nl body).
Proof.
  intros Hne Hhead Hall.
  rewrite join_nl_cons by by destruct body.
  rewrite join_nl_app by done.
  pose proof (lazy_join body notes Hne Hall) as Hlazy.
  destruct body as [|l body]; [done|].
  destruct Hhead as (c & l' & -> & Hc).
  destruct (join_nl_head c l' body) as [j Hj]. rewrite Hj in *.
  unfold frontmatter_match. cbn [join_nl].
  match goal with
  | |- Re.lit _ ?text _ = _ =>
      replace text
        with (String "-" (String "-" (String "-"
                (String nl (String c (j +:+ String nl ("---" +:+ notes)))))))
        by (simpl; by rewrite append_assoc)
  end.
  cbn [Re.lit]. rewrite !Ascii.eqb_refl.
  cbn [Re.ws_star]. replace (is_space nl) with true by done.
  rewrite (word_not_space c Hc). cbn [Re.lit].
  rewrite (word_not_nl c Hc), Ascii.eqb_refl.
  exact Hlazy.
Qed.

(** X12. Whatever follows the closing marker is ignored: when the four
    structures are well formed and not all empty, the rendered front
    matter followed by any text at all is parsed to the four structures.
    [render_config] itself writes the front matter followed by its fixed
    notes. *)
Theorem notes_are_ignored stack structure disciplines verification notes :
  well_formed_scalars stack = true →
  well_formed_values structure = true →
  well_formed_scalars disciplines = true →
  well_formed_scalars verification = true →
  document stack structure disciplines verification ≠ [] →
  DetectStack.render_config stack structure disciplines verification
  = front_matter stack structure disciplines verification +:+ default_notes
  ∧ parse_frontmatter
      (front_matter stack structure disciplines verification +:+ notes)
    = Ok (document stack structure disciplines verification).
Proof.
  intros Hstack Hstructure Hdisciplines Hverification Hdoc.
  apply well_formed_scalars_values in Hstack, Hdisciplines, Hverification.
  pose proof (roundtrip_values _ _ _ _ Hstack Hstructure Hverification
                Hdisciplines) as Hround.
  unfold front_matter, DetectStack.render_config, DetectStack.render_lines,
    document in *.
  rewrite !block_scalars.
  change ["---"; EmptyString; "# Project Notes"; EmptyString;
          "Add project-specific context here (optional, free-form).";
          EmptyString] with trailer.
  apply well_formed_values_spec in Hstack as [_ Hr1].
  apply well_formed_values_spec in Hstructure as [_ Hr2].
  apply well_formed_values_spec in Hverification as [_ Hr3].
  apply well_formed_values_spec in Hdisciplines as [_ Hr4].
  set (F := flat_map DetectStack.structure_lines) in *.
  set (B1 := DetectStack.block "stack:" F (scalars stack)) in *.
  set (B2 := DetectStack.block "structure:" F structure) in *.
  set (B3 := DetectStack.block "verification:" F (scalars verification)) in *.
  set (B4 := DetectStack.block "disciplines:" F (scalars disciplines)) in *.
  set (body := B1 ++ B2 ++ B3 ++ B4).
  replace (["---"] ++ B1 ++ B2 ++ B3 ++ B4 ++ trailer)
    with ("---" :: body ++ trailer) in Hround |- *
    by (unfold body; by rewrite <- !app_assoc).
  replace (["---"] ++ B1 ++ B2 ++ B3 ++ B4 ++ ["---"])
    with ("---" :: body ++ ["---"])
    by (unfold body; by rewrite <- !app_assoc).
  assert (Hhead : headed body).
  { repeat apply headed_app;
      [exact (block_headed "stack" F (scalars stack) eq_refl)
      |exact (block_headed "structure" F structure eq_refl)
      |exact (block_headed "verification" F (scalars verification) eq_refl)
      |exact (block_headed "disciplines" F (scalars disciplines) eq_refl)]. }
  assert (Hok : Forall line_ok body).
  { repeat apply Forall_app_2;
      [exact (block_lines_ok "stack" (scalars stack) eq_refl Hr1)
      |exact (block_lines_ok "structure" structure eq_refl Hr2)
      |exact (block_lines_ok "verification" (scalars verification) eq_refl Hr3)
      |exact (block_lines_ok "disciplines" (scalars disciplines) eq_refl Hr4)]. }
  assert (Hne : body ≠ []).
  { intros Hbody. apply Hdoc. unfold body in Hbody.
    apply app_eq_nil in Hbody as [H1 Hbody].
    apply app_eq_nil in Hbody as [H2 Hbody].
    apply app_eq_nil in Hbody as [H3 H4].
    apply block_nil in H1, H2, H3, H4. by rewrite H1, H2, H3, H4. }
  split.
  - replace ("---" :: body ++ trailer)
      with (("---" :: body ++ ["---"]) ++ tl trailer)
      by (by rewrite <- app_comm_cons, <- app_assoc).
    by rewrite join_nl_app by (unfold trailer; done).
  - unfold parse_frontmatter in *.
    rewrite (frontmatter_before_notes body notes Hne Hhead Hok).
    change trailer with ("---" :: tl trailer) in Hround.
    by rewrite (frontmatter_of_body body (tl trailer) Hne Hhead Hok) in Hround.
Qed.

Lemma notes_are_ignored_witness :
  well_formed_scalars [("language", SStr "go"); ("monorepo", SBool false)]
  = true
  ∧ parse_frontmatter
      (front_matter [("language", SStr "go"); ("monorepo", SBool false)] []
         [("plan_enforcement", SBool true)] []
       +:+ String nl "stack:" +:+ String nl "  language: rust"
       +:+ String nl "---" +:+ String nl "done")
    = Ok [("stack", TDict [("language", VScalar (SStr "go"));
                           ("monorepo", VScalar (SBool false))]);
          ("disciplines",
           TDict [("plan_enforcement", VScalar (SBool true))])].
Proof.
  split; [reflexivity|].
  exact (proj2 (notes_are_ignored
    [("language", SStr "go"); ("monorepo", SBool false)] []
    [("plan_enforcement", SBool true)] []
    (String nl "stack:" +:+ String nl "  language: rust"
     +:+ String nl "---" +:+ String nl "done")
    eq_refl eq_refl eq_refl eq_refl ltac:(discriminate))).
Defined.

(** ** What [build_config] returns is well formed *)

Lemma elem_of_keys_set {V} x k (v : V) d :
  x ∈ keys (dict_set k v d) ↔ x = k ∨ x ∈ keys d.
Proof.
  unfold keys. induction d as [|[k0 v0] d IH]; simpl.
  - rewrite list_elem_of_singleton. split; [by left|]. intros [?|?%elem_of_nil]; done.
  - destruct (String.eqb_spec k k0) as [->|Hne]; simpl.
    + rewrite !elem_of_cons. tauto.
    + rewrite !elem_of_cons, IH. tauto.
Qed.

Lemma well_formed_nil {V} (ok : V → bool) : well_formed ok [].
Proof. split; [apply NoDup_nil_2 | done]. Qed.

Lemma well_formed_set {V} (ok : V → bool) k v d :
  word_key k = true → ok v = true →
  well_formed ok d → well_formed ok (dict_set k v d).
Proof.
  intros Hk Hv [Hdup Hall]. split.
  - clear Hall. induction d as [|[k0 v0] d IH]; simpl.
    + apply NoDup_singleton.
    + apply NoDup_cons in Hdup as [Hnin Hdup].
      destruct (String.eqb_spec k k0) as [->|Hne]; simpl.
      * by apply NoDup_cons.
      * apply NoDup_cons. split; [|by apply IH].
        change (k0 ∉ keys (dict_set k v d)). rewrite elem_of_keys_set.
        intros [?|?]; [by subst | done].
  - clear Hdup. induction Hall as [|[k0 v0] d H0 Hall IH]; simpl.
    + by apply Forall_singleton.
    + destruct (String.eqb k k0); apply Forall_cons; by split.
Qed.

Lemma well_formed_update {V} (ok : V → bool) (e : dict V) : ∀ d,
  well_formed ok d →
  Forall (λ kv, word_key kv.1 = true ∧ ok kv.2 = true) e →
  well_formed ok (dict_update d e).
Proof.
  unfold dict_update.
  induction e as [|[k v] e IH]; intros d Hd He; simpl; [done|].
  apply Forall_cons in He as [[Hk Hv] He].
  apply IH; [by apply well_formed_set | done].
Qed.

Lemma well_formed_strings (d : dict string) :
  well_formed plain_string d →
  well_formed_scalars (map (λ kv, (kv.1, SStr kv.2)) d) = true.
Proof.
  intros [Hdup Hall]. unfold well_formed_scalars, distinct_keys.
  apply andb_true_iff. split.
  - apply bool_decide_eq_true. unfold keys in *. rewrite map_map. simpl.
    exact Hdup.
  - apply forallb_forall. intros [k x] [[k' s] [[= <- <-] Hin]]%in_map_iff.
    rewrite Forall_forall in Hall.
    destruct (Hall (k', s)) as [Hk Hs]; [by apply list_elem_of_In|].
    simpl in *. by rewrite Hk, Hs.
Qed.

Lemma well_formed_plain (d : dict scalar) :
  well_formed plain_scalar d → well_formed_scalars d = true.
Proof.
  intros [Hdup Hall]. unfold well_formed_scalars, distinct_keys.
  apply andb_true_iff. split; [by apply bool_decide_eq_true|].
  apply forallb_forall. intros [k x] Hin%list_elem_of_In.
  rewrite Forall_forall in Hall. destruct (Hall _ Hin) as [Hk Hx].
  simpl in *. by rewrite Hk, Hx.
Qed.

Lemma well_formed_found key t deps r :
  word_key key = true →
  forallb plain_string (map snd t) = true →
  well_formed plain_string r →
  well_formed plain_string (set_if_found key (first_match t deps) r).
Proof.
  intros Hkey Ht Hr. unfold set_if_found.
  destruct (first_match t deps) as [name|] eqn:Hname; [|done].
  apply well_formed_set; [done| |done].
  apply first_match_value in Hname. rewrite forallb_forall in Ht.
  by apply Ht, list_elem_of_In.
Qed.

Lemma from_deps_well_formed deps root_scripts package_manager :
  well_formed plain_string
    (DetectStack.detect_from_deps deps root_scripts package_manager).
Proof.
  unfold DetectStack.detect_from_deps. cbv zeta.
  apply well_formed_found; [done..|].
  match goal with
  | |- well_formed _ (if ?b then _ else _) => destruct b
  end;
  [match goal with
   | |- well_formed _ (if ?b then _ else _) => destruct b
   end|];
  try (apply well_formed_set; [done..|]);
  (apply well_formed_found; [done..|]);
  (apply well_formed_found; [done..|]);
  (apply well_formed_found; [done..|]);
  (apply well_formed_found; [done..|]);
  (match goal with
   | |- well_formed _ (if ?b then _ else _) => destruct b
   end;
   try (apply well_formed_set; [done..|]));
  (apply well_formed_found; [done..|]);
  apply well_formed_nil.
Qed.

Lemma language_plain fs root :
  nonempty (DetectStack.detect_language fs root) = true →
  plain_string (DetectStack.detect_language fs root) = true.
Proof. unfold DetectStack.detect_language. by repeat case_match. Qed.

Lemma runtime_plain language package_manager :
  nonempty (DetectStack.detect_runtime language package_manager) = true →
  plain_string (DetectStack.detect_runtime language package_manager) = true.
Proof. unfold DetectStack.detect_runtime. by repeat case_match. Qed.

Lemma package_manager_plain fs root :
  nonempty (DetectStack.detect_package_manager fs root) = true →
  plain_string (DetectStack.detect_package_manager fs root) = true.
Proof. unfold DetectStack.detect_package_manager. by repeat case_match. Qed.

Lemma well_formed_nonempty key val d :
  word_key key = true →
  (nonempty val = true → plain_string val = true) →
  well_formed plain_scalar d →
  well_formed plain_scalar (DetectStack.set_if_nonempty key val d).
Proof.
  intros Hkey Hval Hd. unfold DetectStack.set_if_nonempty.
  destruct (nonempty val); [|done]. apply well_formed_set; auto.
Qed.

Lemma verification_well_formed scripts (t : table) : ∀ commands,
  forallb (λ entry, word_key entry.2 && plain_string entry.1) t = true →
  well_formed plain_string commands →
  well_formed plain_string
    (fold_left (DetectStack.verification_step scripts) t commands).
Proof.
  induction t as [|[s c] t IH]; intros commands Ht Hc; [done|].
  cbn [fold_left forallb] in *. apply andb_true_iff in Ht as [Hsc Ht].
  apply andb_true_iff in Hsc as [Hcat Hname]. apply IH; [done|].
  unfold DetectStack.verification_step.
  destruct (dict_mem s scripts && negb (dict_mem c commands)); [|done].
  by apply well_formed_set.
Qed.

(** X13. The document that [build_config] and [render_config] write is
    read back by [parse_frontmatter] as it was built, for every project
    whose structure is well formed: the stack, the disciplines and the
    verification commands always are, since their keys are fixed words and
    their values come from the tables. *)
Theorem generated_config_reads_back fs root :
  well_formed_values (DetectStack.build_config fs root).1.1.2 = true →
  well_formed_scalars (DetectStack.build_config fs root).1.1.1 = true
  ∧ well_formed_scalars (DetectStack.build_config fs root).1.2 = true
  ∧ well_formed_scalars (DetectStack.build_config fs root).2 = true
  ∧ parse_frontmatter
      (DetectStack.render_config
         (DetectStack.build_config fs root).1.1.1
         (DetectStack.build_config fs root).1.1.2
         (DetectStack.build_config fs root).1.2
         (DetectStack.build_config fs root).2)
    = Ok (document
            (DetectStack.build_config fs root).1.1.1
            (DetectStack.build_config fs root).1.1.2
            (DetectStack.build_config fs root).1.2
            (DetectStack.build_config fs root).2).
Proof.
  intros Hstructure.
  assert (Hstack :
    well_formed_scalars (DetectStack.build_config fs root).1.1.1 = true).
  { unfold DetectStack.build_config. cbn [fst snd].
    apply well_formed_plain, well_formed_update.
    - apply well_formed_set; [done..|].
      apply well_formed_nonempty; [done | apply package_manager_plain |].
      apply well_formed_nonempty; [done | apply runtime_plain |].
      apply well_formed_nonempty; [done | apply language_plain |].
      apply well_formed_nil.
    - apply Forall_forall.
      intros [k x] [[k' s] [[= <- <-] Hin]]%list_elem_of_In%in_map_iff.
      destruct (from_deps_well_formed
                  (if String.eqb (DetectStack.detect_language fs root)
                                 "typescript"
                      || String.eqb (DetectStack.detect_language fs root)
                                    "javascript"
                   then DetectStack.collect_all_deps fs root else ∅)
                  (Some match read_json fs (root +:+ "/package.json") with
                        | Some pkg =>
                            if pkg_truthy pkg
                            then match pkg_scripts pkg with
                                 | Some s => s
                                 | None => []
                                 end
                            else []
                        | None => []
                        end)
                  (DetectStack.detect_package_manager fs root))
        as [_ Hall].
      rewrite Forall_forall in Hall.
      exact (Hall (k', s) (proj2 (list_elem_of_In _ _) Hin)). }
  assert (Hdisciplines :
    well_formed_scalars (DetectStack.build_config fs root).1.2 = true).
  { unfold DetectStack.build_config. cbn [fst snd].
    by destruct (DetectStack.should_enable_api_contracts _). }
  assert (Hverification :
    well_formed_scalars (DetectStack.build_config fs root).2 = true).
  { unfold DetectStack.build_config. cbn [fst snd].
    apply well_formed_strings.
    unfold DetectStack.detect_verification_commands.
    repeat case_match; try apply well_formed_nil;
      (apply verification_well_formed; [done | apply well_formed_nil]). }
  split_and!; [done..|].
  unfold DetectStack.render_config, DetectStack.render_lines, document.
  rewrite !block_scalars.
  apply roundtrip_values; by try apply well_formed_scalars_values.
Qed.

Lemma generated_config_reads_back_witness :
  well_formed_values (DetectStack.build_config bun_monorepo "proj").1.1.2
  = true
  ∧ dict_get "testing" (DetectStack.build_config bun_monorepo "proj").1.1.1
    = Some (SStr "bun-test")
  ∧ parse_frontmatter
      (DetectStack.render_config
         (DetectStack.build_config bun_monorepo "proj").1.1.1
         (DetectStack.build_config bun_monorepo "proj").1.1.2
         (DetectStack.build_config bun_monorepo "proj").1.2
         (DetectStack.build_config bun_monorepo "proj").2)
    = Ok (document
            (DetectStack.build_config bun_monorepo "proj").1.1.1
            (DetectStack.build_config bun_monorepo "proj").1.1.2
            (DetectStack.build_config bun_monorepo "proj").1.2
            (DetectStack.build_config bun_monorepo "proj").2).
Proof.
  assert (H : well_formed_values
                (DetectStack.build_config bun_monorepo "proj").1.1.2 = true)
    by (vm_compute; reflexivity).
  split_and!; [exact H | vm_compute; reflexivity |].
  exact (proj2 (proj2 (proj2
    (generated_config_reads_back bun_monorepo "proj" H)))).
Defined.

(** ** List items without a list *)

Lemma space_not_word c : is_space c = true → is_word c = false.
Proof. by_cases_on_char c. Qed.

Lemma ws_star_spaces {A} s (k : string → option A) r :
  Re.ws_star s k = Some r →
  ∃ ws rest, s = ws +:+ rest ∧ all_chars is_space ws = true
             ∧ k rest = Some r.
Proof.
  induction s as [|c s IH]; simpl.
  - intros Hk. by exists EmptyString, EmptyString.
  - destruct (is_space c) eqn:Hc.
    + destruct (Re.ws_star s k) as [r'|] eqn:Hs.
      * intros [= <-]. destruct (IH eq_refl) as (ws & rest & -> & Hws & Hk).
        exists (String c ws), rest. simpl. by rewrite Hc, Hws.
      * intros Hk. by exists EmptyString, (String c s).
    + intros Hk. by exists EmptyString, (String c s).
Qed.

(** A list item is white space, a dash and more. *)
Lemma list_match_shape line item :
  list_match line = Some item →
  ∃ c ws r, line = String c (ws +:+ String "-" r)
            ∧ is_space c = true ∧ all_chars is_space ws = true.
Proof.
  unfold list_match, Re.ws_plus at 1.
  destruct line as [|c s]; [done|].
  destruct (is_space c) eqn:Hc; [|done].
  intros (ws & rest & -> & Hws & Hk)%ws_star_spaces.
  destruct rest as [|d r]; [done|]. simpl in Hk.
  destruct (Ascii.eqb_spec d "-") as [->|]; [|done].
  by exists c, ws, r.
Qed.

Lemma lstrip_spaces ws s :
  all_chars is_space ws = true → lstrip (ws +:+ s) = lstrip s.
Proof.
  induction ws as [|c ws IH]; simpl; [done|].
  intros [-> Hws]%andb_true_iff. by apply IH.
Qed.

(** No key is read after white space that a dash follows. *)
Lemma ws_star_before_dash ws r :
  all_chars is_space ws = true →
  Re.ws_star (ws +:+ String "-" r)
    (λ rest, Re.word_plus rest colon_value) = None.
Proof.
  induction ws as [|c ws IH]; simpl; [done|].
  intros [Hc Hws]%andb_true_iff. rewrite Hc, (IH Hws).
  by rewrite (space_not_word c Hc).
Qed.

(** X14. A list item, a line of white space, a dash, white space and a
    text, is read only under a child key that has no value: when no list
    is being collected the line is dropped; it changes neither the result
    nor the current parent. *)
Theorem list_item_without_list st line item :
  list_match line = Some item →
  current_child_list st = None →
  parse_line st line = Ok (PState (result st) (current_parent st) None).
Proof.
  intros Hitem Hnone.
  destruct (list_match_shape line item Hitem) as (c & ws & r & -> & Hc & Hws).
  assert (Hstrip : ∃ r', strip (String c (ws +:+ String "-" r))
                         = String "-" r').
  { unfold strip. cbn [lstrip]. rewrite Hc, lstrip_spaces by done.
    rewrite lstrip_head by done. by apply rstrip_head. }
  destruct Hstrip as [r' Hstrip].
  assert (Hchild : child_match (String c (ws +:+ String "-" r)) = None).
  { unfold child_match, Re.ws_plus. rewrite Hc.
    by apply ws_star_before_dash. }
  assert (Htop : top_match (String c (ws +:+ String "-" r)) = None).
  { unfold top_match, Re.word_plus. by rewrite (space_not_word c Hc). }
  unfold parse_line. cbv zeta.
  rewrite Hstrip, Hitem, Hnone, Hchild, Htop.
  change (startswith "#" (String "-" r')) with false.
  cbn [nonempty negb orb].
  destruct (startswith "  " _); [|done]. by destruct (current_parent st).
Qed.

Lemma list_item_without_list_witness :
  list_match "  - apps/web" = Some "apps/web"
  ∧ parse_lines (PState [] None None) ["packages:"; "  - apps/web"]
    = Ok (PState [("packages", TDict [])] (Some "packages") None).
Proof.
  split; [reflexivity|].
  rewrite (parse_lines_cons _ _ _ _
             (parse_header_line (PState [] None None) "packages" eq_refl)).
  rewrite (parse_lines_cons _ _ _ _
             (list_item_without_list
                (PState [("packages", TDict [])] (Some "packages") None)
                "  - apps/web" "apps/web" eq_refl eq_refl)).
  reflexivity.
Defined.

(** ** The structure that is reported *)

Lemma existsb_eqb s l : existsb (String.eqb s) l = true → s ∈ l.
Proof.
  intros (x & Hin & ->%String.eqb_eq)%existsb_exists.
  by apply list_elem_of_In.
Qed.

Section Structure.
Variables (fs : filesystem) (root : string).

(** The fields set so far, and the packages collected so far, have
    something behind them. *)
Lemma structure_entry_sound parent st entry :
  workspace_member fs root parent entry →
  (∀ key v, dict_get key st.1 = Some v → structure_entry_found fs root key v) →
  (∀ path, path ∈ st.2 → shared_package_path fs root path) →
  (∀ key v,
     dict_get key (DetectStack.structure_entry fs root parent st entry).1
     = Some v →
     structure_entry_found fs root key v)
  ∧ (∀ path,
       path ∈ (DetectStack.structure_entry fs root parent st entry).2 →
       shared_package_path fs root path).
Proof.
  intros Hmember Hfields Hpaths. unfold DetectStack.structure_entry.
  destruct (read_json fs _) as [pkg|] eqn:Hpkg; [|done].
  destruct (pkg_truthy pkg) eqn:Htruthy; [|done]. cbn [negb].
  destruct st as [structure shared_packages]. cbn [fst snd] in *.
  fold (package_name pkg).
  destruct (String.eqb_spec parent "packages") as [->|_].
  - assert (Hdir : package_dir fs root "packages" entry pkg) by done.
    split.
    + destruct (contains "api" (lower entry)) eqn:Hapi;
        destruct (nonempty (package_name pkg)); cbn [fst]; try done.
      all: intros key v; rewrite dict_get_set;
        destruct (String.eqb_spec key "shared_api_package") as [->|];
        [|by apply Hfields].
      all: intros [= <-]; right; right; left; split; [done|];
        by exists entry, pkg.
    + destruct (nonempty (package_name pkg)) eqn:Hname; cbn [snd]; [|done].
      intros path [?|Hp%list_elem_of_singleton]%elem_of_app;
        [by apply Hpaths|].
      subst path. by exists entry, pkg.
  - destruct (String.eqb_spec parent "apps") as [->|_]; [|done].
    assert (Hdir : package_dir fs root "apps" entry pkg) by done.
    destruct (existsb _ ["api"; "server"; "backend"]) eqn:Hapi; [|].
    { split; [|done]. cbn [fst]. intros key v. rewrite dict_get_set.
      destruct (String.eqb_spec key "api_dir") as [->|]; [|by apply Hfields].
      intros [= <-]. left. split; [done|]. exists entry, pkg.
      split_and!; [done..|]. by apply existsb_eqb. }
    destruct (existsb _ ["web"; "app"; "client"; "frontend"]) eqn:Hweb;
      [|done].
    split; [|done]. cbn [fst]. intros key v. rewrite dict_get_set.
    destruct (String.eqb_spec key "web_dir") as [->|]; [|by apply Hfields].
    intros [= <-]. right. left. split; [done|]. exists entry, pkg.
    split_and!; [done..|]. by apply existsb_eqb.
Qed.

Lemma structure_entries_sound parent entries : ∀ st,
  (∀ entry, entry ∈ entries → workspace_member fs root parent entry) →
  (∀ key v, dict_get key st.1 = Some v → structure_entry_found fs root key v) →
  (∀ path, path ∈ st.2 → shared_package_path fs root path) →
  (∀ key v,
     dict_get key
       (fold_left (DetectStack.structure_entry fs root parent) entries st).1
     = Some v →
     structure_entry_found fs root key v)
  ∧ (∀ path,
       path ∈ (fold_left (DetectStack.structure_entry fs root parent)
                 entries st).2 →
       shared_package_path fs root path).
Proof.
  induction entries as [|entry entries IH]; intros st Hmembers Hfields Hpaths;
    [done|].
  cbn [fold_left].
  destruct (structure_entry_sound parent st entry) as [Hfields' Hpaths'];
    [apply Hmembers; by left | done..|].
  apply IH; [|done..]. intros e He. apply Hmembers. by right.
Qed.

Lemma structure_parents_sound parents : ∀ st,
  (∀ parent, parent ∈ parents → parent ∈ workspace_parents) →
  (∀ key v, dict_get key st.1 = Some v → structure_entry_found fs root key v) →
  (∀ path, path ∈ st.2 → shared_package_path fs root path) →
  let st' :=
    fold_left (λ st workspace_parent,
      let parent := root +:+ "/" +:+ workspace_parent in
      if negb (DetectStack.dir_exists fs parent) then st
      else match listdir fs parent with
           | Some entries =>
               fold_left (DetectStack.structure_entry fs root workspace_parent)
                         (sorted entries) st
           | None => st
           end) parents st in
  (∀ key v, dict_get key st'.1 = Some v → structure_entry_found fs root key v)
  ∧ (∀ path, path ∈ st'.2 → shared_package_path fs root path).
Proof.
  induction parents as [|parent parents IH]; intros st Hsub Hfields Hpaths;
    [done|].
  cbn [fold_left]. cbv zeta. apply IH; [intros p Hp; apply Hsub; by right|..];
    unfold DetectStack.dir_exists;
    destruct (isdir fs (root +:+ "/" +:+ parent)) eqn:Hdir; cbn [negb];
      try done;
    destruct (listdir fs (root +:+ "/" +:+ parent)) as [entries|] eqn:Hlist;
      try done;
    apply structure_entries_sound; try done;
    intros entry Hentry%(elem_of_Permutation_proper _ _ _ (sorted_perm entries));
    (split_and!; [apply Hsub; by left | done | by exists entries]).
Qed.

End Structure.

(** X15. Every field of the structure has a directory behind it: for a
    project that is no monorepo there is none; [api_dir] and [web_dir] are
    [apps/] and a listed entry of that directory whose manifest can be
    read and whose name in lower case is one of the fixed names;
    [shared_api_package] is the name in the manifest of a listed entry of
    [packages] with [api] in its name; [shared_packages] is a non-empty
    list of paths of listed entries of [packages] with a named manifest.
    No other field is reported. *)
Theorem structure_sound fs root is_monorepo key v :
  dict_get key (DetectStack.detect_structure fs root is_monorepo) = Some v →
  is_monorepo = true ∧ structure_entry_found fs root key v.
Proof.
  unfold DetectStack.detect_structure.
  destruct is_monorepo; [|done]. cbn [negb]. intros Hget. split; [done|].
  destruct (structure_parents_sound fs root workspace_parents ([], []))
    as [Hfields Hpaths];
    [done | by intros ? ? [=] | by intros ? ?%elem_of_nil |].
  cbv zeta in Hfields, Hpaths. revert Hget Hfields Hpaths.
  destruct (fold_left _ workspace_parents _) as [structure shared_packages].
  cbn [fst snd]. intros Hget Hfields Hpaths.
  destruct shared_packages as [|path paths]; [by apply Hfields|].
  rewrite dict_get_set in Hget.
  destruct (String.eqb_spec key "shared_packages") as [->|];
    [|by apply Hfields].
  injection Hget as <-. right. right. right. split; [done|].
  by exists (path :: paths).
Qed.

Lemma structure_sound_witness :
  dict_get "web_dir"
    (DetectStack.detect_structure small_monorepo "proj" true)
  = Some (VScalar (SStr "apps/web"))
  ∧ structure_entry_found small_monorepo "proj" "web_dir"
      (VScalar (SStr "apps/web")).
Proof.
  assert (H : dict_get "web_dir"
                (DetectStack.detect_structure small_monorepo "proj" true)
              = Some (VScalar (SStr "apps/web"))) by reflexivity.
  split; [exact H|].
  exact (proj2 (structure_sound small_monorepo "proj" true "web_dir" _ H)).
Defined.

(** ** Top-level scalars *)

Lemma parse_top_scalar_line st k v x :
  word_key k = true →
  reads_back v x →
  parse_line st (k +:+ ": " +:+ v)
  = Ok (PState (dict_set k (TScalar x) (result st)) None None).
Proof.
  intros Hk (Hnl & (c' & v' & -> & Hc') & Hcoerce).
  pose proof (top_match_line k (" " +:+ String c' v') Hk) as Htop.
  destruct (word_key_head k Hk) as (c & k' & -> & Hc & Hk').
  pose proof (word_not_space c Hc) as Hsp.
  set (line := String c k' +:+ ": " +:+ String c' v') in *.
  destruct (strip_head c (k' +:+ ": " +:+ String c' v') Hsp) as [r Hstrip].
  change (strip line = String c r) in Hstrip.
  assert (Hlist : list_match line = None) by by apply list_match_no_indent.
  assert (Hstart : startswith "  " line = false) by by apply word_not_indent.
  change (top_match line
          = Some (String c k', Re.dot_star (lstrip (" " +:+ String c' v'))))
    in Htop.
  simpl lstrip in Htop. rewrite Hc', dot_star_no_nl in Htop by done.
  destruct (strip_head c' v' Hc') as [r' Hr'].
  unfold parse_line. cbv zeta.
  rewrite Hstrip, Hlist, Hstart, Htop.
  simpl nonempty. rewrite (word_not_comment c r Hc).
  cbn [negb orb andb]. rewrite Hr' in *. simpl nonempty. cbn iota.
  rewrite Hcoerce, bind_Ok.
  by destruct (current_child_list st) as [[]|].
Qed.

Lemma parse_flat_lines entries : ∀ r,
  Forall (λ e, word_key e.1 = true ∧ reads_back e.2.1 e.2.2) entries →
  parse_lines (PState r None None) (map flat_line entries)
  = Ok (PState (dict_update r (map (λ e, (e.1, TScalar e.2.2)) entries))
               None None).
Proof.
  induction entries as [|[k [v x]] entries IH]; intros r Hall; [done|].
  apply Forall_cons in Hall as [[Hk Hv] Hall]. cbn [map fst snd] in *.
  rewrite (parse_lines_cons _ _ _ _
             (parse_top_scalar_line (PState r None None) k v x Hk Hv)).
  cbn [result]. by rewrite IH.
Qed.

Lemma flat_line_ok e :
  word_key e.1 = true → reads_back e.2.1 e.2.2 →
  line_ok (flat_line e) ∧ headed [flat_line e].
Proof.
  destruct e as [k [v x]]. cbn [fst snd]. intros Hk (Hnl & _ & _).
  destruct (word_key_head k Hk) as (c & k' & -> & Hc & Hk').
  unfold flat_line, line_ok, headed. cbn [fst snd]. split_and!.
  - rewrite !no_nl_app, Hnl, (no_nl_word (String c k')); [done|].
    simpl. by rewrite Hc.
  - exists c, (k' +:+ ": " +:+ v). split; [done | by apply word_not_dash].
  - by exists c, (k' +:+ ": " +:+ v).
Qed.

(** X16. A front matter made of top-level lines [key: text] is read as
    the mapping from each key to its coerced text; a key that comes again
    keeps its place and takes the later value, and whatever follows the
    closing marker is ignored. *)
Theorem flat_document entries notes :
  entries ≠ [] →
  Forall (λ e, word_key e.1 = true ∧ reads_back e.2.1 e.2.2) entries →
  parse_frontmatter
    (join_nl ("---" :: map flat_line entries ++ ["---"]) +:+ notes)
  = Ok (flat_result entries).
Proof.
  intros Hne Hall.
  assert (Hlines : Forall line_ok (map flat_line entries)).
  { apply Forall_fmap. eapply Forall_impl; [exact Hall|].
    intros e [Hk Hv]. by apply flat_line_ok. }
  assert (Hhead : headed (map flat_line entries)).
  { destruct entries as [|e entries]; [done|].
    apply Forall_cons in Hall as [[Hk Hv] _].
    exact (proj2 (flat_line_ok e Hk Hv)). }
  assert (Hbody : map flat_line entries ≠ []) by by destruct entries.
  unfold parse_frontmatter.
  rewrite (frontmatter_before_notes _ notes Hbody Hhead Hlines).
  rewrite split_join;
    [|done | eapply Forall_impl; [exact Hlines | by intros l [Hl _]]].
  by rewrite (parse_flat_lines entries [] Hall), bind_Ok.
Qed.

Lemma flat_document_witness :
  parse_frontmatter
    (join_nl ["---"; "name: demo"; "strict: TRUE"; "name: 'x y'"; "---";
              "name: ignored"])
  = Ok [("name", TScalar (SStr "x y")); ("strict", TScalar (SBool true))].
Proof.
  refine (flat_document
            [("name", ("demo", SStr "demo")); ("strict", ("TRUE", SBool true));
             ("name", ("'x y'", SStr "x y"))]
            (String nl "name: ignored") ltac:(discriminate) _).
  repeat first [apply Forall_nil_2 | apply Forall_cons_2];
    (split; [reflexivity|]);
    (split_and!; [reflexivity | by eexists _, _ | reflexivity]).
Defined.

(** ** The project root *)

Lemma rstrip_char_all a t :
  all_chars (Ascii.eqb a) t = true → rstrip_char a t = EmptyString.
Proof.
  induction t as [|c t IH]; simpl; [done|].
  intros [Hc Ht]%andb_true_iff. rewrite (IH Ht).
  by rewrite Ascii.eqb_sym, Hc.
Qed.

Lemma rstrip_char_app a s t :
  all_chars (Ascii.eqb a) t = true →
  rstrip_char a (s +:+ t) = rstrip_char a s.
Proof.
  intros Ht. induction s as [|c s IH]; simpl.
  - by apply rstrip_char_all.
  - by rewrite IH.
Qed.

(** X17. Slashes at the end of the project root do not count: [main]
    prints the same document for a root and for that root followed by any
    number of slashes. *)
Theorem main_ignores_trailing_slashes fs prog root slashes rest :
  all_chars (Ascii.eqb "/") slashes = true →
  DetectStackMain.main fs (prog :: (root +:+ slashes) :: rest)
  = DetectStackMain.main fs (prog :: root :: rest).
Proof.
  intros Hslashes. unfold DetectStackMain.main.
  by rewrite rstrip_char_app.
Qed.

Lemma main_ignores_trailing_slashes_witness :
  all_chars (Ascii.eqb "/") "//" = true
  ∧ DetectStackMain.main small_monorepo ["detect-stack.py"; "proj//"]
    = DetectStackMain.main small_monorepo ["detect-stack.py"; "proj"].
Proof.
  split; [reflexivity|].
  exact (main_ignores_trailing_slashes small_monorepo "detect-stack.py"
           "proj" "//" [] eq_refl).
Defined.

(** ** The older copy *)

(** X18. The older copy of detect-stack.py builds the same stack and the
    same disciplines as the newer one for every project whose package
    manager is not bun and in which no listed entry of a workspace parent
    holds a [tsconfig.json]: the two rules that the newer copy adds are
    the only differences there. *)
Theorem older_copy_same_stack fs root :
  DetectStack.detect_package_manager fs root ≠ "bun" →
  (∀ parent entry, ¬ nested_marker fs root parent entry) →
  (SoftwareDiscipline.build_config fs root).1.1
  = (DetectStack.build_config fs root).1.1.1
  ∧ (SoftwareDiscipline.build_config fs root).2
    = (DetectStack.build_config fs root).1.2.
Proof.
  intros Hpm%String.eqb_neq Hnested.
  assert (Hlang : SoftwareDiscipline.detect_language fs root
                  = DetectStack.detect_language fs root).
  { unfold DetectStack.detect_language, SoftwareDiscipline.detect_language.
    by rewrite (nested_tsconfig_false _ _ Hnested). }
  assert (Hdeps : ∀ deps root_scripts,
    DetectStack.detect_from_deps deps root_scripts
      (DetectStack.detect_package_manager fs root)
    = SoftwareDiscipline.detect_from_deps deps).
  { intros deps root_scripts.
    unfold DetectStack.detect_from_deps, SoftwareDiscipline.detect_from_deps.
    by rewrite Hpm, andb_false_r. }
  unfold SoftwareDiscipline.build_config, DetectStack.build_config.
  cbn [fst snd].
  unfold SoftwareDiscipline.detect_package_manager,
    SoftwareDiscipline.detect_monorepo, SoftwareDiscipline.collect_all_deps,
    SoftwareDiscipline.should_enable_api_contracts,
    SoftwareDiscipline.detect_runtime, DetectStack.detect_runtime.
  by rewrite Hlang, !Hdeps, Hpm.
Qed.

Lemma older_copy_same_stack_witness :
  DetectStack.detect_package_manager node_project "proj" ≠ "bun"
  ∧ (SoftwareDiscipline.build_config node_project "proj").1.1
    = (DetectStack.build_config node_project "proj").1.1.1.
Proof.
  assert (Hpm : DetectStack.detect_package_manager node_project "proj" ≠ "bun")
    by (vm_compute; discriminate).
  split; [exact Hpm|].
  refine (proj1 (older_copy_same_stack node_project "proj" Hpm _)).
  intros parent entry (_ & Hdir & _). discriminate Hdir.
Defined.

(** ** The indentation of a child line *)

Lemma space_not_dash c : is_space c = true → Ascii.eqb c "-" = false.
Proof. by_cases_on_char c. Qed.

Lemma not_space_not_blank c : is_space c = false → Ascii.eqb " " c = false.
Proof. by_cases_on_char c. Qed.

Lemma ws_star_greedy {A} ws c s (k : string → option A) x :
  all_chars is_space ws = true →
  is_space c = false →
  k (String c s) = Some x →
  Re.ws_star (ws +:+ String c s) k = Some x.
Proof.
  intros Hws Hc Hk. induction ws as [|w ws IH]; simpl in *.
  - by rewrite Hc.
  - apply andb_true_iff in Hws as [-> Hws]. by rewrite IH.
Qed.

Lemma ws_star_no_dash {A} ws c s (k : string → option A) :
  all_chars is_space ws = true →
  is_space c = false → Ascii.eqb c "-" = false →
  Re.ws_star (ws +:+ String c s) (λ r, Re.lit "-" r k) = None.
Proof.
  intros Hws Hc Hd. induction ws as [|w ws IH]; simpl in *.
  - by rewrite Hc, Hd.
  - apply andb_true_iff in Hws as [Hw Hws]. rewrite Hw, IH by done.
    by rewrite (space_not_dash w Hw).
Qed.

Lemma startswith_indent indent c s :
  nonempty indent = true → all_chars is_space indent = true →
  is_space c = false →
  startswith "  " (indent +:+ String c s) = startswith "  " indent.
Proof.
  intros Hne Hws Hc. destruct indent as [|a [|b indent]]; [done| |done].
  cbn [startswith String.append].
  by rewrite (not_space_not_blank c Hc), !andb_false_r.
Qed.

(** X19. The depth of the indentation is not looked at.  Inside a block,
    a line [key: text] under any white space that begins with two spaces
    sets the key in the block, however deep the indentation; under any
    other white space (a tab, one space) the line is dropped. *)
Theorem child_line_indentation st p d indent k v x :
  current_parent st = Some p →
  dict_get p (result st) = Some (TDict d) →
  word_key k = true →
  reads_back v x →
  nonempty indent = true →
  all_chars is_space indent = true →
  parse_line st (indent +:+ k +:+ ": " +:+ v)
  = Ok (if startswith "  " indent
        then PState (dict_set p (TDict (dict_set k (VScalar x) d)) (result st))
                    (Some p) None
        else PState (result st) (Some p) None).
Proof.
  intros Hparent Hblock Hk (Hnl & (c' & v' & -> & Hc') & Hcoerce) Hne Hws.
  destruct (word_key_head k Hk) as (c & k' & -> & Hc & Hk').
  pose proof (word_not_space c Hc) as Hsp.
  set (rest := k' +:+ ": " +:+ String c' v').
  set (line := indent +:+ String c rest).
  change (parse_line st line = Ok
    (if startswith "  " indent
     then PState (dict_set p (TDict (dict_set (String c k') (VScalar x) d))
                    (result st)) (Some p) None
     else PState (result st) (Some p) None)).
  assert (Hstrip : ∃ r, strip line = String c r).
  { unfold strip, line. rewrite lstrip_spaces by done.
    rewrite lstrip_head by done. by apply rstrip_head. }
  destruct Hstrip as [r Hstrip].
  assert (Hstart : startswith "  " line = startswith "  " indent)
    by by apply startswith_indent.
  destruct indent as [|w ws]; [done|]. simpl in Hws.
  apply andb_true_iff in Hws as [Hw Hws].
  assert (Hlist : list_match line = None).
  { unfold list_match, line. cbn [String.append Re.ws_plus]. rewrite Hw.
    apply ws_star_no_dash; [done..|]. by apply word_not_dash. }
  assert (Hchild : child_match line = Some (String c k', String c' v')).
  { unfold child_match, line. cbn [String.append Re.ws_plus]. rewrite Hw.
    apply ws_star_greedy; [done..|].
    apply (word_plus_colon (String c k')); [done|].
    rewrite colon_value_spec. simpl lstrip. rewrite Hc'.
    by rewrite dot_star_no_nl. }
  assert (Htop : top_match line = None).
  { unfold top_match, line. cbn [String.append Re.word_plus].
    by rewrite (space_not_word w Hw). }
  destruct (strip_head c' v' Hc') as [r' Hr'].
  unfold parse_line. cbv zeta.
  rewrite Hstrip, Hlist, Hstart, Hparent.
  simpl nonempty. rewrite (word_not_comment c r Hc). cbn [negb orb andb].
  destruct (startswith "  " (String w ws)).
  - rewrite Hchild, Hr' in *. simpl nonempty. cbn iota.
    rewrite Hcoerce, bind_Ok.
    rewrite (set_child_block p _ _ d), bind_Ok by done.
    by destruct (current_child_list st) as [[]|].
  - rewrite Htop. by destruct (current_child_list st) as [[]|].
Qed.

Lemma child_line_indentation_witness :
  parse_line (PState [("stack", TDict [])] (Some "stack") None)
    "      language: go"
  = Ok (PState [("stack", TDict [("language", VScalar (SStr "go"))])]
               (Some "stack") None).
Proof.
  refine (child_line_indentation
            (PState [("stack", TDict [])] (Some "stack") None)
            "stack" [] "      " "language" "go" (SStr "go")
            eq_refl eq_refl eq_refl _ eq_refl eq_refl).
  split_and!; [reflexivity | by eexists _, _ | reflexivity].
Defined.

(** ** The shared packages *)

Section SharedPackages.
Variables (fs : filesystem) (root : string).

Lemma structure_entry_shared parent st entry :
  (DetectStack.structure_entry fs root parent st entry).2
  = st.2 ++ (if String.eqb parent "packages" && named_package fs root entry
             then [parent +:+ "/" +:+ entry] else [])
  ∧ dict_get "shared_packages"
      (DetectStack.structure_entry fs root parent st entry).1
    = dict_get "shared_packages" st.1.
Proof.
  unfold DetectStack.structure_entry, named_package.
  destruct (String.eqb_spec parent "packages") as [->|Hne]; cbn [andb].
  - destruct (read_json fs _) as [pkg|]; [|by rewrite app_nil_r].
    destruct (pkg_truthy pkg); cbn [negb andb]; [|by rewrite app_nil_r].
    destruct st as [structure shared_packages]. fold (package_name pkg).
    destruct (contains "api" (lower entry)),
             (nonempty (package_name pkg)); cbn [fst snd];
      rewrite ?app_nil_r, ?dict_get_set; done.
  - rewrite app_nil_r.
    destruct (read_json fs _) as [pkg|]; [|done].
    destruct (pkg_truthy pkg); cbn [negb]; [|done].
    destruct st as [structure shared_packages].
    destruct (String.eqb parent "apps"); [|done].
    destruct (existsb _ ["api"; "server"; "backend"]);
      [cbn [fst snd]; by rewrite dict_get_set|].
    destruct (existsb _ ["web"; "app"; "client"; "frontend"]);
      [cbn [fst snd]; by rewrite dict_get_set | done].
Qed.

Lemma structure_entries_shared parent entries : ∀ st,
  (fold_left (DetectStack.structure_entry fs root parent) entries st).2
  = st.2 ++ (if String.eqb parent "packages"
             then map (λ entry, parent +:+ "/" +:+ entry)
                      (List.filter (named_package fs root) entries)
             else [])
  ∧ dict_get "shared_packages"
      (fold_left (DetectStack.structure_entry fs root parent) entries st).1
    = dict_get "shared_packages" st.1.
Proof.
  induction entries as [|entry entries IH]; intros st; cbn [fold_left].
  - by destruct (String.eqb parent "packages"); rewrite app_nil_r.
  - destruct (IH (DetectStack.structure_entry fs root parent st entry))
      as [-> ->].
    destruct (structure_entry_shared parent st entry) as [-> ->].
    split; [|done]. rewrite <- app_assoc. f_equal.
    destruct (String.eqb parent "packages"); cbn [andb List.filter]; [|done].
    by destruct (named_package fs root entry).
Qed.

(** One turn of the loop over the workspace parents. *)
Lemma structure_parent_shared parent st :
  let st' :=
    if negb (DetectStack.dir_exists fs (root +:+ "/" +:+ parent)) then st
    else match listdir fs (root +:+ "/" +:+ parent) with
         | Some entries =>
             fold_left (DetectStack.structure_entry fs root parent)
                       (sorted entries) st
         | None => st
         end in
  st'.2 = st.2 ++ (if String.eqb parent "packages"
                   then shared_package_paths fs root else [])
  ∧ dict_get "shared_packages" st'.1 = dict_get "shared_packages" st.1.
Proof.
  cbv zeta. unfold shared_package_paths, DetectStack.dir_exists.
  destruct (String.eqb_spec parent "packages") as [->|Hne].
  - destruct (isdir fs _); cbn [negb]; [|by rewrite app_nil_r].
    destruct (listdir fs _) as [entries|]; [|by rewrite app_nil_r].
    exact (structure_entries_shared "packages" (sorted entries) st).
  - rewrite app_nil_r.
    destruct (isdir fs _); cbn [negb]; [|done].
    destruct (listdir fs _) as [entries|]; [|done].
    destruct (structure_entries_shared parent (sorted entries) st) as [-> ->].
    apply String.eqb_neq in Hne. by rewrite Hne, app_nil_r.
Qed.

End SharedPackages.

(** X20. In a monorepo the field [shared_packages] is the list of the
    paths [packages/entry] of the entries of [packages] whose manifest can
    be read and has a name, in sorted order of the entries; the field is
    absent when there is no such entry, and the other workspace parents
    add nothing to it. *)
Theorem shared_packages_listed fs root :
  dict_get "shared_packages" (DetectStack.detect_structure fs root true)
  = match shared_package_paths fs root with
    | [] => None
    | paths => Some (VList (map SStr paths))
    end.
Proof.
  unfold DetectStack.detect_structure, workspace_parents.
  cbn [negb fold_left].
  set (step := λ (st : dict value * list string) (parent : string),
    if negb (DetectStack.dir_exists fs (root +:+ "/" +:+ parent)) then st
    else match listdir fs (root +:+ "/" +:+ parent) with
         | Some entries =>
             fold_left (DetectStack.structure_entry fs root parent)
                       (sorted entries) st
         | None => st
         end).
  change (dict_get "shared_packages"
            (let '(structure, shared_packages) :=
               step (step (step (step ([], []) "apps") "packages") "services")
                    "libs" in
             match shared_packages with
             | [] => structure
             | _ :: _ =>
                 dict_set "shared_packages" (VList (map SStr shared_packages))
                   structure
             end)
          = match shared_package_paths fs root with
            | [] => None
            | paths => Some (VList (map SStr paths))
            end).
  destruct (structure_parent_shared fs root "apps" ([], [])) as [H1 K1].
  fold (step ([], []) "apps") in H1, K1.
  destruct (structure_parent_shared fs root "packages" (step ([], []) "apps"))
    as [H2 K2].
  fold (step (step ([], []) "apps") "packages") in H2, K2.
  destruct (structure_parent_shared fs root "services"
              (step (step ([], []) "apps") "packages")) as [H3 K3].
  fold (step (step (step ([], []) "apps") "packages") "services") in H3, K3.
  destruct (structure_parent_shared fs root "libs"
              (step (step (step ([], []) "apps") "packages") "services"))
    as [H4 K4].
  fold (step (step (step (step ([], []) "apps") "packages") "services") "libs")
    in H4, K4.
  cbn [String.eqb Ascii.eqb Bool.eqb fst snd app] in H1, H2, H3, H4.
  rewrite app_nil_r in H3, H4. rewrite H3, H2, H1 in H4. cbn [app] in H4.
  rewrite K3, K2, K1 in K4. cbn [dict_get] in K4.
  destruct (step _ "libs") as [structure shared_packages].
  cbn [fst snd] in H4, K4. subst shared_packages.
  destruct (shared_package_paths fs root) as [|path paths]; [done|].
  by rewrite dict_get_set.
Qed.
